(** * Stat normalization and comparison engine of the fantasy team comparison tool

  A shallow embedding of the comparison core of [main.py]:
  [get_category_info_from_stats], [is_percentage_stat],
  [convert_percentage_value], [extract_stat_value], [is_lower_better_stat],
  [get_color_for_performance], the per-category loop of [compare_teams] and
  [compare_head_to_head].

  Python floats are IEEE binary64 numbers and are modelled by Rocq's primitive
  floats; a raised exception is an explicit result; the insertion-ordered
  dict [all_team_stats] is an association list in insertion order; printing
  is modelled by returning the values that are printed. *)

From Stdlib Require Import ZArith List String Ascii Bool Lia Floats.
From Stdlib Require Import Permutation Sorted DecimalString.
Import ListNotations.

Set Warnings "-inexact-float".

Open Scope Z_scope.

(** ** Python strings *)

Module PyStr.

Open Scope string_scope.

(** [c.lower()] on one character: only the letters A..Z change. *)
Definition lower_ascii (c : ascii) : ascii :=
  let n := nat_of_ascii c in
  if (65 <=? n)%nat && (n <=? 90)%nat then ascii_of_nat (n + 32) else c.

(** [s.lower()] *)
Fixpoint lower (s : string) : string :=
  match s with
  | EmptyString => EmptyString
  | String c t => String (lower_ascii c) (lower t)
  end.

(** [s.startswith(p)] *)
Fixpoint startswith (s p : string) {struct p} : bool :=
  match p, s with
  | EmptyString, _ => true
  | String _ _, EmptyString => false
  | String a p', String b s' => Ascii.eqb a b && startswith s' p'
  end.

(** [p in s] for strings: [p] starts at some position of [s]. *)
Fixpoint contains (p s : string) : bool :=
  startswith s p ||
  match s with
  | EmptyString => false
  | String _ t => contains p t
  end.

(** [s.endswith(p)] *)
Fixpoint endswith (s p : string) : bool :=
  String.eqb s p ||
  match s with
  | EmptyString => false
  | String _ t => endswith t p
  end.

(** [str(n)] for a non-negative count. *)
Definition of_nat (n : nat) : string :=
  NilEmpty.string_of_uint (Nat.to_uint n).

End PyStr.

(** ** Python values *)

(** The exceptions the core can meet. *)
Inductive exn : Type :=
| ValueError
| TypeError
| OverflowError
| ZeroDivisionError.

(** The outcome of evaluating a Python expression: a value or a raised
  exception. *)
Inductive outcome (A : Type) : Type :=
| Ret (a : A)
| Exc (e : exn).
Arguments Ret {A} a.
Arguments Exc {A} e.

Definition bind {A B : Type} (m : outcome A) (k : A -> outcome B) : outcome B :=
  match m with
  | Ret a => k a
  | Exc e => Exc e
  end.

Notation "x <- m ;; k" := (bind m (fun x => k))
  (at level 61, m at next level, right associativity).

(** What a [Stat.value] can hold: [None], an [APIAttr] object (with the
  entries of its [__dict__]), a string, an int or a float. *)
Inductive PyVal : Type :=
| VNone
| VAttr (d : list (string * string))
| VStr (s : string)
| VInt (z : Z)
| VFloat (f : float).

(** [isinstance(val, APIAttr) and not val.__dict__] *)
Definition is_empty_attr (v : PyVal) : bool :=
  match v with
  | VAttr [] => true
  | _ => false
  end.

(** [val == s] for a string literal [s]. *)
Definition eq_str (v : PyVal) (s : string) : bool :=
  match v with
  | VStr t => String.eqb t s
  | _ => false
  end.

(** Truth value of [val] in [val if val else None]. An [APIAttr] is a plain
  object and is true; a NaN is non-zero and is true. *)
Definition truthy (v : PyVal) : bool :=
  match v with
  | VNone => false
  | VAttr _ => true
  | VStr s => negb (String.eqb s EmptyString)
  | VInt z => negb (z =? 0)
  | VFloat f => negb (PrimFloat.eqb f 0)
  end.

(** [float(z)] for an int: the nearest binary64 number (ties to even), and
  [OverflowError] when that is not finite. *)
Definition float_of_Z (z : Z) : outcome float :=
  match binary_normalize prec emax z 0 false with
  | S754_infinity _ => Exc OverflowError
  | sf => Ret (SF2Prim sf)
  end.

(** Exact comparison of a float with an int, as Python compares them:
  [None] for a NaN. *)
Definition cmp_float_Z (f : float) (z : Z) : option comparison :=
  match Prim2SF f with
  | S754_nan => None
  | S754_infinity s => Some (if s then Lt else Gt)
  | S754_zero _ => Some (0 ?= z)
  | S754_finite s m e =>
      let n := if s then Z.neg m else Z.pos m in
      Some (if 0 <=? e then (n * 2 ^ e ?= z) else (n ?= z * 2 ^ (- e)))
  end.

(** A fragment of the builtins [float] and [int] on strings, used to run the
    model on concrete inputs: a string of decimal digits is read as the number
    it writes, every other string is refused. The inputs it is run on hold
    digit strings, or strings the builtins refuse as well. *)
Fixpoint digits_value (s : string) (acc : Z) : option Z :=
  match s with
  | EmptyString => Some acc
  | String c t =>
      let n := Z.of_nat (nat_of_ascii c) in
      if (48 <=? n) && (n <=? 57) then digits_value t (10 * acc + (n - 48))
      else None
  end.

Definition int_of_digits (s : string) : option Z :=
  match s with
  | EmptyString => None
  | _ => digits_value s 0
  end.

Definition float_of_digits (s : string) : option float :=
  option_map (fun z => SF2Prim (binary_normalize prec emax z 0 false))
    (int_of_digits s).

(** What [input()] gives at one prompt: a line, or a [KeyboardInterrupt];
    the end of the list is the end of the input, an [EOFError]. *)
Inductive Input : Type :=
| Line (s : string)
| Interrupt.

(** How a prompt ends: with a choice, with [sys.exit(code)], or with an
    exception that leaves the function. *)
Inductive Prompt (A : Type) : Type :=
| Chosen (a : A)
| Exit (code : Z)
| Interrupted
| EndOfInput.
Arguments Chosen {A} a.
Arguments Exit {A} code.
Arguments Interrupted {A}.
Arguments EndOfInput {A}.

Section Builtins.

(** The builtins [float(s)] and [int(s)] on a string are parameters of the
    development: [None] stands for the [ValueError] of a string that is not
    a number. *)
Variable float_of_str : string -> option float.
Variable int_of_str : string -> option Z.

(** [float(val)] *)
Definition py_float (v : PyVal) : outcome float :=
  match v with
  | VNone => Exc TypeError
  | VAttr _ => Exc TypeError
  | VStr s =>
      match float_of_str s with
      | Some f => Ret f
      | None => Exc ValueError
      end
  | VInt z => float_of_Z z
  | VFloat f => Ret f
  end.

(** [a < b]: [None] is the [TypeError] of operands that have no order. *)
Definition py_lt (a b : PyVal) : option bool :=
  match a, b with
  | VFloat x, VFloat y => Some (PrimFloat.ltb x y)
  | VInt x, VInt y => Some (x <? y)
  | VFloat x, VInt y =>
      Some match cmp_float_Z x y with Some Lt => true | _ => false end
  | VInt x, VFloat y =>
      Some match cmp_float_Z y x with Some Gt => true | _ => false end
  | VStr s, VStr t => Some (String.ltb s t)
  | _, _ => None
  end.

(** [a > b] *)
Definition py_gt (a b : PyVal) : option bool := py_lt b a.

(** *** [is_percentage_stat] *)

Definition percentage_stat_ids : list string := ["5"; "8"; "11"]%string.

Definition is_percentage_stat (stat_id_or_index : string)
    (stat_display : option string) : bool :=
  if existsb (String.eqb stat_id_or_index) percentage_stat_ids then true
  else
    match stat_display with
    | Some d =>
        if negb (String.eqb d EmptyString) && PyStr.contains "%" d then true
        else false
    | None => false
    end.

(** *** [convert_percentage_value] *)

(** The body of the [try]: the scale chosen by the size of [val]. *)
Definition percentage_scale (val : float) : float :=
  if (val <? 1)%float then val
  else if (1000 <=? val)%float then ((val / 100) / 100)%float
  else if (100 <=? val)%float then ((val / 10) / 100)%float
  else if (1 <=? val)%float then (val / 100)%float
  else val.

(** [ValueError] and [TypeError] of [float(raw_value)] give [None]; any
    other exception leaves the function. *)
Definition convert_percentage_value (raw_value : PyVal)
    : outcome (option float) :=
  match py_float raw_value with
  | Ret val => Ret (Some (percentage_scale val))
  | Exc ValueError => Ret None
  | Exc TypeError => Ret None
  | Exc e => Exc e
  end.

(** *** Stat records and [get_category_info_from_stats] *)

(** A [Stat] of the provider, as the core probes it: [stat_id] is
    [str(stat.id)] when the object has an [id], [stat_display] and
    [stat_value] are the attributes [display] and [value] when present. *)
Record Stat : Type := mkStat {
  stat_id : option string;
  stat_display : option string;
  stat_value : option PyVal
}.

(** The dict built for each kept category. *)
Record CatInfo : Type := mkCatInfo {
  cat_id : string;
  cat_name : string;
  cat_index : nat
}.

(** [category_name not in ["A/T"]] *)
Definition ratio_exceptions : list string := ["A/T"]%string.

(** The loop over [enumerate(stats_list)], from position [idx] on. *)
Fixpoint category_info_from (idx : nat) (stats_list : list Stat)
    : list CatInfo :=
  match stats_list with
  | [] => []
  | stat :: rest =>
      let tail := category_info_from (S idx) rest in
      match stat_display stat with
      | Some category_name =>
          if String.eqb category_name EmptyString then tail
          else if PyStr.contains "/" category_name
                  && negb (existsb (String.eqb category_name) ratio_exceptions)
          then tail
          else
            let id := match stat_id stat with
                      | Some i => i
                      | None => PyStr.of_nat idx
                      end in
            mkCatInfo id category_name idx :: tail
      | None => tail
      end
  end.

Definition get_category_info_from_stats (stats_list : list Stat)
    : list CatInfo :=
  category_info_from 0 stats_list.

(** *** [extract_stat_value] *)

(** What both lookups do with the [val] they found; [is_percentage] is the
    percentage test of the lookup. *)
Definition normalize_value (is_percentage : bool) (val : PyVal)
    : outcome (option PyVal) :=
  if is_empty_attr val then Ret None
  else if eq_str val "/" || eq_str val "" then Ret None
  else if is_percentage then
    converted <- convert_percentage_value val ;;
    Ret (option_map VFloat converted)
  else
    match py_float val with
    | Ret f => Ret (Some (VFloat f))
    | Exc ValueError => Ret (if truthy val then Some val else None)
    | Exc TypeError => Ret (if truthy val then Some val else None)
    | Exc e => Exc e
    end.

(** The first loop: the value of the first stat with the wanted id that has
    a [value] attribute. *)
Fixpoint find_by_id (stats_list : list Stat) (stat_id_or_index : string)
    : option PyVal :=
  match stats_list with
  | [] => None
  | stat :: rest =>
      match stat_id stat, stat_value stat with
      | Some i, Some val =>
          if String.eqb i stat_id_or_index then Some val
          else find_by_id rest stat_id_or_index
      | _, _ => find_by_id rest stat_id_or_index
      end
  end.

(** The fallback: the stat at position [int(stat_id_or_index)], when that
    is a position of the list. *)
Definition find_by_index (stats_list : list Stat) (stat_id_or_index : string)
    : option Stat :=
  match int_of_str stat_id_or_index with
  | Some idx =>
      if (0 <=? idx) && (idx <? Z.of_nat (List.length stats_list))
      then nth_error stats_list (Z.to_nat idx)
      else None
  | None => None
  end.

(** ['%' in stat.display] of the fallback. *)
Definition display_has_percent (stat : Stat) : bool :=
  match stat_display stat with
  | Some d => PyStr.contains "%" d
  | None => false
  end.

(** The body of the outer [try]. *)
Definition extract_stat_value_body (stats_list : list Stat)
    (stat_id_or_index : string) (stat_display : option string)
    : outcome (option PyVal) :=
  let is_percentage := is_percentage_stat stat_id_or_index stat_display in
  match find_by_id stats_list stat_id_or_index with
  | Some val => normalize_value is_percentage val
  | None =>
      match find_by_index stats_list stat_id_or_index with
      | Some stat =>
          match stat_value stat with
          | Some val => normalize_value (display_has_percent stat) val
          | None => Ret None
          end
      | None => Ret None
      end
  end.

(** [except Exception: pass] and the final [return None]: no exception
    leaves the function. *)
Definition extract_stat_value (stats_list : list Stat)
    (stat_id_or_index : string) (stat_display : option string)
    : option PyVal :=
  match stats_list with
  | [] => None
  | _ =>
      match extract_stat_value_body stats_list stat_id_or_index stat_display with
      | Ret r => r
      | Exc _ => None
      end
  end.

(** *** [is_lower_better_stat] *)

Definition is_lower_better_stat (category_name : string)
    (stat_id : option string) : bool :=
  let category_lower := PyStr.lower category_name in
  if PyStr.contains "turnover" category_lower then true
  else if existsb (String.eqb category_lower) ["to"; "tov"]%string then true
  else if PyStr.startswith category_lower "to "
          || PyStr.endswith category_lower " to" then true
  else
    match stat_id with
    | Some i =>
        if negb (String.eqb i EmptyString) && String.eqb i "19" then true
        else false
    | None => false
    end.

(** *** [get_color_for_performance] *)

Inductive Color : Type := GREEN | YELLOW | RED | RESET.

(** [a / b] on two counts: [ZeroDivisionError] for a zero divisor, otherwise
    the quotient of the two counts as floats (exact conversions for counts
    below 2^53). *)
Definition py_truediv (a b : nat) : outcome float :=
  if (b =? 0)%nat then Exc ZeroDivisionError
  else
    x <- float_of_Z (Z.of_nat a) ;;
    y <- float_of_Z (Z.of_nat b) ;;
    Ret (x / y)%float.

Definition get_color_for_performance (better_than total_teams : nat)
    : outcome Color :=
  if (total_teams =? 0)%nat then Ret RESET
  else
    ratio <- py_truediv better_than total_teams ;;
    if (0.7 <=? ratio)%float then Ret GREEN
    else if (ratio <? 0.3)%float then Ret RED
    else Ret YELLOW.

(** *** Stable sorting, as [sorted] and [list.sort] do it *)

(** Python's sort is stable and uses only [<] on the keys; with
    [reverse=True] it reverses the list, sorts it and reverses the result, so
    that equal keys keep their order. [None] is the [TypeError] of a
    comparison. For keys in a total order every stable sort gives the same
    list; this one inserts from the right. *)
Section Sorting.

Context {A K : Type}.
Variable key : A -> K.
Variable lt : K -> K -> option bool.

Fixpoint insert_sorted (x : A) (l : list A) : option (list A) :=
  match l with
  | [] => Some [x]
  | y :: t =>
      match lt (key y) (key x) with
      | None => None
      | Some true => option_map (cons y) (insert_sorted x t)
      | Some false => Some (x :: y :: t)
      end
  end.

Fixpoint sort_asc (l : list A) : option (list A) :=
  match l with
  | [] => Some []
  | x :: t =>
      match sort_asc t with
      | Some s => insert_sorted x s
      | None => None
      end
  end.

Definition py_sorted (reverse : bool) (l : list A) : option (list A) :=
  if reverse then option_map (@rev A) (sort_asc (rev l)) else sort_asc l.

End Sorting.

(** A [TypeError] of a comparison, raised. *)
Definition raise_type_error {A : Type} (o : option A) : outcome A :=
  match o with
  | Some a => Ret a
  | None => Exc TypeError
  end.

(** *** The per-category loop of [compare_teams] *)

Record Team : Type := mkTeam {
  team_id : Z;
  team_name : string
}.

(** [{team.team_id: team for team in all_teams}], read at [tid]: the last
    team of the list with that id. *)
Fixpoint team_lookup (all_teams : list Team) (tid : Z) : option Team :=
  match all_teams with
  | [] => None
  | t :: rest =>
      match team_lookup rest tid with
      | Some t' => Some t'
      | None => if team_id t =? tid then Some t else None
      end
  end.

(** [all_team_stats]: team id to stat list, in insertion order. *)
Definition TeamStats : Type := list (Z * list Stat).

(** [all_team_stats.get(team_id)] *)
Fixpoint stats_get (all_team_stats : TeamStats) (tid : Z)
    : option (list Stat) :=
  match all_team_stats with
  | [] => None
  | (k, stats_list) :: rest =>
      if k =? tid then Some stats_list else stats_get rest tid
  end.

(** The loop that fills [all_values] and [other_values]. *)
Fixpoint collect_values (all_teams : list Team) (selected_team_id : Z)
    (stat_id category_name : string) (all_team_stats : TeamStats)
    : list (string * PyVal) * list (string * PyVal) :=
  match all_team_stats with
  | [] => ([], [])
  | (tid, stats_list) :: rest =>
      let '(all_values, other_values) :=
        collect_values all_teams selected_team_id stat_id category_name rest in
      match team_lookup all_teams tid with
      | None => (all_values, other_values)
      | Some team =>
          match extract_stat_value stats_list stat_id (Some category_name) with
          | Some value =>
              ((team_name team, value) :: all_values,
               if tid =? selected_team_id then other_values
               else (team_name team, value) :: other_values)
          | None => (all_values, other_values)
          end
      end
  end.

(** [sum(1 for _, val in other_values if test(val))] *)
Fixpoint count_where (test : PyVal -> option bool)
    (other_values : list (string * PyVal)) : option nat :=
  match other_values with
  | [] => Some 0%nat
  | (_, val) :: rest =>
      match test val with
      | None => None
      | Some b =>
          option_map (fun n => if b then S n else n) (count_where test rest)
      end
  end.

(** [better_than]: the opponents the selected value beats, strictly. *)
Definition better_than_count (higher_is_better : bool) (selected_value : PyVal)
    (other_values : list (string * PyVal)) : option nat :=
  if higher_is_better
  then count_where (fun val => py_gt selected_value val) other_values
  else count_where (fun val => py_lt selected_value val) other_values.

(** One printed line of the category table, before formatting: [RowNA] is
    the line of dashes; [vs_color] is [None] where the line shows ["-"]
    instead of a coloured ratio. *)
Inductive CategoryRow : Type :=
| RowNA (category_name : string)
| RowValues (category_name : string) (selected_value : PyVal)
    (vs_teams : string) (vs_color : option Color)
    (best worst : string * PyVal).

(** [f"{better_than}/{len(other_values)}"] *)
Definition ratio_string (better_than total : nat) : string :=
  (PyStr.of_nat better_than ++ "/" ++ PyStr.of_nat total)%string.

(** [stat_id] as the category loop uses it: the index when the id is empty. *)
Definition category_stat_id (cat_info : CatInfo) : string :=
  if String.eqb (cat_id cat_info) EmptyString
  then PyStr.of_nat (cat_index cat_info)
  else cat_id cat_info.

(** The body of [for cat_info in categories_info]. *)
Definition compare_category (selected_team_id : Z) (selected_stats : list Stat)
    (all_teams : list Team) (all_team_stats : TeamStats) (cat_info : CatInfo)
    : outcome CategoryRow :=
  let stat_id := category_stat_id cat_info in
  let category_name := cat_name cat_info in
  match extract_stat_value selected_stats stat_id (Some category_name) with
  | None => Ret (RowNA category_name)
  | Some selected_value =>
      let '(all_values, other_values) :=
        collect_values all_teams selected_team_id stat_id category_name
          all_team_stats in
      match all_values with
      | [] => Ret (RowNA category_name)
      | first :: _ =>
          let higher_is_better :=
            negb (is_lower_better_stat category_name (Some stat_id)) in
          sorted_all_values <-
            raise_type_error (py_sorted snd py_lt higher_is_better all_values) ;;
          let best := hd first sorted_all_values in
          let worst := last sorted_all_values first in
          match other_values with
          | [] => Ret (RowValues category_name selected_value "0/0" None
                         best worst)
          | _ :: _ =>
              better_than <-
                raise_type_error
                  (better_than_count higher_is_better selected_value
                     other_values) ;;
              color <-
                get_color_for_performance better_than
                  (List.length other_values) ;;
              Ret (RowValues category_name selected_value
                     (ratio_string better_than (List.length other_values))
                     (Some color) best worst)
          end
      end
  end.

(** *** [compare_head_to_head] *)

Inductive ResultCode : Type := W | L | T.

Record MatchupResult : Type := mkMatchupResult {
  team : Team;
  score : string;
  wins : nat;
  losses : nat;
  category_results : list (string * ResultCode)
}.

(** One category of one opponent: [None] when the category is skipped. *)
Definition category_outcome (selected_stats opponent_stats : list Stat)
    (cat_info : CatInfo) : outcome (option (string * ResultCode)) :=
  let stat_id := cat_id cat_info in
  let category_name := cat_name cat_info in
  if String.eqb stat_id EmptyString then Ret None
  else
    match extract_stat_value selected_stats stat_id (Some category_name),
          extract_stat_value opponent_stats stat_id (Some category_name) with
    | Some selected_value, Some opponent_value =>
        let higher_is_better :=
          negb (is_lower_better_stat category_name (Some stat_id)) in
        if higher_is_better then
          gt <- raise_type_error (py_gt selected_value opponent_value) ;;
          if gt then Ret (Some (category_name, W))
          else
            lt <- raise_type_error (py_lt selected_value opponent_value) ;;
            if lt then Ret (Some (category_name, L))
            else Ret (Some (category_name, T))
        else
          lt <- raise_type_error (py_lt selected_value opponent_value) ;;
          if lt then Ret (Some (category_name, W))
          else
            gt <- raise_type_error (py_gt selected_value opponent_value) ;;
            if gt then Ret (Some (category_name, L))
            else Ret (Some (category_name, T))
    | _, _ => Ret None
    end.

(** The loop over the categories for one opponent: [(wins, losses,
    category_results)]. *)
Fixpoint tally_categories (selected_stats opponent_stats : list Stat)
    (categories_info : list CatInfo)
    : outcome (nat * nat * list (string * ResultCode)) :=
  match categories_info with
  | [] => Ret (0%nat, 0%nat, [])
  | cat_info :: rest =>
      o <- category_outcome selected_stats opponent_stats cat_info ;;
      r <- tally_categories selected_stats opponent_stats rest ;;
      let '(wins, losses, results) := r in
      match o with
      | None => Ret (wins, losses, results)
      | Some (category_name, W) =>
          Ret (S wins, losses, (category_name, W) :: results)
      | Some (category_name, L) =>
          Ret (wins, S losses, (category_name, L) :: results)
      | Some (category_name, T) =>
          Ret (wins, losses, (category_name, T) :: results)
      end
  end.

(** [f"{wins}-{losses}"] *)
Definition score_string (wins losses : nat) : string :=
  (PyStr.of_nat wins ++ "-" ++ PyStr.of_nat losses)%string.

(** The loop over [all_team_stats.items()]: [matchup_results] before it is
    sorted. *)
Fixpoint matchup_results (selected_team_id : Z) (selected_stats : list Stat)
    (all_teams : list Team) (categories_info : list CatInfo)
    (all_team_stats : TeamStats) : outcome (list MatchupResult) :=
  match all_team_stats with
  | [] => Ret []
  | (tid, stats_list) :: rest =>
      if tid =? selected_team_id then
        matchup_results selected_team_id selected_stats all_teams
          categories_info rest
      else
        match team_lookup all_teams tid with
        | None =>
            matchup_results selected_team_id selected_stats all_teams
              categories_info rest
        | Some opponent_team =>
            r <- tally_categories selected_stats stats_list categories_info ;;
            let '(wins, losses, results) := r in
            others <-
              matchup_results selected_team_id selected_stats all_teams
                categories_info rest ;;
            Ret (mkMatchupResult opponent_team (score_string wins losses)
                   wins losses results :: others)
        end
  end.

(** [x < y] on two win counts. *)
Definition lt_wins (x y : nat) : option bool := Some (x <? y)%nat.

Definition compare_head_to_head (selected_team_id : Z)
    (selected_stats : list Stat) (all_teams : list Team)
    (all_team_stats : TeamStats) (categories_info : list CatInfo)
    : outcome (list MatchupResult) :=
  results <-
    matchup_results selected_team_id selected_stats all_teams categories_info
      all_team_stats ;;
  raise_type_error (py_sorted wins lt_wins true results).

(** *** [compare_teams] *)

(** What one run prints: one of the three early messages, or the category
    table followed by the head-to-head table. *)
Inductive Report : Type :=
| NoStats
| NoCategories
| NoSelectedStats
| Tables (rows : list CategoryRow) (matchups : list MatchupResult).

(** The first non-empty stat list of the dict. *)
Fixpoint sample_stats (all_team_stats : TeamStats) : option (list Stat) :=
  match all_team_stats with
  | [] => None
  | (_, []) :: rest => sample_stats rest
  | (_, stats_list) :: _ => Some stats_list
  end.

Fixpoint category_rows (selected_team_id : Z) (selected_stats : list Stat)
    (all_teams : list Team) (all_team_stats : TeamStats)
    (categories_info : list CatInfo) : outcome (list CategoryRow) :=
  match categories_info with
  | [] => Ret []
  | cat_info :: rest =>
      row <- compare_category selected_team_id selected_stats all_teams
               all_team_stats cat_info ;;
      rows <- category_rows selected_team_id selected_stats all_teams
                all_team_stats rest ;;
      Ret (row :: rows)
  end.

(** [compare_teams], given the dict the matchup fetch returned. *)
Definition compare_teams (selected_team : Team) (all_teams : list Team)
    (all_team_stats : TeamStats) : outcome Report :=
  match all_team_stats with
  | [] => Ret NoStats
  | _ =>
      match sample_stats all_team_stats with
      | None => Ret NoCategories
      | Some sample =>
          match get_category_info_from_stats sample with
          | [] => Ret NoCategories
          | categories_info =>
              match stats_get all_team_stats (team_id selected_team) with
              | None | Some [] => Ret NoSelectedStats
              | Some selected_stats =>
                  rows <- category_rows (team_id selected_team) selected_stats
                            all_teams all_team_stats categories_info ;;
                  matchups <- compare_head_to_head (team_id selected_team)
                                selected_stats all_teams all_team_stats
                                categories_info ;;
                  Ret (Tables rows matchups)
              end
          end
      end
  end.


(** ** Notions used to state the properties *)

(** The raw value the two lookups of [extract_stat_value] arrive at: the value
    found by id, else the value of the stat at the index, else nothing. *)
Definition located_value (stats_list : list Stat) (stat_id_or_index : string)
    : option PyVal :=
  match find_by_id stats_list stat_id_or_index with
  | Some val => Some val
  | None =>
      match find_by_index stats_list stat_id_or_index with
      | Some stat => stat_value stat
      | None => None
      end
  end.

(** A raw value that is absent, an empty [APIAttr], the empty string or the
    placeholder ["/"]. *)
Definition missing_raw (o : option PyVal) : Prop :=
  o = None \/ o = Some (VAttr []) \/ o = Some (VStr "") \/ o = Some (VStr "/").


(** The display names the category loop looks at: those of the stats that
    have a non-empty [display], in source order. *)
Definition display_names (stats_list : list Stat) : list string :=
  flat_map (fun stat =>
              match stat_display stat with
              | Some d => if String.eqb d EmptyString then [] else [d]
              | None => []
              end) stats_list.

(** [p] occurs in [s]. *)
Definition occurs_in (p s : string) : Prop :=
  exists pre suf, s = (pre ++ p ++ suf)%string.

(** The polarity of a category. *)
Inductive Polarity : Type := HigherIsBetter | LowerIsBetter.

Definition polarity (category_name : string) (stat_id : option string)
    : Polarity :=
  if is_lower_better_stat category_name stat_id then LowerIsBetter
  else HigherIsBetter.

(** The stats of the category example: PTS, FGM/FGA, A/T and TO. *)
Definition example_stats : list Stat :=
  [ mkStat (Some "12") (Some "PTS") (Some (VStr "110"));
    mkStat (Some "9004003") (Some "FGM/FGA") (Some (VStr "40/88"));
    mkStat (Some "20") (Some "A/T") (Some (VStr "2"));
    mkStat (Some "19") (Some "TO") (Some (VStr "14")) ]%string.


(** The kinds of values [<] can order: numbers with numbers, strings with
    strings, nothing else. *)
Definition order_class (v : PyVal) : option bool :=
  match v with
  | VFloat _ | VInt _ => Some true
  | VStr _ => Some false
  | VNone | VAttr _ => None
  end.

(** Lists a sort can order without a [TypeError]: at most one element, or all
    keys of one ordered kind. *)
Definition sortable {A K C : Type} (key : A -> K) (class : K -> option C)
    (l : list A) : Prop :=
  (List.length l <= 1)%nat \/
  exists c, Forall (fun a => class (key a) = Some c) l.

(** What a category row shows in its "vs Teams" column. *)
Definition row_ratio (row : outcome CategoryRow)
    : outcome (option (string * option Color)) :=
  match row with
  | Ret (RowNA _) => Ret None
  | Ret (RowValues _ _ vs_teams vs_color _ _) => Ret (Some (vs_teams, vs_color))
  | Exc e => Exc e
  end.

(** Teams, dict and category of the turnover scenario: the selected team 1
    has 5 turnovers, the opponents 3, 7 and 5. *)
Definition turnover_stats (z : Z) : list Stat :=
  [ mkStat (Some "19") (Some "TO") (Some (VInt z)) ]%string.

Definition example_teams : list Team :=
  [ mkTeam 1 "Aces"; mkTeam 2 "Bulls"; mkTeam 3 "Colts"; mkTeam 4 "Ducks" ]%string.

Definition turnover_dict : TeamStats :=
  [ (1, turnover_stats 5); (2, turnover_stats 3);
    (3, turnover_stats 7); (4, turnover_stats 5) ].

Definition turnover_category : CatInfo := mkCatInfo "19" "TO" 0.


(** The ties of a head-to-head result: its categories marked [T]. *)
Definition is_code (c : ResultCode) (entry : string * ResultCode) : bool :=
  match c, snd entry with
  | W, W | L, L | T, T => true
  | _, _ => false
  end.

Definition count_code (c : ResultCode) (results : list (string * ResultCode))
    : nat :=
  List.length (filter (is_code c) results).

Definition ties (r : MatchupResult) : nat := count_code T (category_results r).

(** A category the head-to-head loop leaves out for an opponent: its stat id
    is empty, or one side has no normalized value. *)
Definition skipped_category (selected_stats opponent_stats : list Stat)
    (cat_info : CatInfo) : bool :=
  String.eqb (cat_id cat_info) EmptyString ||
  match extract_stat_value selected_stats (cat_id cat_info)
          (Some (cat_name cat_info)),
        extract_stat_value opponent_stats (cat_id cat_info)
          (Some (cat_name cat_info)) with
  | Some _, Some _ => false
  | _, _ => true
  end.

(** The opponents of the head-to-head table, in encounter order: the teams
    of the dict other than the selected one that are on the roster. *)
Definition opponents (all_teams : list Team) (selected_team_id : Z)
    (all_team_stats : TeamStats) : list Team :=
  flat_map (fun entry =>
              if fst entry =? selected_team_id then []
              else match team_lookup all_teams (fst entry) with
                   | Some t => [t]
                   | None => []
                   end) all_team_stats.

(** Stat lists whose normalized values are all numbers: nothing passes
    through unparsed. *)
Definition numeric_values (categories_info : list CatInfo)
    (stats_list : list Stat) : Prop :=
  forall c v,
    In c categories_info ->
    extract_stat_value stats_list (cat_id c) (Some (cat_name c)) = Some v ->
    exists f, v = VFloat f.

(** A stat list whose only stat has an empty id. *)
Definition blank_id_stats (z : Z) : list Stat :=
  [ mkStat (Some "") (Some "PTS") (Some (VInt z)) ]%string.

Definition blank_id_dict : TeamStats :=
  [ (1, blank_id_stats 10); (2, blank_id_stats 8) ].

(** A week in which team 3 of the roster has no stat record. *)
Definition points_stats (z : Z) : list Stat :=
  [ mkStat (Some "12") (Some "PTS") (Some (VInt z)) ]%string.

Definition short_dict : TeamStats :=
  [ (1, points_stats 10); (2, points_stats 8) ].

Definition short_roster : list Team :=
  [ mkTeam 1 "Aces"; mkTeam 2 "Bulls"; mkTeam 3 "Colts" ]%string.


(** The percentage test [extract_stat_value] applies to the value it
    located: that of the category for a value found by id, that of the
    stat's own display for a value found by index. *)
Definition percentage_applied (stats_list : list Stat)
    (stat_id_or_index : string) (stat_display : option string) : bool :=
  match find_by_id stats_list stat_id_or_index with
  | Some _ => is_percentage_stat stat_id_or_index stat_display
  | None =>
      match find_by_index stats_list stat_id_or_index with
      | Some stat => display_has_percent stat
      | None => false
      end
  end.

(** A week in which only the selected team has a points value. *)
Definition lonely_dict : TeamStats :=
  [ (1, points_stats 10);
    (2, [ mkStat (Some "12") (Some "PTS") (Some (VStr "")) ]);
    (3, [ mkStat (Some "12") (Some "PTS") (Some (VStr "/")) ]) ]%string.

Definition points_category : CatInfo := mkCatInfo "12" "PTS" 0.

(** Stat lists with a value that is not a number. *)
Definition dash_stats : list Stat :=
  [ mkStat (Some "12") (Some "PTS") (Some (VStr "-")) ]%string.

Definition slash_stats : list Stat :=
  [ mkStat (Some "12") (Some "PTS") (Some (VStr "/")) ]%string.

(** A stat without an id whose value is a dash: it is reached by its
    index. *)
Definition bare_dash_stats : list Stat :=
  [ mkStat None (Some "PTS") (Some (VStr "-")) ]%string.


(** The head-to-head table of the turnover scenario: a win against the 7, a
    loss against the 3 and a tie against the other 5. *)
Definition turnover_matchups : list MatchupResult :=
  [ mkMatchupResult (mkTeam 3 "Colts") "1-0" 1 0 [("TO", W)];
    mkMatchupResult (mkTeam 2 "Bulls") "0-1" 0 1 [("TO", L)];
    mkMatchupResult (mkTeam 4 "Ducks") "0-0" 0 0 [("TO", T)] ]%string.


(** A stat list with a field-goal percentage written as ["454"]. *)
Definition percent_stats : list Stat :=
  [ mkStat (Some "5") (Some "FG%") (Some (VStr "454")) ]%string.


(** *** [get_all_team_stats_from_matchups] *)

(** A matchup of the week, as the loop probes it: [team1] is
    [matchup.team1.team_id] when that team is there and has an id,
    [team1_stats] is [matchup.team1_stats] when the attribute can be read;
    the same for the second side. *)
Record Matchup : Type := mkMatchup {
  team1 : option Z;
  team1_stats : option (list Stat);
  team2 : option Z;
  team2_stats : option (list Stat)
}.

(** [d[k] = v] on an insertion-ordered dict: a known key keeps its place. *)
Fixpoint dict_set (d : TeamStats) (k : Z) (v : list Stat) : TeamStats :=
  match d with
  | [] => [(k, v)]
  | (k', v') :: rest =>
      if k' =? k then (k, v) :: rest else (k', v') :: dict_set rest k v
  end.

(** One side of a matchup: stored when the stats are non-empty and the team
    has an id. *)
Definition store_side (d : TeamStats) (side : option Z)
    (side_stats : option (list Stat)) : TeamStats :=
  match side_stats with
  | Some (stat :: rest) =>
      match side with
      | Some tid => dict_set d tid (stat :: rest)
      | None => d
      end
  | _ => d
  end.

(** The loop over [week_obj.matchups], given the matchups the week holds. *)
Definition get_all_team_stats_from_matchups (matchups : list Matchup)
    : TeamStats :=
  fold_left (fun d m =>
               store_side (store_side d (team1 m) (team1_stats m))
                 (team2 m) (team2_stats m))
    matchups [].

(** *** [select_sport], [select_league], [select_team] *)

(** White space of [str.strip()] among the ASCII characters. *)
Definition is_space (c : ascii) : bool :=
  let n := nat_of_ascii c in
  ((9 <=? n) && (n <=? 13) || (28 <=? n) && (n <=? 32))%nat.

Fixpoint lstrip (s : string) : string :=
  match s with
  | EmptyString => EmptyString
  | String c t => if is_space c then lstrip t else s
  end.

Fixpoint rstrip (s : string) : string :=
  match s with
  | EmptyString => EmptyString
  | String c t =>
      match rstrip t with
      | EmptyString => if is_space c then EmptyString else String c EmptyString
      | t' => String c t'
      end
  end.

(** [s.strip()] *)
Definition strip (s : string) : string := lstrip (rstrip s).

(** [str.strip()] on any text: it removes every character [str.isspace()]
    accepts, the ones beyond ASCII too. A string is held as its UTF-8 bytes,
    where these are the two-byte characters U+0085 and U+00A0 and the
    three-byte characters U+1680, U+2000 to U+200A, U+2028, U+2029, U+202F,
    U+205F and U+3000. *)
Definition is_space2 (c d : ascii) : bool :=
  let c := nat_of_ascii c in
  let d := nat_of_ascii d in
  ((c =? 194) && ((d =? 133) || (d =? 160)))%nat.

Definition is_space3 (c d e : ascii) : bool :=
  let c := nat_of_ascii c in
  let d := nat_of_ascii d in
  let e := nat_of_ascii e in
  ((c =? 225) && (d =? 154) && (e =? 128)
   || (c =? 226) && (d =? 128)
      && ((128 <=? e) && (e <=? 138) || (e =? 168) || (e =? 169) || (e =? 175))
   || (c =? 226) && (d =? 129) && (e =? 159)
   || (c =? 227) && (d =? 128) && (e =? 128))%nat.

(** The white space at the head of a string removed, a character being one
    byte accepted by [is_space], two by [two] or three by [three]. *)
Fixpoint lstrip_chars (two : ascii -> ascii -> bool)
    (three : ascii -> ascii -> ascii -> bool) (s : string) : string :=
  match s with
  | EmptyString => EmptyString
  | String c t =>
      if is_space c then lstrip_chars two three t
      else
        match t with
        | String d t1 =>
            if two c d then lstrip_chars two three t1
            else
              match t1 with
              | String e t2 =>
                  if three c d e then lstrip_chars two three t2 else s
              | EmptyString => s
              end
        | EmptyString => s
        end
  end.

Fixpoint string_rev_append (s acc : string) : string :=
  match s with
  | EmptyString => acc
  | String c t => string_rev_append t (String c acc)
  end.

Definition string_rev (s : string) : string :=
  string_rev_append s EmptyString.

Definition str_lstrip (s : string) : string :=
  lstrip_chars is_space2 is_space3 s.

(** The white space at the end: the bytes of a character are met last one
    first in the reversed string. *)
Definition str_rstrip (s : string) : string :=
  string_rev
    (lstrip_chars (fun d c => is_space2 c d) (fun e d c => is_space3 c d e)
       (string_rev s)).

Definition str_strip (s : string) : string := str_lstrip (str_rstrip s).

(** The table of [select_sport]. *)
Definition sports : list (string * (string * string)) :=
  [ ("1", ("nba", "NBA")); ("2", ("nfl", "NFL"));
    ("3", ("nhl", "NHL")); ("4", ("mlb", "MLB")) ]%string.

Fixpoint sports_get (table : list (string * (string * string)))
    (choice : string) : option (string * string) :=
  match table with
  | [] => None
  | (k, v) :: rest => if String.eqb k choice then Some v else sports_get rest choice
  end.

(** The loop of [select_sport]: an empty answer stands for ["1"]; neither
    exception is handled here. *)
Fixpoint select_sport (inputs : list Input) : Prompt string :=
  match inputs with
  | [] => EndOfInput
  | Interrupt :: _ => Interrupted
  | Line s :: rest =>
      let choice := if String.eqb (str_strip s) EmptyString then "1"%string
                    else str_strip s in
      match sports_get sports choice with
      | Some v => Chosen (fst v)
      | None => select_sport rest
      end
  end.

(** The loop shared by [select_league] and [select_team]: a number between
    1 and the length picks the item; anything else asks again; an interrupt
    exits with 0, the end of the input (caught as an [Exception]) with 1. *)
Fixpoint select_loop {A : Type} (items : list A) (inputs : list Input)
    : Prompt A :=
  match inputs with
  | [] => Exit 1
  | Interrupt :: _ => Exit 0
  | Line s :: rest =>
      match int_of_str (strip s) with
      | Some n =>
          let idx := n - 1 in
          if (0 <=? idx) && (idx <? Z.of_nat (List.length items)) then
            match nth_error items (Z.to_nat idx) with
            | Some a => Chosen a
            | None => Exit 1
            end
          else select_loop items rest
      | None => select_loop items rest
      end
  end.

(** [select_team], given the teams [league.teams()] returned; an empty list
    exits with 1. [select_league] is the same function on the leagues. *)
Definition select_team (teams : list Team) (inputs : list Input)
    : Prompt Team :=
  match teams with
  | [] => Exit 1
  | _ => select_loop teams inputs
  end.

(** The end of [main]: the team is chosen from [teams], what
    [league.teams()] returns inside [select_team], and compared against
    [all_teams], what the second call [league.teams()] of [main] returns; an
    exception of the comparison ends the run with 1. *)
Definition main_compare (teams all_teams : list Team) (inputs : list Input)
    (all_team_stats : TeamStats) : Prompt Report :=
  match select_team teams inputs with
  | Chosen selected_team =>
      match compare_teams selected_team all_teams all_team_stats with
      | Ret report => Chosen report
      | Exc _ => Exit 1
      end
  | Exit code => Exit code
  | Interrupted => Interrupted
  | EndOfInput => EndOfInput
  end.

(** ** Notions of the printed row and of the directed sort *)

(** The escape sequences of [Colors]. *)
Definition color_code (c : Color) : string :=
  match c with
  | GREEN => String "027" "[92m"
  | YELLOW => String "027" "[93m"
  | RED => String "027" "[91m"
  | RESET => String "027" "[0m"
  end.

(** [vs_teams_colored], the text the [print] of a row puts in the
    "vs Teams" column: a dash on the line of dashes and where there is no
    opponent, the ratio between its colour and the reset otherwise. The
    string [vs_teams] itself is not printed. *)
Definition vs_teams_colored (row : CategoryRow) : string :=
  match row with
  | RowNA _ => "-"
  | RowValues _ _ _ None _ _ => "-"
  | RowValues _ _ vs_teams (Some color) _ _ =>
      color_code color ++ vs_teams ++ color_code RESET
  end.

(** [a] beats [b], in the words of the ranking rule: both are floats and
    [a] is strictly above [b] where higher is better, strictly below it
    where lower is better. *)
Definition beats (higher_is_better : bool) (a b : PyVal) : bool :=
  match a, b with
  | VFloat x, VFloat y =>
      if higher_is_better then (y <? x)%float else (x <? y)%float
  | _, _ => false
  end.

(** [v] is the same number as [k]. *)
Definition same_number (k v : PyVal) : bool :=
  match k, v with
  | VFloat x, VFloat y => (y =? x)%float
  | _, _ => false
  end.

(** The stat the index fallback reaches has a [display] that is a string.
    [stat_display] does not tell a [display] that is [None] from one that is
    absent, and on [None] the test ['%' in stat.display] raises the
    [TypeError] the handler of the fallback turns into [None]. *)
Definition indexed_display_is_text (stats_list : list Stat)
    (stat_id_or_index : string) : Prop :=
  find_by_id stats_list stat_id_or_index = None ->
  forall stat,
    find_by_index stats_list stat_id_or_index = Some stat ->
    exists d, stat_display stat = Some d.

(** The second call of [league.teams()] lists every team id of the first. *)
Definition lists_agree (teams all_teams : list Team) : Prop :=
  forall t, In t teams -> In (team_id t) (map team_id all_teams).

(** A no-break space, U+00A0, in UTF-8. *)
Definition no_break_space : string := String "194" (String "160" EmptyString).

(** ** More notions used to state the properties *)

(** The colour by the exact fractions: at least 7 in 10 is green, less than
    3 in 10 is red. *)
Definition color_by_tenths (better_than total_teams : nat) : Color :=
  if (total_teams =? 0)%nat then RESET
  else if (7 * total_teams <=? 10 * better_than)%nat then GREEN
  else if (10 * better_than <? 3 * total_teams)%nat then RED
  else YELLOW.

Definition color_eqb (a b : Color) : bool :=
  match a, b with
  | GREEN, GREEN | YELLOW, YELLOW | RED, RED | RESET, RESET => true
  | _, _ => false
  end.

(** The colours agree for every count up to [total] of [total] teams. *)
Definition colors_agree_at (total : nat) : bool :=
  forallb (fun b =>
             match get_color_for_performance b total with
             | Ret c => color_eqb c (color_by_tenths b total)
             | Exc _ => false
             end) (seq 0 (S total)).

(** A result seen from the other side. *)
Definition flip_code (c : ResultCode) : ResultCode :=
  match c with
  | W => L
  | L => W
  | T => T
  end.

(** The name a category row is printed under. *)
Definition row_name (row : CategoryRow) : string :=
  match row with
  | RowNA n => n
  | RowValues n _ _ _ _ _ => n
  end.


(** The stat ids a stat list carries. *)
Definition present_ids (stats_list : list Stat) : list string :=
  flat_map (fun stat => match stat_id stat with
                        | Some i => [i]
                        | None => []
                        end) stats_list.


(** What the loop keeps true of the dict: distinct keys, no empty stat list,
    every entry read off a side of one of the matchups. *)
Definition stats_dict_ok (matchups : list Matchup) (d : TeamStats) : Prop :=
  NoDup (map fst d) /\
  (forall k v, In (k, v) d ->
     v <> [] /\
     exists m, In m matchups /\
       ((team1 m = Some k /\ team1_stats m = Some v) \/
        (team2 m = Some k /\ team2_stats m = Some v))).

(** An answer the selection loop does not accept: a line that is not an int,
    or an int that is not between 1 and the number of items. *)
Definition refused_answer (count : nat) (i : Input) : Prop :=
  exists s, i = Line s /\
    match int_of_str (strip s) with
    | Some n => n < 1 \/ Z.of_nat count < n
    | None => True
    end.

(** The sport codes [select_sport] can return. *)
Definition sport_codes : list string := ["nba"; "nfl"; "nhl"; "mlb"]%string.


(** A float that is not a NaN. *)
Definition is_number (v : PyVal) : Prop :=
  exists f, v = VFloat f /\ (f =? f)%float = true.

(** [a] is strictly better than [b] in a category. *)
Definition strictly_better (higher_is_better : bool) (a b : PyVal) : Prop :=
  (if higher_is_better then py_gt a b else py_lt a b) = Some true.


(** No later element of the list is strictly below an earlier one. *)
Definition ascending {A K : Type} (key : A -> K) (lt : K -> K -> option bool)
    (l : list A) : Prop :=
  StronglySorted (fun a b => lt (key b) (key a) = Some false) l.

(** Inputs of the concrete runs of the further properties. *)
Definition overflow_stats : list Stat :=
  [ mkStat (Some "12") (Some "PTS") (Some (VInt (2 ^ 1024))) ]%string.

Definition bare_stats : list Stat :=
  [ mkStat None (Some "PTS") (Some (VStr "110"));
    mkStat None (Some "REB") (Some (VStr "40")) ]%string.

Definition mixed_dict : TeamStats :=
  [ (1, points_stats 10); (2, dash_stats) ].

Definition turnover_report : Report :=
  Tables
    [ RowValues "TO" (VFloat 5) "1/3" (Some YELLOW)
        ("Bulls"%string, VFloat 3) ("Colts"%string, VFloat 7) ]
    turnover_matchups.

Definition week_matchups : list Matchup :=
  [ mkMatchup (Some 1) (Some (turnover_stats 5))
      (Some 2) (Some (turnover_stats 3));
    mkMatchup (Some 3) (Some (turnover_stats 7))
      (Some 4) (Some (turnover_stats 5)) ].


(** * Properties *)

(** ** Order of binary64 numbers against the thresholds 1, 100 and 1000 *)

Lemma pos_compare_cont_antisym (p q : positive) :
  Pos.compare_cont Eq q p = CompOpp (Pos.compare_cont Eq p q).
Proof. apply Pos.compare_antisym. Qed.

(** A number at or above a positive threshold is not below a threshold that
    is no larger. *)
Lemma SF_threshold_order (m1 m2 : positive) (e1 e2 : Z) (x : spec_float) :
  e1 < e2 \/ (e1 = e2 /\ m1 = m2) ->
  SFleb (S754_finite false m2 e2) x = true ->
  SFltb x (S754_finite false m1 e1) = false.
Proof.
  intros Hc. unfold SFleb, SFltb, SFcompare.
  destruct x as [s | s | | s m e];
    try (destruct s; intros H; discriminate || reflexivity).
  - reflexivity.
  - destruct s; [discriminate|].
    destruct (Z.compare_spec e2 e) as [E | E | E];
      destruct (Z.compare_spec e e1) as [E' | E' | E'];
      try lia; try reflexivity; try discriminate.
    assert (m1 = m2) by lia. subst.
    rewrite (pos_compare_cont_antisym m m2).
    destruct (Pos.compare_cont Eq m m2); simpl; intros;
      discriminate || reflexivity.
Qed.

Lemma float_threshold_order (a b v : float) (m1 m2 : positive) (e1 e2 : Z) :
  Prim2SF a = S754_finite false m1 e1 ->
  Prim2SF b = S754_finite false m2 e2 ->
  e1 < e2 \/ (e1 = e2 /\ m1 = m2) ->
  (b <=? v)%float = true -> (v <? a)%float = false.
Proof.
  intros Ha Hb Hc. rewrite ltb_spec, leb_spec, Ha, Hb.
  now apply SF_threshold_order.
Qed.

Lemma float_threshold_order_lt (a b v : float) (m1 m2 : positive) (e1 e2 : Z) :
  Prim2SF a = S754_finite false m1 e1 ->
  Prim2SF b = S754_finite false m2 e2 ->
  e1 < e2 \/ (e1 = e2 /\ m1 = m2) ->
  (v <? a)%float = true -> (b <=? v)%float = false.
Proof.
  intros Ha Hb Hc H. destruct (b <=? v)%float eqn:E; [|reflexivity].
  rewrite (float_threshold_order a b v _ _ _ _ Ha Hb Hc E) in H.
  discriminate.
Qed.

Lemma percentage_scale_cases (v : float) :
  ((v <? 1)%float = true -> percentage_scale v = v) /\
  ((1 <=? v)%float = true -> (v <? 100)%float = true ->
     percentage_scale v = (v / 100)%float) /\
  ((100 <=? v)%float = true -> (v <? 1000)%float = true ->
     percentage_scale v = ((v / 10) / 100)%float) /\
  ((1000 <=? v)%float = true ->
     percentage_scale v = ((v / 100) / 100)%float).
Proof.
  unfold percentage_scale. repeat split.
  - intros H. now rewrite H.
  - intros H1 H100.
    rewrite (float_threshold_order 1 1 v _ _ _ _ eq_refl eq_refl)
      by (try exact H1; right; split; reflexivity).
    rewrite (float_threshold_order_lt 100 1000 v _ _ _ _ eq_refl eq_refl)
      by (try exact H100; left; reflexivity).
    rewrite (float_threshold_order_lt 100 100 v _ _ _ _ eq_refl eq_refl)
      by (try exact H100; right; split; reflexivity).
    now rewrite H1.
  - intros H100 H1000.
    rewrite (float_threshold_order 1 100 v _ _ _ _ eq_refl eq_refl)
      by (try exact H100; left; reflexivity).
    rewrite (float_threshold_order_lt 1000 1000 v _ _ _ _ eq_refl eq_refl)
      by (try exact H1000; right; split; reflexivity).
    now rewrite H100.
  - intros H1000.
    rewrite (float_threshold_order 1 1000 v _ _ _ _ eq_refl eq_refl)
      by (try exact H1000; left; reflexivity).
    now rewrite H1000.
Qed.

(** ** Percentage normalization *)

Lemma missing_raw_guards (val : PyVal) :
  ~ missing_raw (Some val) ->
  is_empty_attr val = false /\ eq_str val "/" = false /\
  eq_str val "" = false.
Proof.
  unfold missing_raw. intros H. repeat split.
  - destruct val as [| [| p d] | | |]; try reflexivity. tauto.
  - destruct val; try reflexivity. simpl.
    destruct (String.eqb s "/") eqn:E; [|reflexivity].
    apply String.eqb_eq in E. subst. tauto.
  - destruct val; try reflexivity. simpl.
    destruct (String.eqb s "") eqn:E; [|reflexivity].
    apply String.eqb_eq in E. subst. tauto.
Qed.

Lemma normalize_value_percentage (val : PyVal) (v : float) :
  ~ missing_raw (Some val) ->
  py_float val = Ret v ->
  normalize_value true val = Ret (Some (VFloat (percentage_scale v))).
Proof.
  intros Hm Hf. destruct (missing_raw_guards val Hm) as (H1 & H2 & H3).
  unfold normalize_value, convert_percentage_value.
  now rewrite H1, H2, H3, Hf.
Qed.

Lemma extract_stat_value_located (stats_list : list Stat) (id : string)
    (display : option string) (val : PyVal) :
  located_value stats_list id = Some val ->
  extract_stat_value stats_list id display
  = match normalize_value (percentage_applied stats_list id display) val with
    | Ret r => r
    | Exc _ => None
    end.
Proof.
  unfold extract_stat_value, extract_stat_value_body, located_value,
    percentage_applied.
  intros Hl. destruct stats_list as [| stat rest].
  - simpl in Hl. unfold find_by_index in Hl.
    destruct (int_of_str id) as [idx |]; [|discriminate].
    simpl in Hl.
    destruct ((0 <=? idx) && (idx <? 0)) eqn:E; [|discriminate].
    apply andb_true_iff in E. destruct E as [E1 E2].
    apply Z.leb_le in E1. apply Z.ltb_lt in E2. lia.
  - destruct (find_by_id (stat :: rest) id) as [found |].
    + now inversion Hl.
    + destruct (find_by_index (stat :: rest) id) as [st |]; [|discriminate].
      now rewrite Hl.
Qed.

(** C1, as the code has it: for every raw value that [float] converts to [v],
    the percentage normalization returns [v] unchanged when [v < 1], [v / 100]
    when [1 <= v < 100], [(v / 10) / 100] when [100 <= v < 1000] and
    [(v / 100) / 100] when [v >= 1000], each division being a binary64
    division; 454 and 4540 both normalize to 0.45399999999999996, the
    binary64 number just below the one written 0.454. *)
Theorem convert_percentage_value_piecewise (raw : PyVal) (v : float) :
  py_float raw = Ret v ->
  convert_percentage_value raw = Ret (Some (percentage_scale v)) /\
  (forall stats_list id display,
     located_value stats_list id = Some raw ->
     percentage_applied stats_list id display = true ->
     ~ missing_raw (Some raw) ->
     extract_stat_value stats_list id display
     = Some (VFloat (percentage_scale v))) /\
  ((v <? 1)%float = true -> percentage_scale v = v) /\
  ((1 <=? v)%float = true -> (v <? 100)%float = true ->
     percentage_scale v = (v / 100)%float) /\
  ((100 <=? v)%float = true -> (v <? 1000)%float = true ->
     percentage_scale v = ((v / 10) / 100)%float) /\
  ((1000 <=? v)%float = true ->
     percentage_scale v = ((v / 100) / 100)%float) /\
  convert_percentage_value (VInt 454)
    = Ret (Some 0.45399999999999996%float) /\
  convert_percentage_value (VInt 4540)
    = Ret (Some 0.45399999999999996%float) /\
  next_down 0.454%float = 0.45399999999999996%float.
Proof.
  intros Hv. split.
  - unfold convert_percentage_value. now rewrite Hv.
  - split.
    + intros stats_list id display Hl Hp Hm.
      rewrite (extract_stat_value_located _ _ _ _ Hl), Hp.
      now rewrite (normalize_value_percentage raw v Hm Hv).
    + pose proof (percentage_scale_cases v) as (H1 & H2 & H3 & H4).
      repeat split; try assumption; reflexivity.
Qed.

(** ** Missing values *)

Lemma normalize_value_missing (is_percentage : bool) (val : PyVal) :
  missing_raw (Some val) -> normalize_value is_percentage val = Ret None.
Proof.
  intros [H | [H | [H | H]]]; inversion H; subst; reflexivity.
Qed.

Lemma extract_stat_value_missing (stats_list : list Stat) (id : string)
    (display : option string) :
  missing_raw (located_value stats_list id) ->
  extract_stat_value stats_list id display = None.
Proof.
  intros H. unfold extract_stat_value.
  destruct stats_list as [| stat rest]; [reflexivity|].
  unfold extract_stat_value_body. unfold located_value in H.
  destruct (find_by_id (stat :: rest) id) as [val |].
  - now rewrite normalize_value_missing.
  - destruct (find_by_index (stat :: rest) id) as [st |]; [|reflexivity].
    destruct (stat_value st) as [val |]; [|reflexivity].
    now rewrite normalize_value_missing.
Qed.

(** A team without a normalized value adds nothing to either list. *)
Lemma collect_values_skips_none (all_teams : list Team) (selected : Z)
    (id category_name : string) (tid : Z) (stats_list : list Stat)
    (before after : TeamStats) :
  extract_stat_value stats_list id (Some category_name) = None ->
  collect_values all_teams selected id category_name
    (before ++ (tid, stats_list) :: after)
  = collect_values all_teams selected id category_name (before ++ after).
Proof.
  intros H. induction before as [| [k st] before IH]; simpl.
  - rewrite H.
    destruct (collect_values all_teams selected id category_name after).
    now destruct (team_lookup all_teams tid).
  - now rewrite IH.
Qed.

(** Every entry of [all_values] carries the normalized value of a team of
    the dict: no entry stands in for a team without one. *)
Lemma collect_values_all_sound (all_teams : list Team) (selected : Z)
    (id category_name : string) (all_team_stats : TeamStats)
    (n : string) (v : PyVal) :
  In (n, v)
    (fst (collect_values all_teams selected id category_name all_team_stats)) ->
  exists tid stats_list team,
    In (tid, stats_list) all_team_stats /\
    team_lookup all_teams tid = Some team /\ team_name team = n /\
    extract_stat_value stats_list id (Some category_name) = Some v.
Proof.
  induction all_team_stats as [| [k st] rest IH]; simpl; [tauto|].
  destruct (collect_values all_teams selected id category_name rest)
    as [all_values other_values] eqn:E.
  simpl in IH.
  assert (Hrest : In (n, v) all_values ->
            exists tid stats_list team,
              ((k, st) = (tid, stats_list) \/ In (tid, stats_list) rest) /\
              team_lookup all_teams tid = Some team /\ team_name team = n /\
              extract_stat_value stats_list id (Some category_name) = Some v).
  { intros Hin. destruct (IH Hin) as (tid & sl & tm & H1 & H2).
    exists tid, sl, tm. tauto. }
  destruct (team_lookup all_teams k) as [tm |] eqn:Et; [|exact Hrest].
  destruct (extract_stat_value st id (Some category_name)) as [val |] eqn:Ev;
    [|exact Hrest].
  simpl. intros [Hin | Hin]; [|exact (Hrest Hin)].
  inversion Hin; subst. exists k, st, tm. tauto.
Qed.

(** C2: a raw value that is absent, empty or the placeholder ["/"] normalizes
    to [None], and a team whose normalized value is [None] is left out of
    [all_values] and [other_values], so the row of the category is the one
    computed without that team. *)
Theorem missing_value_is_none_and_excluded (stats_list : list Stat)
    (id category_name : string) (all_teams : list Team) (selected tid : Z)
    (before after : TeamStats) :
  missing_raw (located_value stats_list id) ->
  extract_stat_value stats_list id (Some category_name) = None /\
  collect_values all_teams selected id category_name
    (before ++ (tid, stats_list) :: after)
  = collect_values all_teams selected id category_name (before ++ after) /\
  (forall selected_stats cat_info,
     category_stat_id cat_info = id -> cat_name cat_info = category_name ->
     compare_category selected selected_stats all_teams
       (before ++ (tid, stats_list) :: after) cat_info
     = compare_category selected selected_stats all_teams (before ++ after)
         cat_info).
Proof.
  intros H.
  pose proof (extract_stat_value_missing stats_list id (Some category_name) H)
    as Hnone.
  split; [exact Hnone|]. split.
  - now apply collect_values_skips_none.
  - intros selected_stats cat_info Hid Hname. unfold compare_category.
    rewrite Hid, Hname.
    now rewrite (collect_values_skips_none all_teams selected id category_name
                   tid stats_list before after Hnone).
Qed.

(** ** String tests *)

Lemma startswith_spec (s p : string) :
  PyStr.startswith s p = true <-> exists suf, s = (p ++ suf)%string.
Proof.
  revert s. induction p as [| a p IH]; intros s; simpl.
  - split; [intros _; now exists s | reflexivity].
  - destruct s as [| b s].
    + split; [discriminate | intros [suf H]; discriminate].
    + rewrite andb_true_iff, Ascii.eqb_eq, IH. split.
      * intros [-> [suf ->]]. now exists suf.
      * intros [suf H]. inversion H; subst. split; [reflexivity|now exists suf].
Qed.

Lemma contains_spec (p s : string) :
  PyStr.contains p s = true <-> occurs_in p s.
Proof.
  unfold occurs_in. induction s as [| c s IH].
  - simpl. rewrite orb_false_r, startswith_spec. split.
    + intros [suf H]. exists EmptyString, suf. exact H.
    + intros [pre [suf H]]. destruct pre; [now exists suf | discriminate].
  - change (PyStr.contains p (String c s))
      with (PyStr.startswith (String c s) p || PyStr.contains p s).
    rewrite orb_true_iff, startswith_spec, IH. split.
    + intros [[suf H] | [pre [suf H]]].
      * exists EmptyString, suf. exact H.
      * exists (String c pre), suf. simpl. now rewrite H.
    + intros [pre [suf H]]. destruct pre as [| a pre].
      * left. now exists suf.
      * right. simpl in H. inversion H; subst. now exists pre, suf.
Qed.

Lemma endswith_spec (s p : string) :
  PyStr.endswith s p = true <-> exists pre, s = (pre ++ p)%string.
Proof.
  induction s as [| c s IH].
  - change (PyStr.endswith EmptyString p)
      with (String.eqb EmptyString p || false).
    rewrite orb_false_r, String.eqb_eq. split.
    + intros <-. now exists EmptyString.
    + intros [pre H]. destruct pre; [exact H | discriminate].
  - change (PyStr.endswith (String c s) p)
      with (String.eqb (String c s) p || PyStr.endswith s p).
    rewrite orb_true_iff, String.eqb_eq, IH. split.
    + intros [H | [pre H]].
      * now exists EmptyString.
      * exists (String c pre). simpl. now rewrite H.
    + intros [pre H]. destruct pre as [| a pre].
      * left. exact H.
      * right. simpl in H. inversion H; subst. now exists pre.
Qed.

(** ** Category resolution *)

Lemma category_info_from_names (idx : nat) (stats_list : list Stat) :
  map cat_name (category_info_from idx stats_list)
  = filter (fun n => negb (PyStr.contains "/" n) || String.eqb n "A/T")
      (display_names stats_list).
Proof.
  revert idx. induction stats_list as [| stat rest IH]; intros idx;
    [reflexivity|].
  unfold display_names in *. simpl.
  destruct (stat_display stat) as [d |]; simpl; [|apply IH].
  destruct (String.eqb d EmptyString); simpl; [apply IH|].
  rewrite orb_false_r.
  destruct (PyStr.contains "/" d); simpl.
  - destruct (String.eqb d "A/T"); simpl; [f_equal|]; apply IH.
  - f_equal. apply IH.
Qed.

(** C3: the resolved categories are, in source order, the displayed stats
    whose name has no ["/"] or is ["A/T"]; the names PTS, FGM/FGA, A/T, TO
    resolve to PTS, A/T, TO. *)
Theorem get_category_info_from_stats_filters (stats_list : list Stat) :
  map cat_name (get_category_info_from_stats stats_list)
  = filter (fun n => negb (PyStr.contains "/" n) || String.eqb n "A/T")
      (display_names stats_list) /\
  (forall n,
     In n (map cat_name (get_category_info_from_stats stats_list)) <->
     In n (display_names stats_list) /\ (~ occurs_in "/" n \/ n = "A/T"%string)) /\
  display_names example_stats = ["PTS"; "FGM/FGA"; "A/T"; "TO"]%string /\
  map cat_name (get_category_info_from_stats example_stats)
  = ["PTS"; "A/T"; "TO"]%string.
Proof.
  unfold get_category_info_from_stats.
  split; [apply category_info_from_names|].
  split; [|split; reflexivity].
  intros n. rewrite category_info_from_names, filter_In, orb_true_iff,
    negb_true_iff, String.eqb_eq, <- not_true_iff_false, contains_spec.
  tauto.
Qed.

(** ** Polarity *)

(** C4: a category is [LowerIsBetter] exactly when its lower-cased name
    contains "turnover", is "to" or "tov", starts with "to " or ends with
    " to", or its stat id is "19"; every other category is
    [HigherIsBetter]. *)
Theorem polarity_lower_iff (category_name : string) (stat_id : option string) :
  (polarity category_name stat_id = LowerIsBetter <->
   occurs_in "turnover" (PyStr.lower category_name) \/
   PyStr.lower category_name = "to"%string \/
   PyStr.lower category_name = "tov"%string \/
   (exists suf, PyStr.lower category_name = ("to " ++ suf)%string) \/
   (exists pre, PyStr.lower category_name = (pre ++ " to")%string) \/
   stat_id = Some "19"%string) /\
  (polarity category_name stat_id <> LowerIsBetter ->
   polarity category_name stat_id = HigherIsBetter) /\
  (polarity category_name stat_id = LowerIsBetter <->
   is_lower_better_stat category_name stat_id = true).
Proof.
  assert (Hpol : polarity category_name stat_id = LowerIsBetter <->
                 is_lower_better_stat category_name stat_id = true).
  { unfold polarity. destruct (is_lower_better_stat category_name stat_id);
      split; congruence. }
  split; [|split; [|exact Hpol]].
  - rewrite Hpol. unfold is_lower_better_stat.
    pose proof (contains_spec "turnover" (PyStr.lower category_name)) as H1.
    pose proof (String.eqb_eq (PyStr.lower category_name) "to") as H2.
    pose proof (String.eqb_eq (PyStr.lower category_name) "tov") as H3.
    pose proof (startswith_spec (PyStr.lower category_name) "to ") as H4.
    pose proof (endswith_spec (PyStr.lower category_name) " to") as H5.
    assert (H6 : match stat_id with
                 | Some i =>
                     if negb (String.eqb i EmptyString) && String.eqb i "19"
                     then true else false
                 | None => false
                 end = true <-> stat_id = Some "19"%string).
    { destruct stat_id as [i |]; [|split; discriminate].
      destruct (String.eqb i "19") eqn:E.
      - apply String.eqb_eq in E. subst. simpl. tauto.
      - rewrite andb_false_r. split; [discriminate|].
        intros H. inversion H; subst. rewrite String.eqb_refl in E.
        discriminate. }
    assert (Tt : true = true) by reflexivity.
    assert (F : false = true <-> False) by (split; [discriminate | tauto]).
    simpl existsb. rewrite orb_false_r.
    destruct (PyStr.contains "turnover" (PyStr.lower category_name));
      [tauto|].
    destruct (String.eqb (PyStr.lower category_name) "to"); 
      rewrite ?orb_true_l, ?orb_false_l; cbv iota; [tauto|].
    destruct (String.eqb (PyStr.lower category_name) "tov"); 
      rewrite ?orb_true_l, ?orb_false_l; cbv iota; [tauto|].
    destruct (PyStr.startswith (PyStr.lower category_name) "to "); 
      rewrite ?orb_true_l, ?orb_false_l; cbv iota; [tauto|].
    destruct (PyStr.endswith (PyStr.lower category_name) " to"); 
      rewrite ?orb_true_l, ?orb_false_l; cbv iota; [tauto|].
    rewrite H6. tauto.
  - unfold polarity. destruct (is_lower_better_stat category_name stat_id);
      congruence.
Qed.

(** ** Sorting *)

Section SortingFacts.

Context {A K C : Type}.
Variable key : A -> K.
Variable lt : K -> K -> option bool.
Variable class : K -> option C.

(** [lt] orders two keys exactly when they are of one ordered kind. *)
Hypothesis lt_class :
  forall a b, lt a b <> None <-> (class a = class b /\ class a <> None).

Lemma insert_sorted_perm (x : A) (l l' : list A) :
  insert_sorted key lt x l = Some l' -> Permutation (x :: l) l'.
Proof.
  revert l'. induction l as [| y t IH]; intros l'; simpl.
  - intros H. inversion H. apply Permutation_refl.
  - destruct (lt (key y) (key x)) as [[|] |]; try discriminate.
    + destruct (insert_sorted key lt x t) as [s |]; simpl; try discriminate.
      intros H. inversion H; subst.
      apply perm_trans with (y :: x :: t); [apply perm_swap|].
      apply perm_skip. now apply IH.
    + intros H. inversion H. apply Permutation_refl.
Qed.

Lemma sort_asc_perm (l s : list A) :
  sort_asc key lt l = Some s -> Permutation l s.
Proof.
  revert s. induction l as [| x t IH]; intros s; simpl.
  - intros H. inversion H. apply perm_nil.
  - destruct (sort_asc key lt t) as [s' |]; try discriminate.
    intros H. apply insert_sorted_perm in H.
    apply perm_trans with (x :: s'); [|exact H].
    apply perm_skip. now apply IH.
Qed.

Lemma py_sorted_perm (reverse : bool) (l s : list A) :
  py_sorted key lt reverse l = Some s -> Permutation l s.
Proof.
  unfold py_sorted. destruct reverse; [|apply sort_asc_perm].
  destruct (sort_asc key lt (rev l)) as [s' |] eqn:E; simpl; try discriminate.
  intros H. inversion H; subst. apply sort_asc_perm in E.
  apply perm_trans with (rev l); [apply Permutation_rev|].
  apply perm_trans with s'; [exact E | apply Permutation_rev].
Qed.

Lemma insert_sorted_same_class (c : C) (x : A) (l : list A) :
  class (key x) = Some c ->
  Forall (fun a => class (key a) = Some c) l ->
  exists l', insert_sorted key lt x l = Some l'.
Proof.
  intros Hx Hl. induction Hl as [| y t Hy Ht IH]; simpl.
  - now exists [x].
  - destruct (lt (key y) (key x)) as [[|] |] eqn:E.
    + destruct IH as [l' ->]. simpl. now exists (y :: l').
    + now exists (x :: y :: t).
    + exfalso. apply (proj2 (lt_class (key y) (key x))); [|exact E].
      rewrite Hy, Hx. split; congruence.
Qed.

Lemma sort_asc_same_class (c : C) (l : list A) :
  Forall (fun a => class (key a) = Some c) l ->
  exists s, sort_asc key lt l = Some s.
Proof.
  intros Hl. induction Hl as [| x t Hx Ht IH]; simpl.
  - now exists [].
  - destruct IH as [s Hs]. rewrite Hs.
    apply (insert_sorted_same_class c); [exact Hx|].
    apply sort_asc_perm in Hs.
    now apply (Permutation_Forall Hs).
Qed.

Lemma sort_asc_sortable (l s : list A) :
  sort_asc key lt l = Some s -> sortable key class l.
Proof.
  revert s. induction l as [| x t IH]; intros s; simpl.
  - intros _. left. simpl. lia.
  - destruct (sort_asc key lt t) as [s' |] eqn:E; try discriminate.
    intros H. pose proof (sort_asc_perm t s' E) as Hp.
    destruct s' as [| y s'].
    + apply Permutation_sym, Permutation_nil in Hp. subst. left. simpl. lia.
    + simpl in H. destruct (lt (key y) (key x)) as [b |] eqn:El;
        [|discriminate].
      assert (Hc : class (key y) = class (key x) /\ class (key y) <> None).
      { apply lt_class. congruence. }
      destruct Hc as [Hyx Hy].
      destruct (class (key y)) as [c |] eqn:Ecy; [|congruence].
      right. exists c. constructor; [congruence|].
      destruct (IH _ eq_refl) as [Hlen | [c' Hall]].
      * destruct t as [| z [| z' t']]; simpl in Hlen; try lia.
        -- apply Permutation_nil in Hp. discriminate.
        -- apply Permutation_length_1_inv in Hp. inversion Hp; subst.
           constructor; [exact Ecy | constructor].
      * assert (Hin : In y t).
        { apply (Permutation_in y (Permutation_sym Hp)). now left. }
        rewrite Forall_forall in Hall. pose proof (Hall y Hin) as Hy'.
        assert (c' = c) by congruence. subst.
        now apply Forall_forall.
Qed.

Lemma sortable_sort_asc (l : list A) :
  sortable key class l -> exists s, sort_asc key lt l = Some s.
Proof.
  intros [Hlen | [c Hall]].
  - destruct l as [| x [| y t]]; simpl in Hlen; try lia.
    + now exists [].
    + now exists [x].
  - now apply (sort_asc_same_class c).
Qed.

Lemma sortable_perm (l l' : list A) :
  Permutation l l' -> sortable key class l -> sortable key class l'.
Proof.
  intros Hp [Hlen | [c Hall]].
  - left. now rewrite <- (Permutation_length Hp).
  - right. exists c. now apply (Permutation_Forall Hp).
Qed.

(** The sort raises exactly on the lists that are not sortable. *)
Lemma py_sorted_some_iff (reverse : bool) (l : list A) :
  (exists s, py_sorted key lt reverse l = Some s) <-> sortable key class l.
Proof.
  unfold py_sorted. destruct reverse.
  - split.
    + intros [s H]. destruct (sort_asc key lt (rev l)) as [s' |] eqn:E;
        [|discriminate].
      apply sort_asc_sortable in E.
      apply (sortable_perm (rev l)); [|exact E].
      apply Permutation_sym, Permutation_rev.
    + intros H. apply (sortable_perm l (rev l)) in H;
        [|apply Permutation_rev].
      destruct (sortable_sort_asc _ H) as [s ->]. simpl. now eexists.
  - split.
    + intros [s H]. now apply sort_asc_sortable in H.
    + apply sortable_sort_asc.
Qed.

Lemma py_sorted_none_perm (reverse : bool) (l l' : list A) :
  Permutation l l' ->
  py_sorted key lt reverse l = None -> py_sorted key lt reverse l' = None.
Proof.
  intros Hp H. destruct (py_sorted key lt reverse l') as [s |] eqn:E;
    [|reflexivity].
  assert (Hs : sortable key class l).
  { apply (sortable_perm l'); [now apply Permutation_sym|].
    apply (py_sorted_some_iff reverse). now exists s. }
  apply (py_sorted_some_iff reverse) in Hs. destruct Hs as [s' Hs'].
  congruence.
Qed.

End SortingFacts.

Lemma py_lt_order_class (a b : PyVal) :
  py_lt a b <> None <->
  (order_class a = order_class b /\ order_class a <> None).
Proof.
  destruct a, b; simpl; split; intros H; try congruence;
    try (split; congruence); try (destruct H; congruence).
Qed.

(** ** The league comparator *)

Lemma SFltb_irrefl (x : spec_float) : SFltb x x = false.
Proof.
  unfold SFltb, SFcompare.
  destruct x as [s | s | | s m e]; try reflexivity.
  - now destruct s.
  - rewrite Z.compare_refl, Pos.compare_cont_refl. now destruct s.
Qed.

(** No value is strictly below itself. *)
Lemma py_lt_irrefl (v : PyVal) : py_lt v v <> Some true.
Proof.
  destruct v; simpl; try discriminate.
  - unfold String.ltb. pose proof (String.compare_antisym s s) as H.
    destruct (String.compare s s); simpl in H; discriminate.
  - rewrite Z.ltb_irrefl. discriminate.
  - rewrite ltb_spec, SFltb_irrefl. discriminate.
Qed.

Lemma count_where_filter (test : PyVal -> option bool)
    (l : list (string * PyVal)) (b : nat) :
  count_where test l = Some b ->
  b = List.length
        (filter (fun nv => match test (snd nv) with
                           | Some true => true
                           | _ => false
                           end) l).
Proof.
  revert b. induction l as [| [n v] rest IH]; intros b; simpl.
  - intros H. now inversion H.
  - destruct (test v) as [[|] |]; try discriminate;
      destruct (count_where test rest) as [k |]; simpl; try discriminate;
      intros H; inversion H; subst; simpl; now rewrite <- (IH _ eq_refl).
Qed.

Lemma count_where_le (test : PyVal -> option bool)
    (l : list (string * PyVal)) (b : nat) :
  count_where test l = Some b -> (b <= List.length l)%nat.
Proof.
  intros H. rewrite (count_where_filter test l b H). apply filter_length_le.
Qed.

Lemma last_nonempty {A : Type} (l : list A) (d d' : A) :
  l <> [] -> last l d = last l d'.
Proof.
  induction l as [| a [| b t] IH]; intros H; [congruence | reflexivity |].
  change (last (a :: b :: t) d) with (last (b :: t) d).
  change (last (a :: b :: t) d') with (last (b :: t) d').
  apply IH. discriminate.
Qed.

Lemma compare_category_row (selected : Z) (selected_stats : list Stat)
    (all_teams : list Team) (all_team_stats : TeamStats) (cat_info : CatInfo)
    (name : string) (v : PyVal) (vs : string) (col : option Color)
    (best worst : string * PyVal) :
  compare_category selected selected_stats all_teams all_team_stats cat_info
  = Ret (RowValues name v vs col best worst) ->
  let id := category_stat_id cat_info in
  let values :=
    collect_values all_teams selected id (cat_name cat_info) all_team_stats in
  let higher := negb (is_lower_better_stat (cat_name cat_info) (Some id)) in
  extract_stat_value selected_stats id (Some (cat_name cat_info)) = Some v /\
  (exists sorted,
     py_sorted snd py_lt higher (fst values) = Some sorted /\
     hd_error sorted = Some best /\ last sorted best = worst) /\
  (exists b,
     vs = ratio_string b (List.length (snd values)) /\
     (b <= List.length (snd values))%nat /\
     (snd values <> [] ->
      better_than_count higher v (snd values) = Some b)).
Proof.
  unfold compare_category. cbv zeta.
  destruct (extract_stat_value selected_stats (category_stat_id cat_info)
              (Some (cat_name cat_info))) as [sv |]; [|discriminate].
  destruct (collect_values all_teams selected (category_stat_id cat_info)
              (cat_name cat_info) all_team_stats) as [av ov].
  cbn [fst snd].
  destruct av as [| first av]; [discriminate|].
  destruct (py_sorted snd py_lt
              (negb (is_lower_better_stat (cat_name cat_info)
                       (Some (category_stat_id cat_info))))
              (first :: av)) as [sorted |] eqn:Es; [|discriminate].
  pose proof (py_sorted_perm snd py_lt _ _ _ Es) as Hp.
  assert (Hne : sorted <> []).
  { intros ->. apply Permutation_sym, Permutation_nil in Hp. discriminate. }
  assert (Hsorted : forall best worst,
            hd first sorted = best -> last sorted first = worst ->
            exists sorted',
              Some sorted = Some sorted' /\
              hd_error sorted' = Some best /\ last sorted' best = worst).
  { intros bst wst Hb Hw. exists sorted. split; [reflexivity|].
    destruct sorted as [| h t]; [congruence|]. simpl in Hb. subst bst.
    split; [reflexivity|]. rewrite <- Hw. now apply last_nonempty. }
  cbn [raise_type_error bind].
  destruct ov as [| o ov].
  - intros H. inversion H; subst. split; [reflexivity|]. split.
    + now apply Hsorted.
    + exists 0%nat. split; [reflexivity|]. split; [simpl; lia|].
      intros Hn. congruence.
  - destruct (better_than_count
                (negb (is_lower_better_stat (cat_name cat_info)
                         (Some (category_stat_id cat_info)))) sv (o :: ov))
      as [b |] eqn:Eb; [|discriminate].
    cbn [raise_type_error bind].
    destruct (get_color_for_performance b (List.length (o :: ov)))
      as [color | e]; [|discriminate].
    cbn [bind]. intros H. inversion H; subst. split; [reflexivity|]. split.
    + now apply Hsorted.
    + exists b. split; [reflexivity|]. split; [|intros _; exact Eb].
      unfold better_than_count in Eb.
      destruct (negb _); now apply count_where_le in Eb.
Qed.

(** ** Order of the stat records *)

Lemma collect_values_perm (all_teams : list Team) (selected : Z)
    (id category_name : string) (l l' : TeamStats) :
  Permutation l l' ->
  Permutation (fst (collect_values all_teams selected id category_name l))
    (fst (collect_values all_teams selected id category_name l')) /\
  Permutation (snd (collect_values all_teams selected id category_name l))
    (snd (collect_values all_teams selected id category_name l')).
Proof.
  induction 1 as [| [k st] l l' Hp [IH1 IH2] | [k st] [k' st'] l
                 | l l' l'' _ [IH1 IH2] _ [IH1' IH2']].
  - split; apply perm_nil.
  - simpl.
    destruct (collect_values all_teams selected id category_name l)
      as [av ov].
    destruct (collect_values all_teams selected id category_name l')
      as [av' ov'].
    simpl in IH1, IH2.
    destruct (team_lookup all_teams k) as [tm |]; [|now split].
    destruct (extract_stat_value st id (Some category_name)) as [v |];
      [|now split].
    simpl. split; [now apply perm_skip|].
    destruct (k =? selected); [exact IH2 | now apply perm_skip].
  - simpl.
    destruct (collect_values all_teams selected id category_name l)
      as [av ov].
    destruct (team_lookup all_teams k) as [tm |];
      destruct (team_lookup all_teams k') as [tm' |];
      destruct (extract_stat_value st id (Some category_name)) as [v |];
      destruct (extract_stat_value st' id (Some category_name)) as [v' |];
      simpl; try (split; apply Permutation_refl).
    split; [apply perm_swap|].
    destruct (k =? selected), (k' =? selected);
      try apply Permutation_refl. apply perm_swap.
  - split; eapply perm_trans; eassumption.
Qed.

Lemma count_where_perm (test : PyVal -> option bool)
    (l l' : list (string * PyVal)) :
  Permutation l l' -> count_where test l = count_where test l'.
Proof.
  induction 1 as [| [n v] l l' _ IH | [n v] [n' v'] l | l l' l'' _ IH _ IH'].
  - reflexivity.
  - simpl. now rewrite IH.
  - simpl. destruct (test v) as [[|] |], (test v') as [[|] |];
      destruct (count_where test l); reflexivity.
  - congruence.
Qed.

Lemma row_ratio_perm (selected : Z) (selected_stats : list Stat)
    (all_teams : list Team) (l l' : TeamStats) (cat_info : CatInfo) :
  Permutation l l' ->
  row_ratio (compare_category selected selected_stats all_teams l cat_info)
  = row_ratio (compare_category selected selected_stats all_teams l' cat_info).
Proof.
  intros Hp. unfold compare_category. cbv zeta.
  destruct (extract_stat_value selected_stats (category_stat_id cat_info)
              (Some (cat_name cat_info))) as [sv |]; [|reflexivity].
  destruct (collect_values_perm all_teams selected (category_stat_id cat_info)
              (cat_name cat_info) l l' Hp) as [Ha Ho].
  destruct (collect_values all_teams selected (category_stat_id cat_info)
              (cat_name cat_info) l) as [av ov].
  destruct (collect_values all_teams selected (category_stat_id cat_info)
              (cat_name cat_info) l') as [av' ov'].
  cbn [fst snd] in Ha, Ho.
  destruct av as [| first av], av' as [| first' av'].
  - reflexivity.
  - apply Permutation_nil in Ha. discriminate.
  - apply Permutation_sym, Permutation_nil in Ha. discriminate.
  - set (higher := negb (is_lower_better_stat (cat_name cat_info)
                           (Some (category_stat_id cat_info)))).
    destruct (py_sorted snd py_lt higher (first :: av)) as [s |] eqn:Es.
    + destruct (py_sorted snd py_lt higher (first' :: av')) as [s' |] eqn:Es'.
      * cbn [raise_type_error bind].
        assert (Hb : better_than_count higher sv ov
                     = better_than_count higher sv ov').
        { unfold better_than_count. destruct higher;
            now apply count_where_perm. }
        pose proof (Permutation_length Ho) as Hlen.
        destruct ov as [| o ov], ov' as [| o' ov']; try discriminate.
        -- reflexivity.
        -- rewrite Hb, Hlen.
           destruct (better_than_count higher sv (o' :: ov')) as [b |];
             [|reflexivity].
           cbn [raise_type_error bind].
           destruct (get_color_for_performance b
                       (List.length (o' :: ov'))); reflexivity.
      * apply (py_sorted_none_perm snd py_lt order_class py_lt_order_class
                 higher _ _ (Permutation_sym Ha)) in Es'.
        congruence.
    + rewrite (py_sorted_none_perm snd py_lt order_class py_lt_order_class
                 higher _ _ Ha Es).
      reflexivity.
Qed.

(** C6: the count of beaten opponents of a row is at most the number of
    comparable opponents, and the "vs Teams" column of a category is the
    same for every order of the teams' stat records. *)
Theorem beaten_count_bounded_order_independent (selected : Z)
    (selected_stats : list Stat) (all_teams : list Team)
    (all_team_stats all_team_stats' : TeamStats) (cat_info : CatInfo) :
  Permutation all_team_stats all_team_stats' ->
  let id := category_stat_id cat_info in
  let higher := negb (is_lower_better_stat (cat_name cat_info) (Some id)) in
  let others l :=
    snd (collect_values all_teams selected id (cat_name cat_info) l) in
  (forall v b,
     better_than_count higher v (others all_team_stats) = Some b ->
     (b <= List.length (others all_team_stats))%nat) /\
  (forall name v vs col best worst,
     compare_category selected selected_stats all_teams all_team_stats cat_info
     = Ret (RowValues name v vs col best worst) ->
     exists b,
       vs = ratio_string b (List.length (others all_team_stats)) /\
       (b <= List.length (others all_team_stats))%nat) /\
  (forall v,
     better_than_count higher v (others all_team_stats)
     = better_than_count higher v (others all_team_stats')) /\
  List.length (others all_team_stats) = List.length (others all_team_stats') /\
  row_ratio (compare_category selected selected_stats all_teams
               all_team_stats cat_info)
  = row_ratio (compare_category selected selected_stats all_teams
                 all_team_stats' cat_info).
Proof.
  intros Hp id higher others.
  destruct (collect_values_perm all_teams selected id (cat_name cat_info)
              _ _ Hp) as [_ Ho].
  split.
  - intros v b H. unfold better_than_count in H.
    destruct higher; now apply count_where_le in H.
  - split.
    + intros name v vs col best worst H.
      destruct (compare_category_row _ _ _ _ _ _ _ _ _ _ _ H)
        as (_ & _ & (b & Hvs & Hle & _)).
      exists b. now split.
    + split.
      * intros v. unfold better_than_count.
        destruct higher; now apply count_where_perm.
      * split; [exact (Permutation_length Ho)|].
        now apply row_ratio_perm.
Qed.

(** ** Head-to-head tallies *)

Lemma filter_length_full {A : Type} (f : A -> bool) (l : list A) :
  List.length (filter f l) = List.length l <-> forall a, In a l -> f a = true.
Proof.
  induction l as [| x t IH]; simpl.
  - split; [intros _ a [] | reflexivity].
  - pose proof (filter_length_le f t) as Hle.
    destruct (f x) eqn:E; simpl.
    + split.
      * intros H a [<- | Hin]; [exact E|]. apply IH; [lia | exact Hin].
      * intros H. f_equal. apply IH. intros a Hin. apply H. now right.
    + split; [lia|]. intros H. specialize (H x (or_introl eq_refl)).
      congruence.
Qed.

(** A category yields an entry exactly when it is not skipped. *)
Lemma category_outcome_skipped (selected_stats opponent_stats : list Stat)
    (cat_info : CatInfo) (o : option (string * ResultCode)) :
  category_outcome selected_stats opponent_stats cat_info = Ret o ->
  match o with
  | None => skipped_category selected_stats opponent_stats cat_info = true
  | Some (n, _) =>
      n = cat_name cat_info /\
      skipped_category selected_stats opponent_stats cat_info = false
  end.
Proof.
  unfold category_outcome, skipped_category. cbv zeta.
  destruct (String.eqb (cat_id cat_info) EmptyString).
  - intros H. now inversion H.
  - cbn [orb].
    destruct (extract_stat_value selected_stats (cat_id cat_info)
                (Some (cat_name cat_info))) as [sv |];
      [|intros H; now inversion H].
    destruct (extract_stat_value opponent_stats (cat_id cat_info)
                (Some (cat_name cat_info))) as [ov |];
      [|intros H; now inversion H].
    destruct (negb _);
      destruct (py_gt sv ov) as [[|] |]; destruct (py_lt sv ov) as [[|] |];
      cbn [raise_type_error bind]; intros H; inversion H; now split.
Qed.

Lemma tally_categories_counts (selected_stats opponent_stats : list Stat)
    (categories_info : list CatInfo) (w l : nat)
    (results : list (string * ResultCode)) :
  tally_categories selected_stats opponent_stats categories_info
  = Ret (w, l, results) ->
  w = count_code W results /\ l = count_code L results /\
  map fst results
  = map cat_name
      (filter (fun c => negb (skipped_category selected_stats opponent_stats c))
         categories_info).
Proof.
  revert w l results.
  induction categories_info as [| c rest IH]; intros w l results; simpl.
  - intros H. inversion H. now repeat split.
  - destruct (category_outcome selected_stats opponent_stats c)
      as [o | e] eqn:Eo; [|discriminate].
    apply category_outcome_skipped in Eo. cbn [bind].
    destruct (tally_categories selected_stats opponent_stats rest)
      as [[[w' l'] res'] | e]; [|discriminate].
    cbn [bind]. destruct (IH w' l' res' eq_refl) as (Hw & Hl & Hm).
    destruct o as [[n code] |].
    + destruct Eo as [-> Es]. rewrite Es. cbn [negb].
      destruct code; intros H; inversion H; subst;
        unfold count_code; simpl; rewrite Hm; repeat split; reflexivity.
    + rewrite Eo. cbn [negb]. intros H. inversion H; subst. now repeat split.
Qed.

Lemma count_code_total (results : list (string * ResultCode)) :
  (count_code W results + count_code L results + count_code T results
   = List.length results)%nat.
Proof.
  unfold count_code. induction results as [| [n c] t IH]; [reflexivity|].
  destruct c; cbn [filter is_code snd List.length]; lia.
Qed.

Lemma matchup_results_entries (selected : Z) (selected_stats : list Stat)
    (all_teams : list Team) (categories_info : list CatInfo)
    (all_team_stats : TeamStats) (results : list MatchupResult) :
  matchup_results selected selected_stats all_teams categories_info
    all_team_stats = Ret results ->
  map team results = opponents all_teams selected all_team_stats /\
  forall r, In r results ->
    exists tid stats_list,
      In (tid, stats_list) all_team_stats /\ tid <> selected /\
      team_lookup all_teams tid = Some (team r) /\
      tally_categories selected_stats stats_list categories_info
      = Ret (wins r, losses r, category_results r).
Proof.
  revert results. unfold opponents.
  induction all_team_stats as [| [k st] rest IH]; intros results; simpl.
  - intros H. inversion H. split; [reflexivity | intros r []].
  - destruct (k =? selected) eqn:Ek.
    + intros H. destruct (IH _ H) as [Hm Hr]. split; [exact Hm|].
      intros r Hin. destruct (Hr r Hin) as (tid & sl & H1 & H2).
      exists tid, sl. tauto.
    + destruct (team_lookup all_teams k) as [tm |] eqn:Et.
      * destruct (tally_categories selected_stats st categories_info)
          as [[[w l] res] | e] eqn:Etl; [|discriminate].
        cbn [bind].
        destruct (matchup_results selected selected_stats all_teams
                    categories_info rest) as [others | e]; [|discriminate].
        cbn [bind]. intros H. inversion H; subst.
        destruct (IH _ eq_refl) as [Hm Hr]. split.
        -- simpl. now rewrite Hm.
        -- intros r [<- | Hin].
           ++ exists k, st. simpl. apply Z.eqb_neq in Ek. tauto.
           ++ destruct (Hr r Hin) as (tid & sl & H1 & H2).
              exists tid, sl. tauto.
      * intros H. destruct (IH _ H) as [Hm Hr]. split; [exact Hm|].
        intros r Hin. destruct (Hr r Hin) as (tid & sl & H1 & H2).
        exists tid, sl. tauto.
Qed.

Lemma lt_wins_class (a b : nat) :
  lt_wins a b <> None <->
  ((fun _ : nat => Some tt) a = (fun _ : nat => Some tt) b /\
   (fun _ : nat => Some tt) a <> None).
Proof. unfold lt_wins. split; [split; congruence | discriminate]. Qed.

(** C7, as the code has it: in a head-to-head result, wins, losses and ties
    add up to the number of categories that were not skipped, which is at
    most the number of categories, with equality exactly when no category
    was skipped; a category is skipped when either side has no normalized
    value, and also when its stat id is empty. *)
Theorem head_to_head_tally_bound (selected : Z) (selected_stats : list Stat)
    (all_teams : list Team) (all_team_stats : TeamStats)
    (categories_info : list CatInfo) (results : list MatchupResult) :
  compare_head_to_head selected selected_stats all_teams all_team_stats
    categories_info = Ret results ->
  forall r, In r results ->
    exists tid stats_list,
      In (tid, stats_list) all_team_stats /\ tid <> selected /\
      team_lookup all_teams tid = Some (team r) /\
      (wins r + losses r + ties r = List.length (category_results r))%nat /\
      (wins r + losses r + ties r <= List.length categories_info)%nat /\
      ((wins r + losses r + ties r = List.length categories_info)%nat <->
       forall c, In c categories_info ->
         cat_id c <> EmptyString /\
         extract_stat_value selected_stats (cat_id c) (Some (cat_name c))
         <> None /\
         extract_stat_value stats_list (cat_id c) (Some (cat_name c))
         <> None).
Proof.
  unfold compare_head_to_head. intros H r Hin.
  destruct (matchup_results selected selected_stats all_teams categories_info
              all_team_stats) as [unsorted | e] eqn:Em; [|discriminate].
  cbn [bind] in H.
  destruct (py_sorted wins lt_wins true unsorted) as [s |] eqn:Es;
    [|discriminate].
  inversion H; subst s.
  apply (py_sorted_perm wins lt_wins) in Es.
  apply (Permutation_in r (Permutation_sym Es)) in Hin.
  destruct (matchup_results_entries _ _ _ _ _ _ Em) as [_ Hr].
  destruct (Hr r Hin) as (tid & sl & Hi & Hne & Hl & Ht).
  exists tid, sl. repeat (split; [assumption|]).
  destruct (tally_categories_counts _ _ _ _ _ _ Ht) as (Hw & Hlo & Hm).
  pose proof (count_code_total (category_results r)) as Htot.
  assert (Hsum : (wins r + losses r + ties r
                  = List.length (category_results r))%nat).
  { unfold ties. lia. }
  assert (Hlen : List.length (category_results r)
                 = List.length
                     (filter (fun c => negb (skipped_category selected_stats
                                               sl c)) categories_info)).
  { rewrite <- (length_map fst (category_results r)), Hm.
    apply length_map. }
  split; [exact Hsum|]. split.
  - rewrite Hsum, Hlen. apply filter_length_le.
  - rewrite Hsum, Hlen, filter_length_full.
    split; intros Hall c Hc; specialize (Hall c Hc);
      unfold skipped_category in *.
    + apply negb_true_iff, orb_false_iff in Hall. destruct Hall as [He Hv].
      split; [intros Heq; rewrite Heq in He; discriminate|].
      destruct (extract_stat_value selected_stats (cat_id c)
                  (Some (cat_name c))); [|discriminate].
      destruct (extract_stat_value sl (cat_id c) (Some (cat_name c)));
        [|discriminate].
      split; discriminate.
    + destruct Hall as (He & Hs & Ho). apply negb_true_iff, orb_false_iff.
      split; [now apply String.eqb_neq|].
      destruct (extract_stat_value selected_stats (cat_id c)
                  (Some (cat_name c))); [|congruence].
      destruct (extract_stat_value sl (cat_id c) (Some (cat_name c)));
        [reflexivity | congruence].
Qed.

(** ** Sorting the head-to-head results by wins *)

Section SortByCount.

Context {A : Type}.
Variable key : A -> nat.

Lemma insert_count_sorted (x : A) (l l' : list A) :
  StronglySorted (fun a b => (key a <= key b)%nat) l ->
  insert_sorted key lt_wins x l = Some l' ->
  StronglySorted (fun a b => (key a <= key b)%nat) l'.
Proof.
  intros Hs. revert l'. induction Hs as [| y t Ht IH Hy]; intros l'; simpl.
  - intros H. inversion H. constructor; constructor.
  - destruct (key y <? key x)%nat eqn:E.
    + destruct (insert_sorted key lt_wins x t) as [t' |] eqn:Ei;
        [|discriminate].
      simpl. intros H. inversion H; subst. constructor; [now apply IH|].
      apply (insert_sorted_perm key lt_wins) in Ei.
      apply (Permutation_Forall Ei). constructor; [|exact Hy].
      apply Nat.ltb_lt in E. lia.
    + intros H. inversion H; subst. apply Nat.ltb_ge in E.
      constructor; [now constructor|]. constructor; [exact E|].
      rewrite Forall_forall in *. intros z Hz. specialize (Hy z Hz). lia.
Qed.

Lemma insert_count_filter (x : A) (l l' : list A) (w : nat) :
  insert_sorted key lt_wins x l = Some l' ->
  filter (fun a => (key a =? w)%nat) l'
  = filter (fun a => (key a =? w)%nat) (x :: l).
Proof.
  revert l'. induction l as [| y t IH]; intros l'; simpl.
  - intros H. now inversion H.
  - destruct (key y <? key x)%nat eqn:E.
    + destruct (insert_sorted key lt_wins x t) as [t' |]; [|discriminate].
      simpl. intros H. inversion H; subst. simpl.
      rewrite (IH t' eq_refl). simpl. apply Nat.ltb_lt in E.
      destruct (key y =? w)%nat eqn:Ey, (key x =? w)%nat eqn:Ex;
        try reflexivity.
      apply Nat.eqb_eq in Ey, Ex. lia.
    + intros H. now inversion H.
Qed.

Lemma sort_asc_count (l s : list A) :
  sort_asc key lt_wins l = Some s ->
  StronglySorted (fun a b => (key a <= key b)%nat) s /\
  forall w, filter (fun a => (key a =? w)%nat) s
            = filter (fun a => (key a =? w)%nat) l.
Proof.
  revert s. induction l as [| x t IH]; intros s; simpl.
  - intros H. inversion H. split; [constructor | reflexivity].
  - destruct (sort_asc key lt_wins t) as [s' |]; [|discriminate].
    destruct (IH s' eq_refl) as [Hs Hf]. intros H. split.
    + now apply (insert_count_sorted x s').
    + intros w. rewrite (insert_count_filter x s' s w H). simpl.
      now rewrite Hf.
Qed.

Lemma strongly_sorted_rev (R : A -> A -> Prop) (l : list A) :
  StronglySorted R l -> StronglySorted (fun a b => R b a) (rev l).
Proof.
  induction 1 as [| a l Hl IH Ha]; simpl; [constructor|].
  clear Hl. revert IH. generalize (rev_involutive l).
  assert (Hf : Forall (fun b => R a b) (rev l)).
  { apply Forall_forall. intros b Hb. apply in_rev in Hb.
    rewrite Forall_forall in Ha. now apply Ha. }
  intros _. induction (rev l) as [| b t IHt]; simpl; intros Hs.
  - constructor; constructor.
  - inversion Hs; subst. inversion Hf; subst.
    constructor; [now apply IHt|].
    apply Forall_app. split; [assumption | now constructor].
Qed.

Lemma py_sorted_count_desc (l s : list A) :
  py_sorted key lt_wins true l = Some s ->
  StronglySorted (fun a b => (key b <= key a)%nat) s /\
  forall w, filter (fun a => (key a =? w)%nat) s
            = filter (fun a => (key a =? w)%nat) l.
Proof.
  unfold py_sorted.
  destruct (sort_asc key lt_wins (rev l)) as [s' |] eqn:E; [|discriminate].
  simpl. intros H. inversion H; subst.
  destruct (sort_asc_count _ _ E) as [Hs Hf]. split.
  - now apply (strongly_sorted_rev (fun a b => (key a <= key b)%nat)).
  - intros w. rewrite filter_rev, Hf, filter_rev. apply rev_involutive.
Qed.

Lemma py_sorted_count_total (l : list A) :
  exists s, py_sorted key lt_wins true l = Some s.
Proof.
  apply (py_sorted_some_iff key lt_wins (fun _ => Some tt) lt_wins_class).
  right. exists tt. apply Forall_forall. reflexivity.
Qed.

End SortByCount.

Lemma team_lookup_id (all_teams : list Team) (tid : Z) (t : Team) :
  team_lookup all_teams tid = Some t -> team_id t = tid.
Proof.
  induction all_teams as [| a rest IH]; simpl; [discriminate|].
  destruct (team_lookup rest tid) as [t' |].
  - intros H. inversion H; subst. now apply IH.
  - destruct (team_id a =? tid) eqn:E; [|discriminate].
    intros H. inversion H; subst. now apply Z.eqb_eq.
Qed.

Lemma opponents_ids (all_teams : list Team) (selected : Z)
    (all_team_stats : TeamStats) :
  map team_id (opponents all_teams selected all_team_stats)
  = filter (fun tid => negb (tid =? selected)
                       && match team_lookup all_teams tid with
                          | Some _ => true
                          | None => false
                          end)
      (map fst all_team_stats).
Proof.
  unfold opponents. induction all_team_stats as [| [k st] rest IH];
    [reflexivity|].
  simpl. destruct (k =? selected); simpl; [exact IH|].
  destruct (team_lookup all_teams k) as [t |] eqn:E; simpl; [|exact IH].
  now rewrite (team_lookup_id _ _ _ E), IH.
Qed.

(** C8, as the code has it: when the scoring completes, there is exactly one
    result for every team that has a stat record, is on the roster and is
    not the selected team, whether or not it was paired with the selected
    team; the results are ordered by wins, descending, and results with
    equal wins keep their encounter order. *)
Theorem head_to_head_results_sorted (selected : Z)
    (selected_stats : list Stat) (all_teams : list Team)
    (all_team_stats : TeamStats) (categories_info : list CatInfo)
    (results : list MatchupResult) :
  compare_head_to_head selected selected_stats all_teams all_team_stats
    categories_info = Ret results ->
  exists unsorted,
    matchup_results selected selected_stats all_teams categories_info
      all_team_stats = Ret unsorted /\
    map team unsorted = opponents all_teams selected all_team_stats /\
    Permutation (map team results)
      (opponents all_teams selected all_team_stats) /\
    map team_id (opponents all_teams selected all_team_stats)
    = filter (fun tid => negb (tid =? selected)
                         && match team_lookup all_teams tid with
                            | Some _ => true
                            | None => false
                            end)
        (map fst all_team_stats) /\
    (NoDup (map fst all_team_stats) ->
     NoDup (map (fun r => team_id (team r)) results)) /\
    StronglySorted (fun a b => (wins b <= wins a)%nat) results /\
    forall w, filter (fun r => (wins r =? w)%nat) results
              = filter (fun r => (wins r =? w)%nat) unsorted.
Proof.
  unfold compare_head_to_head. intros H.
  destruct (matchup_results selected selected_stats all_teams categories_info
              all_team_stats) as [unsorted | e] eqn:Em; [|discriminate].
  cbn [bind] in H.
  destruct (py_sorted wins lt_wins true unsorted) as [s |] eqn:Es;
    [|discriminate].
  inversion H; subst s. exists unsorted.
  destruct (matchup_results_entries _ _ _ _ _ _ Em) as [Hm _].
  pose proof (py_sorted_perm wins lt_wins _ _ _ Es) as Hp.
  destruct (py_sorted_count_desc wins _ _ Es) as [Hs Hf].
  split; [reflexivity|]. split; [exact Hm|]. split.
  - rewrite <- Hm. apply Permutation_map. now apply Permutation_sym.
  - split; [apply opponents_ids|]. split; [|now split].
    intros Hnd.
    apply (Permutation_NoDup
             (l := map team_id (opponents all_teams selected all_team_stats))).
    + rewrite <- Hm, map_map. now apply Permutation_map.
    + rewrite opponents_ids. now apply NoDup_filter.
Qed.

Lemma category_outcome_numeric (selected_stats opponent_stats : list Stat)
    (categories_info : list CatInfo) (c : CatInfo) :
  numeric_values categories_info selected_stats ->
  numeric_values categories_info opponent_stats ->
  In c categories_info ->
  exists o, category_outcome selected_stats opponent_stats c = Ret o.
Proof.
  intros Hs Ho Hc. unfold category_outcome. cbv zeta.
  destruct (String.eqb (cat_id c) EmptyString); [now eexists|].
  destruct (extract_stat_value selected_stats (cat_id c) (Some (cat_name c)))
    as [sv |] eqn:Es; [|now eexists].
  destruct (extract_stat_value opponent_stats (cat_id c) (Some (cat_name c)))
    as [ov |] eqn:Eo; [|now eexists].
  destruct (Hs c sv Hc Es) as [f ->]. destruct (Ho c ov Hc Eo) as [g ->].
  unfold py_gt. simpl py_lt.
  destruct (negb _); cbn [raise_type_error bind];
    destruct (g <? f)%float, (f <? g)%float; now eexists.
Qed.

Lemma tally_categories_numeric (selected_stats opponent_stats : list Stat)
    (categories_info : list CatInfo) :
  numeric_values categories_info selected_stats ->
  numeric_values categories_info opponent_stats ->
  exists r,
    tally_categories selected_stats opponent_stats categories_info = Ret r.
Proof.
  intros Hs Ho.
  assert (Hall : forall c, In c categories_info ->
            exists o, category_outcome selected_stats opponent_stats c = Ret o).
  { intros c Hc. now apply (category_outcome_numeric _ _ categories_info). }
  clear Hs Ho. induction categories_info as [| c rest IH]; simpl.
  - now eexists.
  - destruct (Hall c (or_introl eq_refl)) as [o ->]. cbn [bind].
    destruct IH as [[[w l] res] ->].
    { intros c' Hc'. apply Hall. now right. }
    cbn [bind]. destruct o as [[n []] |]; now eexists.
Qed.

(** The scoring completes when every normalized value is a number. *)
Lemma compare_head_to_head_completes (selected : Z)
    (selected_stats : list Stat) (all_teams : list Team)
    (all_team_stats : TeamStats) (categories_info : list CatInfo) :
  numeric_values categories_info selected_stats ->
  (forall tid stats_list, In (tid, stats_list) all_team_stats ->
     numeric_values categories_info stats_list) ->
  exists results,
    compare_head_to_head selected selected_stats all_teams all_team_stats
      categories_info = Ret results.
Proof.
  intros Hs Hall. unfold compare_head_to_head.
  assert (Hm : exists unsorted,
            matchup_results selected selected_stats all_teams categories_info
              all_team_stats = Ret unsorted).
  { induction all_team_stats as [| [k st] rest IH]; simpl; [now eexists|].
    destruct IH as [others Ho].
    { intros tid sl Hin. apply (Hall tid sl). now right. }
    destruct (k =? selected); [now exists others|].
    destruct (team_lookup all_teams k) as [tm |]; [|now exists others].
    destruct (tally_categories_numeric selected_stats st categories_info Hs
                (Hall k st (or_introl eq_refl))) as [[[w l] res] ->].
    cbn [bind]. rewrite Ho. cbn [bind]. now eexists. }
  destruct Hm as [unsorted ->]. cbn [bind].
  destruct (py_sorted_count_total wins unsorted) as [s ->].
  now eexists.
Qed.

(** ** No comparable opponent *)

Lemma float_of_Z_exn (z : Z) (e : exn) :
  float_of_Z z = Exc e -> e = OverflowError.
Proof.
  unfold float_of_Z.
  destruct (binary_normalize prec emax z 0 false); intros H;
    inversion H; reflexivity.
Qed.

Lemma get_color_for_performance_guarded (better_than total_teams : nat) :
  get_color_for_performance better_than 0 = Ret RESET /\
  get_color_for_performance better_than total_teams <> Exc ZeroDivisionError.
Proof.
  split; [reflexivity|].
  unfold get_color_for_performance, py_truediv.
  destruct (total_teams =? 0)%nat; [discriminate|].
  destruct (float_of_Z (Z.of_nat better_than)) as [x | e] eqn:Ex.
  - destruct (float_of_Z (Z.of_nat total_teams)) as [y | e] eqn:Ey.
    + cbn [bind].
      destruct (0.7 <=? x / y)%float; [discriminate|].
      destruct (x / y <? 0.3)%float; discriminate.
    + cbn [bind]. apply float_of_Z_exn in Ey. subst. discriminate.
  - cbn [bind]. apply float_of_Z_exn in Ex. subst. discriminate.
Qed.

Lemma collect_values_without_selected (all_teams : list Team) (selected : Z)
    (id category_name : string) (all_team_stats : TeamStats) :
  ~ In selected (map fst all_team_stats) ->
  fst (collect_values all_teams selected id category_name all_team_stats)
  = snd (collect_values all_teams selected id category_name all_team_stats).
Proof.
  induction all_team_stats as [| [k st] rest IH]; simpl; [reflexivity|].
  intros Hn.
  destruct (collect_values all_teams selected id category_name rest)
    as [av ov].
  simpl in IH.
  destruct (team_lookup all_teams k); [|apply IH; tauto].
  destruct (extract_stat_value st id (Some category_name));
    [|apply IH; tauto].
  simpl. destruct (k =? selected) eqn:E.
  - apply Z.eqb_eq in E. tauto.
  - f_equal. apply IH. tauto.
Qed.

Lemma collect_values_only_selected (all_teams : list Team) (selected : Z)
    (id category_name : string) (all_team_stats : TeamStats)
    (selected_stats : list Stat) (tm : Team) (v : PyVal) :
  NoDup (map fst all_team_stats) ->
  stats_get all_team_stats selected = Some selected_stats ->
  team_lookup all_teams selected = Some tm ->
  extract_stat_value selected_stats id (Some category_name) = Some v ->
  snd (collect_values all_teams selected id category_name all_team_stats)
  = [] ->
  fst (collect_values all_teams selected id category_name all_team_stats)
  = [(team_name tm, v)].
Proof.
  intros Hnd Hget Htm Hv.
  induction all_team_stats as [| [k st] rest IH]; simpl in *; [discriminate|].
  inversion Hnd as [| ? ? Hk Hnd']; subst.
  pose proof (collect_values_without_selected all_teams selected id
                category_name rest) as Hws.
  destruct (collect_values all_teams selected id category_name rest)
    as [av ov].
  simpl in *. destruct (k =? selected) eqn:E.
  - apply Z.eqb_eq in E. subst k. inversion Hget; subst st.
    rewrite Htm, Hv. simpl. intros ->. f_equal. now apply Hws.
  - destruct (team_lookup all_teams k); [|now apply IH].
    destruct (extract_stat_value st id (Some category_name));
      [|now apply IH].
    simpl. discriminate.
Qed.

(** C9, as the code has it: when the selected team (a roster member with a
    stat record) has a value for a category and no opponent has one, the
    string "0/0" is computed for the ratio but the text printed in the
    "vs Teams" column is a dash, with no colour; best and worst are the
    selected team's own value; and the colour computation never divides by
    zero: with no opponent it answers the neutral colour. *)
Theorem zero_opponents_row (selected : Z) (selected_stats : list Stat)
    (all_teams : list Team) (all_team_stats : TeamStats) (cat_info : CatInfo)
    (tm : Team) (v : PyVal) :
  NoDup (map fst all_team_stats) ->
  stats_get all_team_stats selected = Some selected_stats ->
  team_lookup all_teams selected = Some tm ->
  extract_stat_value selected_stats (category_stat_id cat_info)
    (Some (cat_name cat_info)) = Some v ->
  snd (collect_values all_teams selected (category_stat_id cat_info)
         (cat_name cat_info) all_team_stats) = [] ->
  (exists row,
     compare_category selected selected_stats all_teams all_team_stats
       cat_info = Ret row /\
     row = RowValues (cat_name cat_info) v "0/0" None
             (team_name tm, v) (team_name tm, v) /\
     vs_teams_colored row = "-"%string /\
     vs_teams_colored row <> "0/0"%string) /\
  (forall better_than,
     get_color_for_performance better_than 0 = Ret RESET) /\
  (forall better_than total_teams,
     get_color_for_performance better_than total_teams
     <> Exc ZeroDivisionError).
Proof.
  intros Hnd Hget Htm Hv Ho. split.
  - pose proof (collect_values_only_selected _ _ _ _ _ _ _ _ Hnd Hget Htm Hv
                  Ho) as Ha.
    eexists. split; [|split; [reflexivity|split; [reflexivity|discriminate]]].
    unfold compare_category. cbv zeta. rewrite Hv.
    destruct (collect_values all_teams selected (category_stat_id cat_info)
                (cat_name cat_info) all_team_stats) as [av ov].
    cbn [fst snd] in Ha, Ho. subst av ov.
    now destruct (negb _).
  - split.
    + intros b. exact (proj1 (get_color_for_performance_guarded b 0%nat)).
    + intros b t. exact (proj2 (get_color_for_performance_guarded b t)).
Qed.

(** ** Values that are not numbers *)

Lemma normalize_value_unparsed (val : PyVal) :
  ~ missing_raw (Some val) ->
  py_float val = Exc ValueError \/ py_float val = Exc TypeError ->
  normalize_value false val = Ret (if truthy val then Some val else None).
Proof.
  intros Hm Hf. destruct (missing_raw_guards val Hm) as (H1 & H2 & H3).
  unfold normalize_value. rewrite H1, H2, H3. cbn [orb].
  now destruct Hf as [-> | ->].
Qed.

Lemma unparsed_falsy_is_none (val : PyVal) :
  ~ missing_raw (Some val) ->
  py_float val = Exc ValueError \/ py_float val = Exc TypeError ->
  truthy val = false -> val = VNone.
Proof.
  intros Hm Hf Ht. destruct val as [| d | s | z | f]; simpl in *.
  - reflexivity.
  - discriminate.
  - apply negb_false_iff, String.eqb_eq in Ht. subst. unfold missing_raw in Hm.
    tauto.
  - destruct Hf as [Hf | Hf]; apply float_of_Z_exn in Hf; discriminate.
  - destruct Hf; discriminate.
Qed.

(** C10: a located raw value that is none of the missing forms (an empty
    [APIAttr], the empty string, the placeholder ["/"]), that is normalized
    as a non-percentage (by the category's test when found by id, by the
    stat's own display, a string, when found by index) and that [float]
    refuses with a [ValueError] or a [TypeError], is returned unchanged
    when it is true, and [None] is returned only when it is false, which
    only [None] itself is. *)
Theorem unparsed_value_passes_through (stats_list : list Stat) (id : string)
    (display : option string) (val : PyVal) :
  located_value stats_list id = Some val ->
  percentage_applied stats_list id display = false ->
  indexed_display_is_text stats_list id ->
  ~ missing_raw (Some val) ->
  py_float val = Exc ValueError \/ py_float val = Exc TypeError ->
  extract_stat_value stats_list id display
  = (if truthy val then Some val else None) /\
  (truthy val = true -> extract_stat_value stats_list id display = Some val) /\
  (extract_stat_value stats_list id display = None <-> truthy val = false) /\
  (truthy val = false -> val = VNone).
Proof.
  intros Hl Hp _ Hm Hf.
  assert (He : extract_stat_value stats_list id display
               = (if truthy val then Some val else None)).
  { rewrite (extract_stat_value_located _ _ _ _ Hl), Hp.
    now rewrite (normalize_value_unparsed val Hm Hf). }
  split; [exact He|]. split; [|split].
  - intros Ht. now rewrite He, Ht.
  - rewrite He. destruct (truthy val); split; congruence.
  - now apply unparsed_falsy_is_none.
Qed.

(** * Further properties of the code *)

(** ** [is_percentage_stat] and the shape of a normalized value *)

(** X1: a stat is a percentage stat exactly when its id is "5", "8" or "11",
    or a percent sign occurs in its display name. *)
Theorem is_percentage_stat_iff (id : string) (display : option string) :
  is_percentage_stat id display = true <->
  (id = "5" \/ id = "8" \/ id = "11")%string \/
  (exists d, display = Some d /\ occurs_in "%" d).
Proof.
  unfold is_percentage_stat, percentage_stat_ids. simpl existsb.
  rewrite orb_false_r.
  pose proof (String.eqb_eq id "5") as H5.
  pose proof (String.eqb_eq id "8") as H8.
  pose proof (String.eqb_eq id "11") as H11.
  assert (Tt : true = true) by reflexivity.
  assert (F : false = true <-> False) by (split; [discriminate | tauto]).
  destruct (String.eqb id "5"); [tauto|].
  destruct (String.eqb id "8"); [tauto|].
  destruct (String.eqb id "11"); [tauto|].
  cbn [orb].
  assert (Hd : match display with
               | Some d =>
                   if negb (String.eqb d EmptyString) && PyStr.contains "%" d
                   then true else false
               | None => false
               end = true <-> exists d, display = Some d /\ occurs_in "%" d).
  { destruct display as [d |].
    - pose proof (contains_spec "%" d) as Hc.
      destruct (String.eqb d EmptyString) eqn:Ee.
      + apply String.eqb_eq in Ee. subst d. cbn [negb andb]. split.
        * discriminate.
        * intros [d [Hd Ho]]. inversion Hd; subst d.
          apply Hc in Ho. discriminate.
      + cbn [negb andb]. destruct (PyStr.contains "%" d); split.
        * intros _. exists d. tauto.
        * reflexivity.
        * discriminate.
        * intros [d' [Hd Ho]]. inversion Hd; subst d'. now apply Hc.
    - split; [discriminate | intros [d [Hd _]]; discriminate]. }
  rewrite Hd. tauto.
Qed.

Lemma normalize_value_shape (is_percentage : bool) (val v : PyVal) :
  normalize_value is_percentage val = Ret (Some v) ->
  (exists f, v = VFloat f) \/
  (is_percentage = false /\ v = val /\ truthy val = true /\
   ~ missing_raw (Some val) /\
   (py_float val = Exc ValueError \/ py_float val = Exc TypeError)).
Proof.
  unfold normalize_value.
  destruct (is_empty_attr val) eqn:Ea; [discriminate|].
  destruct (eq_str val "/") eqn:Es; [discriminate|].
  destruct (eq_str val "") eqn:Ee; [discriminate|].
  cbn [orb].
  assert (Hm : ~ missing_raw (Some val)).
  { intros [H | [H | [H | H]]]; inversion H; subst; discriminate. }
  destruct is_percentage.
  - destruct (convert_percentage_value val) as [[f |] | e]; cbn [bind];
      try discriminate.
    simpl. intros H. inversion H. left. now exists f.
  - destruct (py_float val) as [f | []] eqn:Ef; try discriminate.
    + intros H. inversion H. left. now exists f.
    + destruct (truthy val) eqn:Et; [|discriminate].
      intros H. inversion H; subst. right. tauto.
    + destruct (truthy val) eqn:Et; [|discriminate].
      intros H. inversion H; subst. right. tauto.
Qed.

(** X2: a normalized value is a float, or else the located raw value itself,
    which then is true, is none of the missing forms, was refused by [float]
    and was not treated as a percentage; a value treated as a percentage is
    a float or [None]. *)
Theorem extract_stat_value_shape (stats_list : list Stat) (id : string)
    (display : option string) (v : PyVal) :
  extract_stat_value stats_list id display = Some v ->
  (exists f, v = VFloat f) \/
  (located_value stats_list id = Some v /\
   percentage_applied stats_list id display = false /\
   truthy v = true /\ ~ missing_raw (Some v) /\
   (py_float v = Exc ValueError \/ py_float v = Exc TypeError)).
Proof.
  intros H.
  destruct (located_value stats_list id) as [val |] eqn:El.
  - rewrite (extract_stat_value_located _ _ _ _ El) in H.
    destruct (normalize_value (percentage_applied stats_list id display) val)
      as [r | e] eqn:En; [|discriminate].
    subst r. apply normalize_value_shape in En.
    destruct En as [Hf | (Hp & -> & Ht & Hm & Hf)]; [now left|].
    right. tauto.
  - rewrite (extract_stat_value_missing stats_list id display) in H;
      [discriminate|].
    left. exact El.
Qed.

(** X3: an int too large for a float makes [convert_percentage_value] raise
    [OverflowError], which its own handler does not catch, and makes
    [extract_stat_value] return [None], percentage or not. *)
Theorem overflow_is_swallowed (stats_list : list Stat) (id : string)
    (display : option string) (z : Z) (e : exn) :
  float_of_Z z = Exc e ->
  located_value stats_list id = Some (VInt z) ->
  convert_percentage_value (VInt z) = Exc OverflowError /\
  extract_stat_value stats_list id display = None.
Proof.
  intros Hz Hl. pose proof (float_of_Z_exn z e Hz) as ->.
  assert (Hc : convert_percentage_value (VInt z) = Exc OverflowError).
  { unfold convert_percentage_value. simpl. now rewrite Hz. }
  split; [exact Hc|].
  rewrite (extract_stat_value_located _ _ _ _ Hl).
  unfold normalize_value. cbn [is_empty_attr eq_str orb].
  destruct (percentage_applied stats_list id display).
  - now rewrite Hc.
  - simpl. now rewrite Hz.
Qed.


(** ** Categories and the stats they come from *)

Lemma category_info_from_source (idx : nat) (stats_list : list Stat)
    (c : CatInfo) :
  In c (category_info_from idx stats_list) ->
  (idx <= cat_index c)%nat /\
  exists stat,
    nth_error stats_list (cat_index c - idx) = Some stat /\
    stat_display stat = Some (cat_name c) /\
    cat_name c <> EmptyString /\
    cat_id c = match stat_id stat with
               | Some i => i
               | None => PyStr.of_nat (cat_index c)
               end.
Proof.
  revert idx. induction stats_list as [| stat rest IH]; intros idx;
    [intros []|].
  assert (Hrest : In c (category_info_from (S idx) rest) ->
            (idx <= cat_index c)%nat /\
            exists st,
              nth_error (stat :: rest) (cat_index c - idx) = Some st /\
              stat_display st = Some (cat_name c) /\
              cat_name c <> EmptyString /\
              cat_id c = match stat_id st with
                         | Some i => i
                         | None => PyStr.of_nat (cat_index c)
                         end).
  { intros Hin. destruct (IH _ Hin) as [Hle [st Hst]].
    split; [lia|]. exists st.
    replace (cat_index c - idx)%nat with (S (cat_index c - S idx)) by lia.
    exact Hst. }
  simpl. destruct (stat_display stat) as [d |] eqn:Ed; [|exact Hrest].
  destruct (String.eqb d EmptyString) eqn:Ee; [exact Hrest|].
  destruct (PyStr.contains "/" d && _); [exact Hrest|].
  intros [<- | Hin]; [|exact (Hrest Hin)].
  simpl. split; [lia|]. exists stat. rewrite Nat.sub_diag. simpl.
  repeat split; try assumption.
  intros ->. discriminate.
Qed.

Lemma category_info_from_indexes (idx : nat) (stats_list : list Stat) :
  StronglySorted lt (map cat_index (category_info_from idx stats_list)) /\
  (List.length (category_info_from idx stats_list)
   <= List.length stats_list)%nat.
Proof.
  revert idx. induction stats_list as [| stat rest IH]; intros idx.
  - split; [constructor | simpl; lia].
  - destruct (IH (S idx)) as [Hs Hl].
    assert (Hrest :
              StronglySorted lt
                (map cat_index (category_info_from (S idx) rest)) /\
              (List.length (category_info_from (S idx) rest)
               <= List.length (stat :: rest))%nat).
    { split; [exact Hs | simpl; lia]. }
    simpl. destruct (stat_display stat) as [d |]; [|exact Hrest].
    destruct (String.eqb d EmptyString); [exact Hrest|].
    destruct (PyStr.contains "/" d && _); [exact Hrest|].
    simpl. split; [|lia]. constructor; [exact Hs|].
    apply Forall_forall. intros i Hi. apply in_map_iff in Hi.
    destruct Hi as [c [<- Hc]].
    apply category_info_from_source in Hc. lia.
Qed.

(** X5: every resolved category records the position of the stat it was
    made from: that stat has the category's name as its non-empty display,
    the category's id is the stat's id, or the position written as a number
    when the stat has none; the positions increase strictly, and there are
    no more categories than stats. *)
Theorem categories_point_at_their_stats (stats_list : list Stat) :
  (forall c, In c (get_category_info_from_stats stats_list) ->
     exists stat,
       nth_error stats_list (cat_index c) = Some stat /\
       stat_display stat = Some (cat_name c) /\
       cat_name c <> EmptyString /\
       cat_id c = match stat_id stat with
                  | Some i => i
                  | None => PyStr.of_nat (cat_index c)
                  end) /\
  StronglySorted lt
    (map cat_index (get_category_info_from_stats stats_list)) /\
  (List.length (get_category_info_from_stats stats_list)
   <= List.length stats_list)%nat.
Proof.
  unfold get_category_info_from_stats. split.
  - intros c Hc. destruct (category_info_from_source 0 _ _ Hc) as [_ [st H]].
    rewrite Nat.sub_0_r in H. now exists st.
  - apply category_info_from_indexes.
Qed.

Lemma find_by_id_unique (stats_list : list Stat) (n : nat) (stat : Stat)
    (i : string) (v : PyVal) :
  NoDup (present_ids stats_list) ->
  nth_error stats_list n = Some stat ->
  stat_id stat = Some i -> stat_value stat = Some v ->
  find_by_id stats_list i = Some v.
Proof.
  revert n. induction stats_list as [| s rest IH]; intros n Hnd Hn Hi Hv.
  - destruct n; discriminate.
  - destruct n as [| n]; simpl in Hn.
    + inversion Hn; subst s. simpl. rewrite Hi, Hv.
      now rewrite String.eqb_refl.
    + unfold present_ids in Hnd. simpl in Hnd.
      assert (Hin : In i (present_ids rest)).
      { unfold present_ids. apply in_flat_map. exists stat.
        split; [now apply nth_error_In with n|]. rewrite Hi. now left. }
      simpl. destruct (stat_id s) as [j |] eqn:Ej.
      * simpl in Hnd. inversion Hnd as [| ? ? Hnot Hnd']; subst.
        destruct (stat_value s); [|now apply (IH n)].
        destruct (String.eqb j i) eqn:E; [|now apply (IH n)].
        apply String.eqb_eq in E. subst j. contradiction.
      * now apply (IH n).
Qed.

(** X6: in a stat list whose stat ids are pairwise distinct, looking a
    resolved category up again finds the value of the very stat the category
    was made from, and normalizes it with the category's own percentage
    test. *)
Theorem category_lookup_round_trip (stats_list : list Stat) (c : CatInfo)
    (stat : Stat) (i : string) (v : PyVal) :
  NoDup (present_ids stats_list) ->
  In c (get_category_info_from_stats stats_list) ->
  nth_error stats_list (cat_index c) = Some stat ->
  stat_id stat = Some i -> stat_value stat = Some v ->
  cat_id c = i /\
  located_value stats_list (cat_id c) = Some v /\
  extract_stat_value stats_list (cat_id c) (Some (cat_name c))
  = match normalize_value
            (is_percentage_stat (cat_id c) (Some (cat_name c))) v with
    | Ret r => r
    | Exc _ => None
    end.
Proof.
  intros Hnd Hc Hn Hi Hv.
  destruct (category_info_from_source 0 stats_list c Hc)
    as [_ [st (Hn' & _ & _ & Hid)]].
  rewrite Nat.sub_0_r, Hn in Hn'. inversion Hn'; subst st. rewrite Hi in Hid.
  pose proof (find_by_id_unique _ _ _ _ _ Hnd Hn Hi Hv) as Hf.
  rewrite <- Hid in Hf.
  assert (Hl : located_value stats_list (cat_id c) = Some v).
  { unfold located_value. now rewrite Hf. }
  split; [exact Hid|]. split; [exact Hl|].
  rewrite (extract_stat_value_located _ _ _ _ Hl).
  unfold percentage_applied. now rewrite Hf.
Qed.

(** X7: a category made from a stat without an id carries the stat's
    position as its id; when no stat has that number as its id and [int]
    reads the number back, the lookup reaches the same stat through the
    index and normalizes its value by the percent sign of its display. *)
Theorem category_index_round_trip (stats_list : list Stat) (c : CatInfo)
    (stat : Stat) (v : PyVal) :
  In c (get_category_info_from_stats stats_list) ->
  nth_error stats_list (cat_index c) = Some stat ->
  stat_id stat = None -> stat_value stat = Some v ->
  find_by_id stats_list (cat_id c) = None ->
  int_of_str (cat_id c) = Some (Z.of_nat (cat_index c)) ->
  cat_id c = PyStr.of_nat (cat_index c) /\
  located_value stats_list (cat_id c) = Some v /\
  extract_stat_value stats_list (cat_id c) (Some (cat_name c))
  = match normalize_value (PyStr.contains "%" (cat_name c)) v with
    | Ret r => r
    | Exc _ => None
    end.
Proof.
  intros Hc Hn Hi Hv Hf Hint.
  destruct (category_info_from_source 0 stats_list c Hc)
    as [_ [st (Hn' & Hd & _ & Hid)]].
  rewrite Nat.sub_0_r, Hn in Hn'. inversion Hn'; subst st.
  rewrite Hi in Hid.
  assert (Hlen : (cat_index c < List.length stats_list)%nat).
  { apply nth_error_Some. congruence. }
  assert (Hx : find_by_index stats_list (cat_id c) = Some stat).
  { unfold find_by_index. rewrite Hint.
    replace ((0 <=? Z.of_nat (cat_index c))
             && (Z.of_nat (cat_index c) <? Z.of_nat (List.length stats_list)))
      with true.
    - now rewrite Nat2Z.id.
    - symmetry. apply andb_true_iff. split; [apply Z.leb_le | apply Z.ltb_lt];
        lia. }
  assert (Hl : located_value stats_list (cat_id c) = Some v).
  { unfold located_value. now rewrite Hf, Hx. }
  split; [exact Hid|]. split; [exact Hl|].
  rewrite (extract_stat_value_located _ _ _ _ Hl).
  unfold percentage_applied, display_has_percent. now rewrite Hf, Hx, Hd.
Qed.

(** ** The dict of the week's stats *)

Lemma stats_get_dict_set (d : TeamStats) (k k' : Z) (v : list Stat) :
  stats_get (dict_set d k v) k'
  = if k =? k' then Some v else stats_get d k'.
Proof.
  induction d as [| [j w] rest IH]; simpl.
  - reflexivity.
  - destruct (j =? k) eqn:Ejk; simpl.
    + apply Z.eqb_eq in Ejk. subst j. now destruct (k =? k').
    + rewrite IH. destruct (j =? k') eqn:Ejk'; [|reflexivity].
      apply Z.eqb_eq in Ejk'. subst j. now rewrite Z.eqb_sym, Ejk.
Qed.

Lemma dict_set_keys (d : TeamStats) (k : Z) (v : list Stat) (j : Z) :
  In j (map fst (dict_set d k v)) <-> j = k \/ In j (map fst d).
Proof.
  induction d as [| [i w] rest IH]; simpl.
  - intuition.
  - destruct (i =? k) eqn:E; simpl.
    + apply Z.eqb_eq in E. subst i. intuition.
    + rewrite IH. intuition.
Qed.

Lemma dict_set_nodup (d : TeamStats) (k : Z) (v : list Stat) :
  NoDup (map fst d) -> NoDup (map fst (dict_set d k v)).
Proof.
  induction d as [| [i w] rest IH]; simpl; intros Hnd.
  - constructor; [intros [] | constructor].
  - inversion Hnd as [| ? ? Hnot Hnd']; subst.
    destruct (i =? k) eqn:E; simpl.
    + apply Z.eqb_eq in E. subst i. now constructor.
    + constructor; [|now apply IH].
      rewrite dict_set_keys. apply Z.eqb_neq in E. intuition.
Qed.

Lemma dict_set_entries (d : TeamStats) (k : Z) (v : list Stat)
    (j : Z) (w : list Stat) :
  In (j, w) (dict_set d k v) -> (j = k /\ w = v) \/ In (j, w) d.
Proof.
  induction d as [| [i u] rest IH]; simpl.
  - intros [H | []]. inversion H. now left.
  - destruct (i =? k); simpl.
    + intros [H | H]; [inversion H; now left | right; now right].
    + intros [H | H]; [right; now left|].
      destruct (IH H) as [H' | H']; [now left | right; now right].
Qed.

Lemma store_side_ok (matchups : list Matchup) (d : TeamStats)
    (side : option Z) (side_stats : option (list Stat)) :
  (exists m, In m matchups /\
     ((team1 m = side /\ team1_stats m = side_stats) \/
      (team2 m = side /\ team2_stats m = side_stats))) ->
  stats_dict_ok matchups d ->
  stats_dict_ok matchups (store_side d side side_stats).
Proof.
  intros [m [Hm Hside]] [Hnd Hall]. unfold store_side.
  destruct side_stats as [[| stat rest] |]; try (now split).
  destruct side as [tid |]; [|now split].
  split; [now apply dict_set_nodup|].
  intros k v Hin. apply dict_set_entries in Hin.
  destruct Hin as [[-> ->] | Hin]; [|now apply Hall].
  split; [discriminate|]. now exists m.
Qed.

Lemma stats_dict_ok_more (ms ms' : list Matchup) (d : TeamStats) :
  (forall m, In m ms -> In m ms') ->
  stats_dict_ok ms d -> stats_dict_ok ms' d.
Proof.
  intros Hsub [Hnd Hall]. split; [exact Hnd|].
  intros k v Hin. destruct (Hall k v Hin) as [Hne [m [Hm H]]].
  split; [exact Hne|]. exists m. split; [now apply Hsub | exact H].
Qed.

Lemma fold_matchups_ok (all ms : list Matchup) (d : TeamStats) :
  (forall m, In m ms -> In m all) ->
  stats_dict_ok all d ->
  stats_dict_ok all
    (fold_left (fun d m =>
                  store_side (store_side d (team1 m) (team1_stats m))
                    (team2 m) (team2_stats m)) ms d).
Proof.
  revert d. induction ms as [| m rest IH]; intros d Hsub Hd; [exact Hd|].
  simpl. apply IH; [intros m' Hm'; apply Hsub; now right|].
  apply store_side_ok; [exists m; split; [apply Hsub; now left | tauto]|].
  apply store_side_ok; [exists m; split; [apply Hsub; now left | tauto]|].
  exact Hd.
Qed.

(** X8: the dict built from the week's matchups has pairwise distinct team
    ids and no empty stat list, and each of its entries is the stat list of
    one side of one matchup; so the sample used for the categories is the
    stat list of its first entry. *)
Theorem matchup_stats_dict_invariants (matchups : list Matchup) :
  let d := get_all_team_stats_from_matchups matchups in
  NoDup (map fst d) /\
  (forall k v, In (k, v) d ->
     v <> [] /\
     exists m, In m matchups /\
       ((team1 m = Some k /\ team1_stats m = Some v) \/
        (team2 m = Some k /\ team2_stats m = Some v))) /\
  sample_stats d = match d with
                   | [] => None
                   | (_, stats_list) :: _ => Some stats_list
                   end.
Proof.
  intros d.
  assert (Hok : stats_dict_ok matchups d).
  { unfold d, get_all_team_stats_from_matchups.
    apply fold_matchups_ok; [tauto|].
    split; [constructor | intros k v []]. }
  destruct Hok as [Hnd Hall]. split; [exact Hnd|]. split; [exact Hall|].
  destruct d as [| [k [| stat rest]] tl]; try reflexivity.
  destruct (Hall k [] (or_introl eq_refl)) as [Hne _]. congruence.
Qed.

(** X9: what a matchup stores is read back until a later matchup stores the
    same team again: after the last matchup, its second side is in the dict
    under its team id, and so is its first side unless the second side
    stored the same id. *)
Theorem last_matchup_is_read_back (matchups : list Matchup) (m : Matchup)
    (k : Z) (stat : Stat) (rest : list Stat) :
  let d := get_all_team_stats_from_matchups (matchups ++ [m]) in
  (team2 m = Some k -> team2_stats m = Some (stat :: rest) ->
   stats_get d k = Some (stat :: rest)) /\
  (team1 m = Some k -> team1_stats m = Some (stat :: rest) ->
   (team2 m <> Some k \/ team2_stats m = None \/ team2_stats m = Some []) ->
   stats_get d k = Some (stat :: rest)).
Proof.
  intros d. unfold d, get_all_team_stats_from_matchups.
  rewrite fold_left_app. simpl.
  match goal with
  | |- context [fold_left ?f matchups []] =>
      set (d0 := fold_left f matchups [])
  end.
  split.
  - intros H2 Hs2. rewrite H2, Hs2. unfold store_side at 1.
    rewrite stats_get_dict_set. now rewrite Z.eqb_refl.
  - intros H1 Hs1 Hother. rewrite H1, Hs1.
    assert (Hin : stats_get (store_side d0 (Some k) (Some (stat :: rest))) k
                  = Some (stat :: rest)).
    { unfold store_side. rewrite stats_get_dict_set. now rewrite Z.eqb_refl. }
    unfold store_side at 1.
    destruct (team2_stats m) as [[| s2 r2] |]; try exact Hin.
    destruct (team2 m) as [k2 |]; [|exact Hin].
    rewrite stats_get_dict_set.
    destruct (k2 =? k) eqn:E; [|exact Hin].
    apply Z.eqb_eq in E. subst k2.
    destruct Hother as [H | [H | H]]; congruence.
Qed.

(** ** What [compare_teams] prints or raises *)

Lemma get_color_for_performance_exn (b t : nat) (e : exn) :
  get_color_for_performance b t = Exc e -> e = OverflowError.
Proof.
  unfold get_color_for_performance, py_truediv.
  destruct (t =? 0)%nat; [discriminate|].
  destruct (float_of_Z (Z.of_nat b)) as [x | e1] eqn:Ex.
  - destruct (float_of_Z (Z.of_nat t)) as [y | e2] eqn:Ey; cbn [bind].
    + destruct (0.7 <=? x / y)%float; [discriminate|].
      destruct (x / y <? 0.3)%float; discriminate.
    + intros H. inversion H; subst. now apply float_of_Z_exn in Ey.
  - cbn [bind]. intros H. inversion H; subst. now apply float_of_Z_exn in Ex.
Qed.

Lemma compare_category_outcome (selected : Z) (selected_stats : list Stat)
    (all_teams : list Team) (all_team_stats : TeamStats) (cat_info : CatInfo) :
  match compare_category selected selected_stats all_teams all_team_stats
          cat_info with
  | Ret row => row_name row = cat_name cat_info
  | Exc e => e = TypeError \/ e = OverflowError
  end.
Proof.
  unfold compare_category. cbv zeta.
  destruct (extract_stat_value selected_stats (category_stat_id cat_info)
              (Some (cat_name cat_info))) as [sv |]; [|reflexivity].
  destruct (collect_values all_teams selected (category_stat_id cat_info)
              (cat_name cat_info) all_team_stats) as [av ov].
  destruct av as [| first av]; [reflexivity|].
  destruct (py_sorted snd py_lt _ (first :: av)) as [sorted |];
    cbn [raise_type_error bind]; [|now left].
  destruct ov as [| o ov]; [reflexivity|].
  destruct (better_than_count _ sv (o :: ov)) as [b |];
    cbn [raise_type_error bind]; [|now left].
  destruct (get_color_for_performance b (List.length (o :: ov)))
    as [color | e] eqn:Ec; cbn [bind]; [reflexivity|].
  right. now apply get_color_for_performance_exn in Ec.
Qed.

Lemma category_rows_outcome (selected : Z) (selected_stats : list Stat)
    (all_teams : list Team) (all_team_stats : TeamStats)
    (categories_info : list CatInfo) :
  match category_rows selected selected_stats all_teams all_team_stats
          categories_info with
  | Ret rows => map row_name rows = map cat_name categories_info
  | Exc e => e = TypeError \/ e = OverflowError
  end.
Proof.
  induction categories_info as [| c rest IH]; simpl; [reflexivity|].
  pose proof (compare_category_outcome selected selected_stats all_teams
                all_team_stats c) as Hc.
  destruct (compare_category selected selected_stats all_teams all_team_stats
              c) as [row | e]; cbn [bind]; [|exact Hc].
  destruct (category_rows selected selected_stats all_teams all_team_stats
              rest) as [rows | e]; cbn [bind]; [|exact IH].
  simpl. now rewrite Hc, IH.
Qed.

Lemma category_outcome_exn (selected_stats opponent_stats : list Stat)
    (c : CatInfo) (e : exn) :
  category_outcome selected_stats opponent_stats c = Exc e -> e = TypeError.
Proof.
  unfold category_outcome. cbv zeta.
  destruct (String.eqb (cat_id c) EmptyString); [discriminate|].
  destruct (extract_stat_value selected_stats (cat_id c) (Some (cat_name c)))
    as [sv |]; [|discriminate].
  destruct (extract_stat_value opponent_stats (cat_id c) (Some (cat_name c)))
    as [ov |]; [|discriminate].
  destruct (negb _);
    destruct (py_gt sv ov) as [[|] |]; destruct (py_lt sv ov) as [[|] |];
    cbn [raise_type_error bind]; intros H; inversion H; reflexivity.
Qed.

Lemma tally_categories_exn (selected_stats opponent_stats : list Stat)
    (categories_info : list CatInfo) (e : exn) :
  tally_categories selected_stats opponent_stats categories_info = Exc e ->
  e = TypeError.
Proof.
  induction categories_info as [| c rest IH]; simpl; [discriminate|].
  destruct (category_outcome selected_stats opponent_stats c) as [o | e1]
    eqn:Eo; cbn [bind].
  - destruct (tally_categories selected_stats opponent_stats rest)
      as [[[w l] res] | e2]; cbn [bind].
    + destruct o as [[n []] |]; discriminate.
    + intros H. inversion H; subst. now apply IH.
  - intros H. inversion H; subst. now apply category_outcome_exn in Eo.
Qed.

Lemma compare_head_to_head_exn (selected : Z) (selected_stats : list Stat)
    (all_teams : list Team) (all_team_stats : TeamStats)
    (categories_info : list CatInfo) (e : exn) :
  compare_head_to_head selected selected_stats all_teams all_team_stats
    categories_info = Exc e -> e = TypeError.
Proof.
  unfold compare_head_to_head.
  assert (Hm : forall e', matchup_results selected selected_stats all_teams
                            categories_info all_team_stats = Exc e' ->
                          e' = TypeError).
  { induction all_team_stats as [| [k st] rest IH]; simpl; [discriminate|].
    destruct (k =? selected); [exact IH|].
    destruct (team_lookup all_teams k); [|exact IH].
    destruct (tally_categories selected_stats st categories_info)
      as [[[w l] res] | e1] eqn:Et; cbn [bind].
    - destruct (matchup_results selected selected_stats all_teams
                  categories_info rest) as [others | e2]; cbn [bind].
      + discriminate.
      + intros e' H. inversion H; subst. now apply IH.
    - intros e' H. inversion H; subst. now apply tally_categories_exn in Et. }
  destruct (matchup_results selected selected_stats all_teams categories_info
              all_team_stats) as [unsorted | e1]; cbn [bind].
  - destruct (py_sorted wins lt_wins true unsorted); simpl;
      [discriminate | intros H; now inversion H].
  - intros H. inversion H; subst. now apply Hm.
Qed.

(** X10: what a run of [compare_teams] comes to. "No stats" means an empty
    dict; "no categories" means that no entry has stats or that the first
    stats yield no category; the message about the selected team means that
    it has no stats in the dict; otherwise there is one row per category of
    the sample, in order and under the category's name, followed by the
    head-to-head table; and the only exceptions are the [TypeError] of a
    comparison and the [OverflowError] of a count too large for a float. *)
Theorem compare_teams_outcomes (selected_team : Team) (all_teams : list Team)
    (all_team_stats : TeamStats) :
  match compare_teams selected_team all_teams all_team_stats with
  | Ret NoStats => all_team_stats = []
  | Ret NoCategories =>
      all_team_stats <> [] /\
      (sample_stats all_team_stats = None \/
       exists sample, sample_stats all_team_stats = Some sample /\
                      get_category_info_from_stats sample = [])
  | Ret NoSelectedStats =>
      all_team_stats <> [] /\
      (stats_get all_team_stats (team_id selected_team) = None \/
       stats_get all_team_stats (team_id selected_team) = Some [])
  | Ret (Tables rows matchups) =>
      exists sample selected_stats,
        sample_stats all_team_stats = Some sample /\
        stats_get all_team_stats (team_id selected_team)
        = Some selected_stats /\
        selected_stats <> [] /\
        map row_name rows
        = map cat_name (get_category_info_from_stats sample) /\
        compare_head_to_head (team_id selected_team) selected_stats all_teams
          all_team_stats (get_category_info_from_stats sample)
        = Ret matchups
  | Exc e => e = TypeError \/ e = OverflowError
  end.
Proof.
  unfold compare_teams.
  destruct all_team_stats as [| entry rest] eqn:Ed; [reflexivity|].
  rewrite <- Ed.
  assert (Hne : all_team_stats <> []) by (rewrite Ed; discriminate).
  destruct (sample_stats all_team_stats) as [sample |] eqn:Es;
    [|split; [exact Hne | now left]].
  destruct (get_category_info_from_stats sample) as [| c cats] eqn:Ec.
  { split; [exact Hne|]. right. now exists sample. }
  rewrite <- Ec.
  destruct (stats_get all_team_stats (team_id selected_team))
    as [[| s ss] |] eqn:Eg.
  - split; [exact Hne | now right].
  - pose proof (category_rows_outcome (team_id selected_team) (s :: ss)
                  all_teams all_team_stats
                  (get_category_info_from_stats sample)) as Hr.
    destruct (category_rows (team_id selected_team) (s :: ss) all_teams
                all_team_stats (get_category_info_from_stats sample))
      as [rows | e]; cbn [bind]; [|exact Hr].
    destruct (compare_head_to_head (team_id selected_team) (s :: ss)
                all_teams all_team_stats
                (get_category_info_from_stats sample))
      as [ms | e] eqn:Eh; cbn [bind].
    + exists sample, (s :: ss). repeat split; try assumption. discriminate.
    + left. now apply compare_head_to_head_exn in Eh.
  - split; [exact Hne | now left].
Qed.

Lemma collect_values_complete (all_teams : list Team) (selected : Z)
    (id category_name : string) (all_team_stats : TeamStats)
    (tid : Z) (stats_list : list Stat) (tm : Team) (v : PyVal) :
  In (tid, stats_list) all_team_stats ->
  team_lookup all_teams tid = Some tm ->
  extract_stat_value stats_list id (Some category_name) = Some v ->
  In (team_name tm, v)
    (fst (collect_values all_teams selected id category_name all_team_stats)).
Proof.
  intros Hin Ht Hv.
  induction all_team_stats as [| [k st] rest IH]; [destruct Hin|].
  simpl.
  destruct (collect_values all_teams selected id category_name rest)
    as [av ov].
  simpl in IH. destruct Hin as [Heq | Hin].
  - inversion Heq; subst k st. rewrite Ht, Hv. now left.
  - specialize (IH Hin).
    destruct (team_lookup all_teams k); [|exact IH].
    destruct (extract_stat_value st id (Some category_name)); [|exact IH].
    now right.
Qed.

(** X11: a category in which the selected team has a value, one roster team
    of the dict has a number and another has a string that [float] refused
    (passed through unparsed) cannot be ranked: the row raises [TypeError]
    instead of being printed. *)
Theorem mixed_values_raise_type_error (selected : Z)
    (selected_stats : list Stat) (all_teams : list Team)
    (all_team_stats : TeamStats) (cat_info : CatInfo) (sv : PyVal)
    (tid1 tid2 : Z) (stats1 stats2 : list Stat) (tm1 tm2 : Team)
    (f : float) (s : string) :
  extract_stat_value selected_stats (category_stat_id cat_info)
    (Some (cat_name cat_info)) = Some sv ->
  In (tid1, stats1) all_team_stats -> team_lookup all_teams tid1 = Some tm1 ->
  extract_stat_value stats1 (category_stat_id cat_info)
    (Some (cat_name cat_info)) = Some (VFloat f) ->
  In (tid2, stats2) all_team_stats -> team_lookup all_teams tid2 = Some tm2 ->
  extract_stat_value stats2 (category_stat_id cat_info)
    (Some (cat_name cat_info)) = Some (VStr s) ->
  compare_category selected selected_stats all_teams all_team_stats cat_info
  = Exc TypeError.
Proof.
  intros Hsv H1 Ht1 Hv1 H2 Ht2 Hv2.
  pose proof (collect_values_complete all_teams selected _ _ _ _ _ _ _
                H1 Ht1 Hv1) as Hin1.
  pose proof (collect_values_complete all_teams selected _ _ _ _ _ _ _
                H2 Ht2 Hv2) as Hin2.
  unfold compare_category. cbv zeta. rewrite Hsv.
  destruct (collect_values all_teams selected (category_stat_id cat_info)
              (cat_name cat_info) all_team_stats) as [av ov].
  cbn [fst] in Hin1, Hin2.
  destruct av as [| first av]; [destruct Hin1|].
  destruct (py_sorted snd py_lt
              (negb (is_lower_better_stat (cat_name cat_info)
                       (Some (category_stat_id cat_info))))
              (first :: av)) as [sorted |] eqn:Es; [|reflexivity].
  exfalso.
  assert (Hs : sortable snd order_class (first :: av)).
  { apply (py_sorted_some_iff snd py_lt order_class py_lt_order_class
             (negb (is_lower_better_stat (cat_name cat_info)
                      (Some (category_stat_id cat_info))))).
    now exists sorted. }
  destruct Hs as [Hlen | [c Hall]].
  - destruct av as [| second av]; [|simpl in Hlen; lia].
    destruct Hin1 as [E1 | []]. destruct Hin2 as [E2 | []]. congruence.
  - rewrite Forall_forall in Hall.
    pose proof (Hall _ Hin1) as Hc1. pose proof (Hall _ Hin2) as Hc2.
    simpl in Hc1, Hc2. congruence.
Qed.

(** ** The colour of a ratio *)

Lemma colors_agree_up_to_64 : forallb colors_agree_at (seq 0 65) = true.
Proof. vm_compute. reflexivity. Qed.

Lemma color_eqb_eq (a b : Color) : color_eqb a b = true -> a = b.
Proof. destruct a, b; simpl; congruence. Qed.

(** X12: with up to 64 opponents the colour follows the exact fractions:
    green when the team beats at least 7 in 10 of them, red when it beats
    fewer than 3 in 10, yellow in between; rounding in the float division
    never moves a count across a threshold. *)
Theorem colour_follows_exact_fractions (better_than total_teams : nat) :
  (total_teams <= 64)%nat -> (better_than <= total_teams)%nat ->
  get_color_for_performance better_than total_teams
  = Ret (color_by_tenths better_than total_teams).
Proof.
  intros Ht Hb.
  pose proof colors_agree_up_to_64 as H.
  rewrite forallb_forall in H.
  assert (Hin : In total_teams (seq 0 65)) by (apply in_seq; lia).
  specialize (H total_teams Hin). unfold colors_agree_at in H.
  rewrite forallb_forall in H.
  assert (Hinb : In better_than (seq 0 (S total_teams)))
    by (apply in_seq; lia).
  specialize (H better_than Hinb).
  destruct (get_color_for_performance better_than total_teams) as [c | e];
    [|discriminate].
  now rewrite (color_eqb_eq _ _ H).
Qed.

(** ** The two sides of a head-to-head comparison *)

Lemma SFcompare_antisym (x y : spec_float) :
  SFcompare y x = option_map CompOpp (SFcompare x y).
Proof.
  destruct x as [sx | sx | | sx mx ex], y as [sy | sy | | sy my ey];
    simpl; try reflexivity;
    try (destruct sx; reflexivity); try (destruct sy; reflexivity);
    try (destruct sx, sy; reflexivity).
  destruct sx, sy; try reflexivity;
    rewrite (Z.compare_antisym ex ey); destruct (ex ?= ey); simpl;
    try reflexivity;
    rewrite (pos_compare_cont_antisym mx my);
    destruct (Pos.compare_cont Eq mx my); reflexivity.
Qed.

Lemma float_ltb_asym (x y : float) :
  (x <? y)%float = true -> (y <? x)%float = false.
Proof.
  rewrite !ltb_spec. unfold SFltb.
  rewrite (SFcompare_antisym (Prim2SF x) (Prim2SF y)).
  destruct (SFcompare (Prim2SF x) (Prim2SF y)) as [[| |] |]; simpl;
    congruence.
Qed.

Lemma py_lt_asym (a b : PyVal) :
  py_lt a b = Some true -> py_lt b a = Some false.
Proof.
  destruct a as [| d | s | z | f], b as [| d' | s' | z' | f']; simpl;
    try discriminate.
  - unfold String.ltb. rewrite (String.compare_antisym s' s).
    destruct (String.compare s s'); simpl; congruence.
  - intros H. inversion H as [H']. apply Z.ltb_lt in H'.
    f_equal. apply Z.ltb_ge. lia.
  - destruct (cmp_float_Z f' z) as [[| |] |]; congruence.
  - destruct (cmp_float_Z f z') as [[| |] |]; congruence.
  - intros H. inversion H as [H']. now rewrite (float_ltb_asym _ _ H').
Qed.

Lemma py_lt_none_sym (a b : PyVal) : py_lt a b = None -> py_lt b a = None.
Proof. destruct a, b; simpl; congruence. Qed.

Lemma category_outcome_swap (selected_stats opponent_stats : list Stat)
    (c : CatInfo) (r : option (string * ResultCode)) :
  category_outcome selected_stats opponent_stats c = Ret r ->
  category_outcome opponent_stats selected_stats c
  = Ret (option_map (fun entry => (fst entry, flip_code (snd entry))) r).
Proof.
  unfold category_outcome. cbv zeta.
  destruct (String.eqb (cat_id c) EmptyString);
    [intros H; now inversion H|].
  destruct (extract_stat_value selected_stats (cat_id c) (Some (cat_name c)))
    as [sv |];
    destruct (extract_stat_value opponent_stats (cat_id c) (Some (cat_name c)))
      as [ov |]; try (intros H; now inversion H).
  unfold py_gt.
  destruct (negb _);
    destruct (py_lt ov sv) as [[|] |] eqn:E1;
    destruct (py_lt sv ov) as [[|] |] eqn:E2;
    cbn [raise_type_error bind]; intros H; inversion H; subst;
    try reflexivity;
    try (apply py_lt_asym in E1; congruence);
    try (apply py_lt_asym in E2; congruence);
    try (apply py_lt_none_sym in E1; congruence);
    try (apply py_lt_none_sym in E2; congruence).
Qed.

(** X13: the head-to-head tally of B against A is the tally of A against B
    seen from the other side: the same categories in the same order, every
    win a loss and every loss a win, ties unchanged, so wins and losses are
    exchanged. *)
Theorem tally_categories_swap (selected_stats opponent_stats : list Stat)
    (categories_info : list CatInfo) (w l : nat)
    (results : list (string * ResultCode)) :
  tally_categories selected_stats opponent_stats categories_info
  = Ret (w, l, results) ->
  tally_categories opponent_stats selected_stats categories_info
  = Ret (l, w,
         map (fun entry => (fst entry, flip_code (snd entry))) results).
Proof.
  revert w l results.
  induction categories_info as [| c rest IH]; intros w l results; simpl.
  - intros H. now inversion H.
  - destruct (category_outcome selected_stats opponent_stats c) as [o | e]
      eqn:Eo; [|discriminate].
    rewrite (category_outcome_swap _ _ _ _ Eo). cbn [bind].
    destruct (tally_categories selected_stats opponent_stats rest)
      as [[[w' l'] res'] | e]; [|discriminate].
    rewrite (IH w' l' res' eq_refl). cbn [bind].
    destruct o as [[n []] |]; simpl; intros H; inversion H; reflexivity.
Qed.

(** ** The prompts *)

Lemma select_loop_chosen {A : Type} (items : list A) (inputs : list Input)
    (a : A) :
  select_loop items inputs = Chosen a ->
  exists skipped s rest n,
    inputs = skipped ++ Line s :: rest /\
    Forall (refused_answer (List.length items)) skipped /\
    int_of_str (strip s) = Some n /\
    1 <= n <= Z.of_nat (List.length items) /\
    nth_error items (Z.to_nat (n - 1)) = Some a.
Proof.
  induction inputs as [| i rest IH]; simpl; [discriminate|].
  destruct i as [s |]; [|discriminate].
  assert (Hskip : refused_answer (List.length items) (Line s) ->
            select_loop items rest = Chosen a ->
            exists skipped s' rest' n,
              Line s :: rest = skipped ++ Line s' :: rest' /\
              Forall (refused_answer (List.length items)) skipped /\
              int_of_str (strip s') = Some n /\
              1 <= n <= Z.of_nat (List.length items) /\
              nth_error items (Z.to_nat (n - 1)) = Some a).
  { intros Hr H. destruct (IH H) as (sk & s' & rest' & n & -> & Hf & Hrest).
    exists (Line s :: sk), s', rest', n. split; [reflexivity|].
    split; [now constructor | exact Hrest]. }
  destruct (int_of_str (strip s)) as [n |] eqn:En.
  - destruct ((0 <=? n - 1) && (n - 1 <? Z.of_nat (List.length items)))
      eqn:E.
    + apply andb_true_iff in E. destruct E as [E1 E2].
      apply Z.leb_le in E1. apply Z.ltb_lt in E2.
      destruct (nth_error items (Z.to_nat (n - 1))) as [b |] eqn:Eb;
        [|discriminate].
      intros H. inversion H; subst b.
      exists [], s, rest, n. repeat split; try assumption; try lia.
      constructor.
    + apply Hskip. exists s. split; [reflexivity|]. rewrite En.
      apply andb_false_iff in E. destruct E as [E | E].
      * apply Z.leb_gt in E. lia.
      * apply Z.ltb_ge in E. lia.
  - apply Hskip. exists s. split; [reflexivity|]. now rewrite En.
Qed.

Lemma select_loop_exits {A : Type} (items : list A) (inputs : list Input) :
  match select_loop items inputs with
  | Chosen _ => True
  | Exit code => code = 0 \/ code = 1
  | Interrupted | EndOfInput => False
  end.
Proof.
  induction inputs as [| i rest IH]; simpl; [now right|].
  destruct i as [s |]; [|now left].
  destruct (int_of_str (strip s)) as [n |]; [|exact IH].
  destruct ((0 <=? n - 1) && (n - 1 <? Z.of_nat (List.length items)));
    [|exact IH].
  destruct (nth_error items (Z.to_nat (n - 1))); [exact I | now right].
Qed.

(** X14: [select_team] only ever returns a team of the list it was given:
    the one at the position the first accepted answer names, every answer
    before it being a line that is not a number between 1 and the number of
    teams; it never reads outside the list. *)
Theorem select_team_returns_listed_team (teams : list Team)
    (inputs : list Input) (t : Team) :
  select_team teams inputs = Chosen t ->
  In t teams /\
  exists skipped s rest n,
    inputs = skipped ++ Line s :: rest /\
    Forall (refused_answer (List.length teams)) skipped /\
    int_of_str (strip s) = Some n /\
    1 <= n <= Z.of_nat (List.length teams) /\
    nth_error teams (Z.to_nat (n - 1)) = Some t.
Proof.
  unfold select_team. destruct teams as [| t0 ts] eqn:Et; [discriminate|].
  rewrite <- Et. intros H.
  destruct (select_loop_chosen _ _ _ H)
    as (sk & s & rest & n & Hi & Hf & Hn & Hr & Hnth).
  split; [now apply nth_error_In with (Z.to_nat (n - 1))|].
  now exists sk, s, rest, n.
Qed.

(** X15: [select_team] ends in a choice or in an exit with code 0 or 1: no
    exception of the prompt leaves it. An empty team list exits with 1, an
    interrupt at the prompt with 0, and the end of the input with 1. *)
Theorem select_team_exits (teams : list Team) (inputs : list Input) :
  match select_team teams inputs with
  | Chosen _ => teams <> []
  | Exit code => code = 0 \/ code = 1
  | Interrupted | EndOfInput => False
  end /\
  select_team [] inputs = Exit 1 /\
  (forall t rest, select_team (t :: teams) (Interrupt :: rest) = Exit 0) /\
  (forall t, select_team (t :: teams) [] = Exit 1).
Proof.
  split; [|split; [reflexivity | split; reflexivity]].
  unfold select_team. destruct teams as [| t0 ts]; [now right|].
  pose proof (select_loop_exits (t0 :: ts) inputs) as H.
  destruct (select_loop (t0 :: ts) inputs); try exact H. discriminate.
Qed.

Lemma team_lookup_in (all_teams : list Team) (t : Team) :
  In t all_teams ->
  exists t', team_lookup all_teams (team_id t) = Some t'.
Proof.
  induction all_teams as [| a rest IH]; [intros []|].
  simpl. intros [-> | Hin].
  - destruct (team_lookup rest (team_id t)) as [t' |]; [now exists t'|].
    rewrite Z.eqb_refl. now exists t.
  - destruct (IH Hin) as [t' ->]. now exists t'.
Qed.

Lemma team_lookup_listed (all_teams : list Team) (tid : Z) :
  In tid (map team_id all_teams) ->
  exists t', team_lookup all_teams tid = Some t' /\ team_id t' = tid.
Proof.
  intros Hin. apply in_map_iff in Hin. destruct Hin as (t & <- & Hin).
  destruct (team_lookup_in all_teams t Hin) as [t' Ht'].
  exists t'. split; [exact Ht'|]. now apply team_lookup_id in Ht'.
Qed.

(** X16: when the end of [main] prints a report, the report is that of a
    team [select_team] chose from the team list it fetched, compared
    against the team list [main] fetches afterwards; when that second list
    has every team id of the first, the roster lookup of [compare_teams]
    finds a team with the selected team's id. *)
Theorem main_compares_a_listed_team (teams all_teams : list Team)
    (inputs : list Input) (all_team_stats : TeamStats) (report : Report) :
  main_compare teams all_teams inputs all_team_stats = Chosen report ->
  lists_agree teams all_teams ->
  exists selected_team t',
    select_team teams inputs = Chosen selected_team /\
    In selected_team teams /\
    compare_teams selected_team all_teams all_team_stats = Ret report /\
    team_lookup all_teams (team_id selected_team) = Some t' /\
    team_id t' = team_id selected_team.
Proof.
  unfold main_compare.
  destruct (select_team teams inputs) as [t | code | |] eqn:Es;
    try discriminate.
  destruct (compare_teams t all_teams all_team_stats) as [r | e] eqn:Ec;
    [|discriminate].
  intros H Hagree. inversion H; subst r.
  assert (Hin : In t teams).
  { unfold select_team in Es. destruct teams as [| t0 ts] eqn:Et;
      [discriminate|].
    destruct (select_loop_chosen _ _ _ Es)
      as (sk & s & rest & n & _ & _ & _ & _ & Hnth).
    now apply nth_error_In with (Z.to_nat (n - 1)). }
  destruct (team_lookup_listed all_teams (team_id t) (Hagree t Hin))
    as (t' & Ht' & Hid).
  exists t, t'. repeat split; assumption.
Qed.

Lemma sports_get_codes (choice : string) (v : string * string) :
  sports_get sports choice = Some v -> In (fst v) sport_codes.
Proof.
  unfold sports, sport_codes. cbn [sports_get].
  repeat (destruct (String.eqb _ choice);
          [intros H; inversion H; cbn [fst In]; tauto|]).
  discriminate.
Qed.

(** X17: [select_sport] answers one of the four sport codes, the first
    accepted answer deciding; an answer that is empty once stripped of its
    white space (a no-break space, say), like the answer 1, selects "nba";
    and the function never exits by itself. *)
Theorem select_sport_codes (inputs : list Input) :
  match select_sport inputs with
  | Chosen code => In code sport_codes
  | Exit _ => False
  | Interrupted => In Interrupt inputs
  | EndOfInput => ~ In Interrupt inputs
  end /\
  (forall s rest,
     str_strip s = EmptyString \/ str_strip s = "1"%string ->
     select_sport (Line s :: rest) = Chosen "nba"%string) /\
  (forall rest,
     select_sport (Line no_break_space :: rest) = Chosen "nba"%string).
Proof.
  assert (Hnba : forall s rest,
            str_strip s = EmptyString \/ str_strip s = "1"%string ->
            select_sport (Line s :: rest) = Chosen "nba"%string).
  { intros s rest [H | H]; cbn [select_sport]; rewrite H; reflexivity. }
  split; [|split; [exact Hnba|]].
  - induction inputs as [| i rest IH]; [simpl; tauto|].
    destruct i as [s |]; [|simpl; now left].
    cbn [select_sport].
    set (choice := if String.eqb (str_strip s) EmptyString then "1"%string
                   else str_strip s).
    destruct (sports_get sports choice) as [v |] eqn:Ev.
    + now apply sports_get_codes in Ev.
    + destruct (select_sport rest); try exact IH.
      * now right.
      * intros [H | H]; [discriminate | tauto].
  - intros rest. apply Hnba. left. reflexivity.
Qed.

(** ** Best and worst *)

Lemma last_in {A : Type} (l : list A) (d : A) : l <> [] -> In (last l d) l.
Proof.
  induction l as [| a [| b t] IH]; intros H; [congruence | now left |].
  change (last (a :: b :: t) d) with (last (b :: t) d).
  right. apply IH. discriminate.
Qed.

Section SortedByOrder.

Context {A K : Type}.
Variable key : A -> K.
Variable lt : K -> K -> option bool.
Variable ok : K -> Prop.

Hypothesis lt_total : forall a b, ok a -> ok b -> exists r, lt a b = Some r.
Hypothesis lt_asym : forall a b, lt a b = Some true -> lt b a = Some false.
Hypothesis not_lt_trans :
  forall a b c, ok a -> ok b -> ok c ->
    lt b a = Some false -> lt c b = Some false -> lt c a = Some false.

Lemma insert_sorted_ascending (x : A) (l l' : list A) :
  ok (key x) -> Forall (fun a => ok (key a)) l -> ascending key lt l ->
  insert_sorted key lt x l = Some l' -> ascending key lt l'.
Proof.
  intros Hx Hok Hs. unfold ascending in *. revert l'.
  induction Hs as [| y t Ht IH Hy]; intros l'; simpl.
  - intros H. inversion H. constructor; constructor.
  - inversion Hok as [| ? ? Hyok Htok]; subst.
    destruct (lt (key y) (key x)) as [[|] |] eqn:E; [| |discriminate].
    + destruct (insert_sorted key lt x t) as [t' |] eqn:Ei; [|discriminate].
      simpl. intros H. inversion H; subst.
      constructor; [now apply IH|].
      apply (insert_sorted_perm key lt) in Ei.
      apply (Permutation_Forall Ei). constructor; [|exact Hy].
      now apply lt_asym.
    + intros H. inversion H; subst.
      constructor; [now constructor|]. constructor; [exact E|].
      rewrite Forall_forall in *. intros z Hz.
      apply (not_lt_trans (key x) (key y) (key z)); auto.
Qed.

Lemma sort_asc_ascending (l s : list A) :
  Forall (fun a => ok (key a)) l ->
  sort_asc key lt l = Some s -> ascending key lt s.
Proof.
  intros Hok. unfold ascending. revert s.
  induction Hok as [| x t Hx Ht IH]; intros s; simpl.
  - intros H. inversion H. constructor.
  - destruct (sort_asc key lt t) as [s' |] eqn:E; [|discriminate].
    apply insert_sorted_ascending; [exact Hx | | now apply IH].
    apply (Permutation_Forall (sort_asc_perm key lt _ _ E)). exact Ht.
Qed.

Lemma lt_irrefl_ok (a : K) : ok a -> lt a a = Some false.
Proof.
  intros Ha. destruct (lt_total a a Ha Ha) as [[|] H]; [|exact H].
  now apply lt_asym.
Qed.

Lemma ascending_head (l : list A) (h : A) :
  Forall (fun a => ok (key a)) l -> ascending key lt l -> hd_error l = Some h ->
  forall z, In z l -> lt (key z) (key h) = Some false.
Proof.
  intros Hok Hs Hh z Hz. unfold ascending in Hs.
  destruct l as [| a t]; [discriminate|].
  inversion Hh; subst a. inversion Hs as [| ? ? _ Hall]; subst.
  inversion Hok; subst.
  destruct Hz as [<- | Hz]; [now apply lt_irrefl_ok|].
  rewrite Forall_forall in Hall. now apply Hall.
Qed.

Lemma ascending_last (l : list A) (d : A) :
  Forall (fun a => ok (key a)) l -> ascending key lt l -> l <> [] ->
  forall z, In z l -> lt (key (last l d)) (key z) = Some false.
Proof.
  intros Hok Hs. unfold ascending in Hs.
  induction Hs as [| a t Ht IH Ha]; intros Hne z Hz;
    [congruence|].
  inversion Hok as [| ? ? Haok Htok]; subst.
  destruct t as [| b t'].
  - destruct Hz as [<- | []]. simpl. now apply lt_irrefl_ok.
  - change (last (a :: b :: t') d) with (last (b :: t') d).
    destruct Hz as [<- | Hz].
    + rewrite Forall_forall in Ha. apply Ha.
      apply last_in. discriminate.
    + apply IH; [exact Htok | discriminate | exact Hz].
Qed.

End SortedByOrder.

Lemma SFleb_trans (x y z : spec_float) :
  SFleb x y = true -> SFleb y z = true -> SFleb x z = true.
Proof.
  unfold SFleb, SFcompare.
  destruct x as [sx | sx | | sx mx ex], y as [sy | sy | | sy my ey],
    z as [sz | sz | | sz mz ez];
    try destruct sx; try destruct sy; try destruct sz;
    try discriminate; try reflexivity;
    repeat match goal with
    | |- context [Z.compare ?a ?b] => destruct (Z.compare_spec a b)
    | |- context [Pos.compare_cont Eq ?a ?b] =>
        change (Pos.compare_cont Eq a b) with (Pos.compare a b);
        destruct (Pos.compare_spec a b)
    end; simpl; intros; try discriminate; try reflexivity; try lia.
Qed.

Lemma SF_not_lt_le (x y : spec_float) :
  SFcompare x x = Some Eq -> SFcompare y y = Some Eq ->
  (SFltb y x = false <-> SFleb x y = true).
Proof.
  intros Hx Hy. unfold SFltb, SFleb.
  rewrite (SFcompare_antisym x y).
  assert (Hc : exists c, SFcompare x y = Some c).
  { destruct x, y; simpl in *; try discriminate; eexists; reflexivity. }
  destruct Hc as [c ->]. destruct c; simpl; split; congruence.
Qed.

Lemma float_not_lt_trans (a b c : float) :
  (a =? a)%float = true -> (b =? b)%float = true -> (c =? c)%float = true ->
  (b <? a)%float = false -> (c <? b)%float = false ->
  (c <? a)%float = false.
Proof.
  rewrite !eqb_spec, !ltb_spec. unfold SFeqb.
  intros Ha Hb Hc.
  assert (Ha' : SFcompare (Prim2SF a) (Prim2SF a) = Some Eq).
  { destruct (SFcompare (Prim2SF a) (Prim2SF a)) as [[| |] |];
      congruence. }
  assert (Hb' : SFcompare (Prim2SF b) (Prim2SF b) = Some Eq).
  { destruct (SFcompare (Prim2SF b) (Prim2SF b)) as [[| |] |];
      congruence. }
  assert (Hc' : SFcompare (Prim2SF c) (Prim2SF c) = Some Eq).
  { destruct (SFcompare (Prim2SF c) (Prim2SF c)) as [[| |] |];
      congruence. }
  rewrite (SF_not_lt_le _ _ Ha' Hb'), (SF_not_lt_le _ _ Hb' Hc'),
    (SF_not_lt_le _ _ Ha' Hc').
  apply SFleb_trans.
Qed.

Lemma number_lt_total (a b : PyVal) :
  is_number a -> is_number b -> exists r, py_lt a b = Some r.
Proof. intros [f [-> _]] [g [-> _]]. simpl. now eexists. Qed.

Lemma number_not_lt_trans (a b c : PyVal) :
  is_number a -> is_number b -> is_number c ->
  py_lt b a = Some false -> py_lt c b = Some false -> py_lt c a = Some false.
Proof.
  intros [f [-> Hf]] [g [-> Hg]] [h [-> Hh]]. simpl.
  intros H1 H2. injection H1 as H1'. injection H2 as H2'.
  f_equal. now apply (float_not_lt_trans f g h).
Qed.

Lemma hd_error_rev_last {A : Type} (l : list A) (b d : A) :
  hd_error (rev l) = Some b -> last l d = b.
Proof.
  intros H. destruct (rev l) as [| x r] eqn:E; [discriminate|].
  inversion H; subst x.
  assert (El : l = rev r ++ [b]).
  { rewrite <- (rev_involutive l), E. reflexivity. }
  rewrite El. apply last_last.
Qed.

Lemma last_rev_hd {A : Type} (l : list A) (h d : A) :
  hd_error l = Some h -> last (rev l) d = h.
Proof.
  destruct l as [| x t]; [discriminate|]. intros H. inversion H; subst x.
  simpl. apply last_last.
Qed.

(** X18: when every comparable value of a category is a number (a float
    that is not a NaN), the reported best and worst are values of the
    category, no team's value is strictly better than the best, and the
    worst is strictly better than no team's value, in the direction of the
    category. *)
Theorem best_and_worst_are_extremes (selected : Z)
    (selected_stats : list Stat) (all_teams : list Team)
    (all_team_stats : TeamStats) (cat_info : CatInfo)
    (name : string) (v : PyVal) (vs : string) (col : option Color)
    (best worst : string * PyVal) :
  let id := category_stat_id cat_info in
  let values :=
    fst (collect_values all_teams selected id (cat_name cat_info)
           all_team_stats) in
  let higher := negb (is_lower_better_stat (cat_name cat_info) (Some id)) in
  compare_category selected selected_stats all_teams all_team_stats cat_info
  = Ret (RowValues name v vs col best worst) ->
  Forall (fun nv => is_number (snd nv)) values ->
  In best values /\ In worst values /\
  forall nv, In nv values ->
    ~ strictly_better higher (snd nv) (snd best) /\
    ~ strictly_better higher (snd worst) (snd nv).
Proof.
  intros id values higher H Hnum.
  destruct (compare_category_row _ _ _ _ _ _ _ _ _ _ _ H)
    as (_ & (sorted & Hs & Hh & Hl) & _).
  fold id in Hs. fold values in Hs. fold higher in Hs.
  pose proof (py_sorted_perm snd py_lt _ _ _ Hs) as Hp.
  assert (Hne : sorted <> []) by (intros ->; discriminate).
  assert (Hbest : In best sorted).
  { destruct sorted as [| h t]; [discriminate|]. inversion Hh. now left. }
  assert (Hworst : In worst sorted).
  { rewrite <- Hl. now apply last_in. }
  split; [exact (Permutation_in _ (Permutation_sym Hp) Hbest)|].
  split; [exact (Permutation_in _ (Permutation_sym Hp) Hworst)|].
  intros nv Hnv. unfold strictly_better, py_gt.
  unfold py_sorted in Hs. destruct higher.
  - destruct (sort_asc snd py_lt (rev values)) as [s' |] eqn:Es;
      [|discriminate].
    simpl in Hs. inversion Hs; subst sorted.
    assert (Hok : Forall (fun a => is_number (snd a)) s').
    { apply (Permutation_Forall (sort_asc_perm snd py_lt _ _ Es)).
      apply (Permutation_Forall (Permutation_rev values)). exact Hnum. }
    assert (Hasc : ascending snd py_lt s').
    { apply (sort_asc_ascending snd py_lt is_number py_lt_asym
               number_not_lt_trans (rev values)); [|exact Es].
      apply (Permutation_Forall (Permutation_rev values)). exact Hnum. }
    assert (Hin : In nv s').
    { apply in_rev. apply (Permutation_in _ Hp Hnv). }
    assert (Hne' : s' <> []) by (intros ->; now destruct Hin).
    pose proof (hd_error_rev_last s' best best Hh) as Hb.
    assert (Hw : hd_error s' = Some worst).
    { destruct s' as [| h t]; [congruence|]. simpl.
      rewrite <- Hl. simpl. now rewrite last_last. }
    split.
    + rewrite <- Hb.
      rewrite (ascending_last snd py_lt is_number number_lt_total py_lt_asym
                 s' best Hok Hasc Hne' nv Hin).
      discriminate.
    + rewrite (ascending_head snd py_lt is_number number_lt_total py_lt_asym
                 s' worst Hok Hasc Hw nv Hin).
      discriminate.
  - assert (Hok : Forall (fun a => is_number (snd a)) sorted)
      by (apply (Permutation_Forall Hp); exact Hnum).
    assert (Hasc : ascending snd py_lt sorted).
    { now apply (sort_asc_ascending snd py_lt is_number py_lt_asym
                   number_not_lt_trans values). }
    assert (Hin : In nv sorted) by (apply (Permutation_in _ Hp Hnv)).
    split.
    + rewrite (ascending_head snd py_lt is_number number_lt_total py_lt_asym
                 sorted best Hok Hasc Hh nv Hin).
      discriminate.
    + rewrite <- Hl.
      rewrite (ascending_last snd py_lt is_number number_lt_total py_lt_asym
                 sorted best Hok Hasc Hne nv Hin).
      discriminate.
Qed.

(** X19: a category is printed as not available exactly when the selected
    team has no normalized value for it, or no roster team of the dict has
    one; a selected team that is on the roster, has its stats in the dict
    and has a value is never shown as not available. *)
Theorem not_available_row_iff (selected : Z) (selected_stats : list Stat)
    (all_teams : list Team) (all_team_stats : TeamStats) (cat_info : CatInfo) :
  let id := category_stat_id cat_info in
  let values :=
    fst (collect_values all_teams selected id (cat_name cat_info)
           all_team_stats) in
  ((exists n,
      compare_category selected selected_stats all_teams all_team_stats
        cat_info = Ret (RowNA n)) <->
   extract_stat_value selected_stats id (Some (cat_name cat_info)) = None \/
   values = []) /\
  (forall tm v,
     In (selected, selected_stats) all_team_stats ->
     team_lookup all_teams selected = Some tm ->
     extract_stat_value selected_stats id (Some (cat_name cat_info))
     = Some v ->
     forall n,
       compare_category selected selected_stats all_teams all_team_stats
         cat_info <> Ret (RowNA n)).
Proof.
  intros id values.
  assert (Hiff : (exists n,
            compare_category selected selected_stats all_teams all_team_stats
              cat_info = Ret (RowNA n)) <->
          extract_stat_value selected_stats id (Some (cat_name cat_info))
          = None \/ values = []).
  { unfold values, id, compare_category. cbv zeta.
    destruct (extract_stat_value selected_stats (category_stat_id cat_info)
                (Some (cat_name cat_info))) as [sv |].
    - destruct (collect_values all_teams selected (category_stat_id cat_info)
                  (cat_name cat_info) all_team_stats) as [av ov].
      cbn [fst]. destruct av as [| first av].
      + split; [now right | intros _; now eexists].
      + split; [|intros [H | H]; discriminate].
        intros [n H]. exfalso. revert H.
        destruct (py_sorted snd py_lt _ (first :: av));
          cbn [raise_type_error bind]; [|discriminate].
        destruct ov as [| o ov]; [discriminate|].
        destruct (better_than_count _ sv (o :: ov));
          cbn [raise_type_error bind]; [|discriminate].
        destruct (get_color_for_performance _ _); cbn [bind]; discriminate.
    - split; [now left | intros _; now eexists]. }
  split; [exact Hiff|].
  intros tm v Hin Ht Hv n H.
  destruct (proj1 Hiff (ex_intro _ n H)) as [Hnone | Hnil].
  - rewrite Hv in Hnone. discriminate.
  - pose proof (collect_values_complete all_teams selected id
                  (cat_name cat_info) all_team_stats selected selected_stats
                  tm v Hin Ht Hv) as Hc.
    fold values in Hc. rewrite Hnil in Hc. destruct Hc.
Qed.

(** ** Runs that complete *)

Lemma collect_values_others (all_teams : list Team) (selected : Z)
    (id category_name : string) (all_team_stats : TeamStats) :
  incl (snd (collect_values all_teams selected id category_name
               all_team_stats))
       (fst (collect_values all_teams selected id category_name
               all_team_stats)) /\
  (List.length (snd (collect_values all_teams selected id category_name
                       all_team_stats))
   <= List.length all_team_stats)%nat.
Proof.
  induction all_team_stats as [| [k st] rest [IH1 IH2]]; simpl.
  - split; [intros x [] | lia].
  - destruct (collect_values all_teams selected id category_name rest)
      as [av ov].
    simpl in IH1, IH2.
    destruct (team_lookup all_teams k);
      [|simpl; split; [exact IH1 | lia]].
    destruct (extract_stat_value st id (Some category_name));
      [|simpl; split; [exact IH1 | lia]].
    simpl. destruct (k =? selected); simpl.
    + split; [|lia]. intros x Hx. right. now apply IH1.
    + split; [|lia]. intros x [<- | Hx]; [now left | right; now apply IH1].
Qed.

Lemma count_where_numbers (test : PyVal -> option bool)
    (l : list (string * PyVal)) :
  (forall nv, In nv l -> exists r, test (snd nv) = Some r) ->
  exists b, count_where test l = Some b.
Proof.
  induction l as [| [n v] rest IH]; intros H; simpl; [now eexists|].
  destruct (H (n, v) (or_introl eq_refl)) as [r Hr]. simpl in Hr.
  rewrite Hr. destruct IH as [b ->]; [intros nv Hnv; apply H; now right|].
  simpl. now eexists.
Qed.

Lemma get_color_for_performance_small (b t : nat) :
  (t <= 64)%nat -> (b <= t)%nat ->
  exists c, get_color_for_performance b t = Ret c.
Proof.
  intros Ht Hb. pose proof colors_agree_up_to_64 as H.
  rewrite forallb_forall in H.
  assert (Hin : In t (seq 0 65)) by (apply in_seq; lia).
  specialize (H t Hin). unfold colors_agree_at in H.
  rewrite forallb_forall in H.
  assert (Hinb : In b (seq 0 (S t))) by (apply in_seq; lia).
  specialize (H b Hinb).
  destruct (get_color_for_performance b t) as [c | e]; [|discriminate].
  now exists c.
Qed.

Lemma stats_get_in (all_team_stats : TeamStats) (tid : Z)
    (stats_list : list Stat) :
  stats_get all_team_stats tid = Some stats_list ->
  In (tid, stats_list) all_team_stats.
Proof.
  induction all_team_stats as [| [k st] rest IH]; simpl; [discriminate|].
  destruct (k =? tid) eqn:E.
  - intros H. inversion H; subst. apply Z.eqb_eq in E. subst. now left.
  - intros H. right. now apply IH.
Qed.

Lemma compare_category_completes (selected : Z) (selected_stats : list Stat)
    (all_teams : list Team) (all_team_stats : TeamStats) (cat_info : CatInfo)
    (categories_info : list CatInfo) :
  (List.length all_team_stats <= 64)%nat ->
  In cat_info categories_info ->
  cat_id cat_info <> EmptyString ->
  numeric_values categories_info selected_stats ->
  (forall tid stats_list, In (tid, stats_list) all_team_stats ->
     numeric_values categories_info stats_list) ->
  exists row,
    compare_category selected selected_stats all_teams all_team_stats
      cat_info = Ret row.
Proof.
  intros Hlen Hc Hid Hsel Hall.
  assert (Eid : category_stat_id cat_info = cat_id cat_info).
  { unfold category_stat_id. apply String.eqb_neq in Hid. now rewrite Hid. }
  pose proof (collect_values_all_sound all_teams selected
                (category_stat_id cat_info) (cat_name cat_info)
                all_team_stats) as Hsound.
  pose proof (collect_values_others all_teams selected
                (category_stat_id cat_info) (cat_name cat_info)
                all_team_stats) as [Hincl Hle].
  unfold compare_category. cbv zeta.
  destruct (extract_stat_value selected_stats (category_stat_id cat_info)
              (Some (cat_name cat_info))) as [sv |] eqn:Esv;
    [|now eexists].
  assert (Hsv : exists f, sv = VFloat f).
  { rewrite Eid in Esv. exact (Hsel cat_info sv Hc Esv). }
  destruct Hsv as [f ->].
  destruct (collect_values all_teams selected (category_stat_id cat_info)
              (cat_name cat_info) all_team_stats) as [av ov].
  cbn [fst snd] in Hsound, Hincl, Hle.
  assert (Hav : forall nv, In nv av -> exists g, snd nv = VFloat g).
  { intros [n x] Hin. destruct (Hsound n x Hin)
      as (tid & sl & tm & Hd & _ & _ & Hx).
    rewrite Eid in Hx. exact (Hall tid sl Hd cat_info x Hc Hx). }
  destruct av as [| first av]; [now eexists|].
  assert (Hs : exists sorted,
            py_sorted snd py_lt
              (negb (is_lower_better_stat (cat_name cat_info)
                       (Some (category_stat_id cat_info))))
              (first :: av) = Some sorted).
  { apply (py_sorted_some_iff snd py_lt order_class py_lt_order_class).
    right. exists true. apply Forall_forall. intros nv Hnv.
    destruct (Hav nv Hnv) as [g ->]. reflexivity. }
  destruct Hs as [sorted ->]. cbn [raise_type_error bind].
  destruct ov as [| o ov]; [now eexists|].
  assert (Hb : exists b,
            better_than_count
              (negb (is_lower_better_stat (cat_name cat_info)
                       (Some (category_stat_id cat_info))))
              (VFloat f) (o :: ov) = Some b).
  { unfold better_than_count, py_gt.
    destruct (negb _); apply count_where_numbers; intros nv Hnv;
      destruct (Hav nv (Hincl nv Hnv)) as [g ->]; simpl; now eexists. }
  destruct Hb as [b Hb]. rewrite Hb. cbn [raise_type_error bind].
  assert (Hbl : (b <= List.length (o :: ov))%nat).
  { unfold better_than_count in Hb.
    destruct (negb _); now apply count_where_le in Hb. }
  destruct (get_color_for_performance_small b (List.length (o :: ov)))
    as [c ->]; [lia | exact Hbl |].
  cbn [bind]. now eexists.
Qed.

(** X20: a week with at most 64 stat records in which every category of the
    sample has a stat id and every normalized value is a number is compared
    without an exception: [compare_teams] returns one of its reports. *)
Theorem compare_teams_completes (selected_team : Team)
    (all_teams : list Team) (all_team_stats : TeamStats) :
  (List.length all_team_stats <= 64)%nat ->
  (forall sample c,
     sample_stats all_team_stats = Some sample ->
     In c (get_category_info_from_stats sample) ->
     cat_id c <> EmptyString) ->
  (forall sample tid stats_list,
     sample_stats all_team_stats = Some sample ->
     In (tid, stats_list) all_team_stats ->
     numeric_values (get_category_info_from_stats sample) stats_list) ->
  exists report,
    compare_teams selected_team all_teams all_team_stats = Ret report.
Proof.
  intros Hlen Hids Hnum. unfold compare_teams.
  destruct all_team_stats as [| entry rest] eqn:Ed; [now eexists|].
  rewrite <- Ed in *.
  destruct (sample_stats all_team_stats) as [sample |] eqn:Es;
    [|now eexists].
  specialize (Hids sample). specialize (Hnum sample).
  destruct (get_category_info_from_stats sample) as [| c cats] eqn:Ec;
    [now eexists|].
  rewrite <- Ec in *.
  destruct (stats_get all_team_stats (team_id selected_team))
    as [[| s ss] |] eqn:Eg; try (now eexists).
  apply stats_get_in in Eg.
  pose proof (Hnum _ _ eq_refl Eg) as Hsel.
  assert (Hrows : exists rows,
            category_rows (team_id selected_team) (s :: ss) all_teams
              all_team_stats (get_category_info_from_stats sample)
            = Ret rows).
  { assert (Hsub : forall c', In c' (get_category_info_from_stats sample) ->
              In c' (get_category_info_from_stats sample)) by tauto.
    revert Hsub.
    generalize (get_category_info_from_stats sample) at 1 3.
    intros l. induction l as [| c' l IH]; intros Hsub; simpl;
      [now eexists|].
    destruct (compare_category_completes (team_id selected_team) (s :: ss)
                all_teams all_team_stats c'
                (get_category_info_from_stats sample))
      as [row ->]; auto.
    - apply Hsub. now left.
    - apply (Hids c' eq_refl). apply Hsub. now left.
    - intros tid sl Hin. now apply (Hnum tid sl eq_refl).
    - cbn [bind]. destruct IH as [rows ->];
        [intros c'' Hc''; apply Hsub; now right|].
      cbn [bind]. now eexists. }
  destruct Hrows as [rows ->]. cbn [bind].
  destruct (compare_head_to_head_completes (team_id selected_team) (s :: ss)
              all_teams all_team_stats (get_category_info_from_stats sample)
              Hsel) as [ms ->].
  - intros tid sl Hin. now apply (Hnum tid sl eq_refl).
  - cbn [bind]. now eexists.
Qed.

(** ** Strict counts and the directed stable sort *)

Section StableSort.

Context {A K : Type}.
Variable key : A -> K.
Variable lt : K -> K -> option bool.
Variable same : K -> K -> bool.

Hypothesis lt_not_same :
  forall k x y,
    lt y x = Some true -> same k y = true -> same k x = true -> False.

Lemma insert_sorted_stable (x : A) (l l' : list A) (k : K) :
  insert_sorted key lt x l = Some l' ->
  filter (fun a => same k (key a)) l'
  = filter (fun a => same k (key a)) (x :: l).
Proof.
  revert l'. induction l as [| y t IH]; intros l'.
  - simpl. intros H. inversion H. reflexivity.
  - cbn [insert_sorted].
    destruct (lt (key y) (key x)) as [[|] |] eqn:E; [| |discriminate].
    + destruct (insert_sorted key lt x t) as [t' |] eqn:Ei; [|discriminate].
      cbn [option_map]. intros H. inversion H; subst l'.
      specialize (IH t' eq_refl). cbn [filter] in IH |- *. rewrite IH.
      destruct (same k (key y)) eqn:Sy, (same k (key x)) eqn:Sx;
        try reflexivity.
      exfalso. exact (lt_not_same k (key x) (key y) E Sy Sx).
    + intros H. inversion H. reflexivity.
Qed.

Lemma sort_asc_stable (l s : list A) (k : K) :
  sort_asc key lt l = Some s ->
  filter (fun a => same k (key a)) s = filter (fun a => same k (key a)) l.
Proof.
  revert s. induction l as [| x t IH]; intros s.
  - simpl. intros H. inversion H. reflexivity.
  - cbn [sort_asc].
    destruct (sort_asc key lt t) as [s' |] eqn:E; [|discriminate].
    intros H. rewrite (insert_sorted_stable x s' s k H).
    cbn [filter]. now rewrite (IH s' eq_refl).
Qed.

Lemma py_sorted_stable (reverse : bool) (l s : list A) (k : K) :
  py_sorted key lt reverse l = Some s ->
  filter (fun a => same k (key a)) s = filter (fun a => same k (key a)) l.
Proof.
  unfold py_sorted. destruct reverse.
  - destruct (sort_asc key lt (rev l)) as [s' |] eqn:E; [|discriminate].
    cbn [option_map]. intros H. inversion H; subst s.
    rewrite filter_rev, (sort_asc_stable (rev l) s' k E), filter_rev.
    apply rev_involutive.
  - apply sort_asc_stable.
Qed.

End StableSort.

Lemma strongly_sorted_impl {A : Type} (R S : A -> A -> Prop) (l : list A) :
  (forall a b, R a b -> S a b) -> StronglySorted R l -> StronglySorted S l.
Proof.
  intros HRS. induction 1 as [| a t _ IH Ha]; constructor; [exact IH|].
  rewrite Forall_forall in *. intros b Hb. now apply HRS, Ha.
Qed.

Lemma float_same_not_lt (k x y : float) :
  (y =? k)%float = true -> (x =? k)%float = true -> (y <? x)%float = false.
Proof.
  rewrite !eqb_spec, ltb_spec. unfold SFeqb, SFltb.
  intros Hy Hx.
  assert (Hyk : SFcompare (Prim2SF y) (Prim2SF k) = Some Eq).
  { destruct (SFcompare (Prim2SF y) (Prim2SF k)) as [[| |] |]; congruence. }
  assert (Hxk : SFcompare (Prim2SF x) (Prim2SF k) = Some Eq).
  { destruct (SFcompare (Prim2SF x) (Prim2SF k)) as [[| |] |]; congruence. }
  assert (Hle : SFleb (Prim2SF x) (Prim2SF y) = true).
  { apply (SFleb_trans _ (Prim2SF k)); unfold SFleb.
    - now rewrite Hxk.
    - now rewrite (SFcompare_antisym (Prim2SF y) (Prim2SF k)), Hyk. }
  unfold SFleb in Hle.
  rewrite (SFcompare_antisym (Prim2SF x) (Prim2SF y)).
  destruct (SFcompare (Prim2SF x) (Prim2SF y)) as [[| |] |]; simpl;
    congruence.
Qed.

Lemma number_lt_not_same (k x y : PyVal) :
  py_lt y x = Some true -> same_number k y = true ->
  same_number k x = true -> False.
Proof.
  destruct k as [| | | | fk]; try discriminate.
  destruct y as [| | | | fy]; try discriminate.
  destruct x as [| | | | fx]; try discriminate.
  simpl. intros H Hy Hx. inversion H as [H'].
  rewrite (float_same_not_lt fk fx fy Hy Hx) in H'. discriminate.
Qed.

Lemma py_lt_false_beats (a b : PyVal) :
  py_lt a b = Some false -> beats false a b = false /\ beats true b a = false.
Proof.
  destruct a, b; simpl; try (intros _; split; reflexivity).
  intros H. inversion H as [H']. now split.
Qed.

Lemma same_number_no_beat (higher : bool) (v x : PyVal) :
  same_number v x = true -> beats higher v x = false.
Proof.
  destruct v as [| | | | s]; try discriminate.
  destruct x as [| | | | f]; try discriminate.
  simpl. rewrite eqb_spec, !ltb_spec. unfold SFeqb, SFltb.
  rewrite (SFcompare_antisym (Prim2SF f) (Prim2SF s)).
  destruct (SFcompare (Prim2SF f) (Prim2SF s)) as [[| |] |];
    try discriminate.
  now destruct higher.
Qed.

Lemma extract_stat_value_not_int (stats_list : list Stat) (id : string)
    (display : option string) (v : PyVal) :
  extract_stat_value stats_list id display = Some v ->
  match v with
  | VFloat _ | VNone | VAttr _ | VStr _ => True
  | VInt _ => False
  end.
Proof.
  intros H.
  destruct (located_value stats_list id) as [val |] eqn:El.
  - rewrite (extract_stat_value_located _ _ _ _ El) in H.
    destruct (normalize_value (percentage_applied stats_list id display) val)
      as [r | e] eqn:En; [|discriminate].
    subst r. apply normalize_value_shape in En.
    destruct En as [[f ->] | (_ & -> & _ & _ & Hf)]; [exact I|].
    destruct val as [| d | s | z | f]; try exact I.
    destruct Hf as [Hf | Hf]; apply float_of_Z_exn in Hf; discriminate.
  - rewrite (extract_stat_value_missing stats_list id display) in H;
      [discriminate|].
    left. exact El.
Qed.

Lemma better_than_count_beats (higher : bool) (v : PyVal)
    (others : list (string * PyVal)) (b : nat) :
  match v with VInt _ => False | _ => True end ->
  Forall (fun nv => is_number (snd nv)) others ->
  better_than_count higher v others = Some b ->
  b = List.length (filter (fun nv => beats higher v (snd nv)) others).
Proof.
  intros Hv Hnum. revert b.
  unfold better_than_count.
  assert (Hgen : forall b,
            count_where (fun val => if higher then py_gt v val
                                    else py_lt v val) others = Some b ->
            b = List.length
                  (filter (fun nv => beats higher v (snd nv)) others)).
  { induction Hnum as [| [n x] rest [f [Hx _]] _ IH]; intros b.
    - simpl. intros H. now inversion H.
    - cbn [snd] in Hx. subst x. cbn [count_where].
      destruct v as [| d | s | z | s]; try (destruct higher; discriminate);
        [destruct Hv|].
      assert (E : (if higher then py_gt (VFloat s) (VFloat f)
                   else py_lt (VFloat s) (VFloat f))
                  = Some (beats higher (VFloat s) (VFloat f))).
      { destruct higher; reflexivity. }
      rewrite E. cbn [filter snd].
      destruct (beats higher (VFloat s) (VFloat f));
        destruct (count_where _ rest) as [c |]; try discriminate;
        cbn [option_map]; intros H; injection H as <-;
        cbn [List.length]; now rewrite <- (IH c eq_refl). }
  destruct higher; exact Hgen.
Qed.

(** C5: in the turnover scenario (lower is better, selected value 5,
    opponents 3, 7 and 5) the row reports 1 of 3 opponents beaten, best 3
    and worst 7. In every category whose comparable values are numbers,
    the count of opponents beaten is the number of opponents whose value is
    strictly above the selected one where lower is better, strictly below
    it where higher is better, so that an opponent with the same number is
    not counted; and best and worst are the first and the last element of
    the list that holds the comparable values in the order of the
    category's direction (no value beats one that comes before it), equal
    numbers in the order they were met. *)
Theorem turnover_scenario_strict_count :
  polarity "TO" (Some "19"%string) = LowerIsBetter /\
  compare_category 1 (turnover_stats 5) example_teams turnover_dict
    turnover_category
  = Ret (RowValues "TO" (VFloat 5) "1/3" (Some YELLOW)
           ("Bulls"%string, VFloat 3) ("Colts"%string, VFloat 7)) /\
  forall selected selected_stats all_teams all_team_stats cat_info
         name v vs col best worst,
    let id := category_stat_id cat_info in
    let values :=
      fst (collect_values all_teams selected id (cat_name cat_info)
             all_team_stats) in
    let others :=
      snd (collect_values all_teams selected id (cat_name cat_info)
             all_team_stats) in
    let higher := negb (is_lower_better_stat (cat_name cat_info) (Some id)) in
    compare_category selected selected_stats all_teams all_team_stats cat_info
    = Ret (RowValues name v vs col best worst) ->
    Forall (fun nv => is_number (snd nv)) values ->
    vs = ratio_string
           (List.length (filter (fun nv => beats higher v (snd nv)) others))
           (List.length others) /\
    (forall nv, In nv others ->
       same_number v (snd nv) = true -> beats higher v (snd nv) = false) /\
    exists sorted,
      Permutation values sorted /\
      StronglySorted (fun a b => beats higher (snd b) (snd a) = false)
        sorted /\
      (forall k,
         filter (fun nv => same_number k (snd nv)) sorted
         = filter (fun nv => same_number k (snd nv)) values) /\
      hd_error sorted = Some best /\ last sorted best = worst.
Proof.
  split; [reflexivity|]. split; [vm_compute; reflexivity|].
  intros selected selected_stats all_teams all_team_stats cat_info
    name v vs col best worst id values others higher H Hnum.
  destruct (compare_category_row _ _ _ _ _ _ _ _ _ _ _ H)
    as (Hv & (sorted & Hs & Hh & Hl) & (b & Hvs & Hle & Hb)).
  fold id in Hv, Hs, Hvs, Hle, Hb.
  change (fst (collect_values all_teams selected id (cat_name cat_info)
                 all_team_stats)) with values in Hs.
  change (snd (collect_values all_teams selected id (cat_name cat_info)
                 all_team_stats)) with others in Hvs, Hle, Hb.
  fold higher in Hs, Hb.
  assert (Hoth : Forall (fun nv => is_number (snd nv)) others).
  { rewrite Forall_forall in *. intros nv Hnv. apply Hnum.
    now apply (proj1 (collect_values_others all_teams selected id
                        (cat_name cat_info) all_team_stats)). }
  split; [|split].
  - rewrite Hvs. f_equal.
    destruct others as [| o rest] eqn:Eo.
    + simpl in *. lia.
    + apply better_than_count_beats; [|exact Hoth|apply Hb; discriminate].
      pose proof (extract_stat_value_not_int _ _ _ _ Hv) as Hni.
      destruct v; exact I || exact Hni.
  - intros nv _. apply same_number_no_beat.
  - exists sorted.
    split; [exact (py_sorted_perm snd py_lt _ _ _ Hs)|].
    split; [|split; [|now split]].
    + unfold py_sorted in Hs. destruct higher.
      * destruct (sort_asc snd py_lt (rev values)) as [s' |] eqn:Es;
          [|discriminate].
        cbn [option_map] in Hs. inversion Hs; subst sorted.
        assert (Hasc : ascending snd py_lt s').
        { apply (sort_asc_ascending snd py_lt is_number py_lt_asym
                   number_not_lt_trans (rev values)); [|exact Es].
          apply (Permutation_Forall (Permutation_rev values)). exact Hnum. }
        apply strongly_sorted_rev in Hasc.
        revert Hasc. apply strongly_sorted_impl.
        intros a c Hac. exact (proj2 (py_lt_false_beats _ _ Hac)).
      * assert (Hasc : ascending snd py_lt sorted).
        { now apply (sort_asc_ascending snd py_lt is_number py_lt_asym
                       number_not_lt_trans values). }
        revert Hasc. apply strongly_sorted_impl.
        intros a c Hac. exact (proj1 (py_lt_false_beats _ _ Hac)).
    + intros k.
      exact (py_sorted_stable snd py_lt same_number number_lt_not_same
               higher values sorted k Hs).
Qed.


End Builtins.

(** * Concrete runs *)

(** C1 at the raw string ["454"] of a field-goal percentage. *)
Lemma convert_percentage_value_piecewise_witness :
  convert_percentage_value float_of_digits (VStr "454")
  = Ret (Some (percentage_scale 454%float)) /\
  extract_stat_value float_of_digits int_of_digits percent_stats "5"
    (Some "FG%"%string)
  = Some (VFloat 0.45399999999999996%float).
Proof.
  pose proof (convert_percentage_value_piecewise float_of_digits
                int_of_digits (VStr "454") 454%float eq_refl) as [H1 [H2 _]].
  split; [exact H1|].
  apply (H2 percent_stats "5"%string (Some "FG%"%string) eq_refl eq_refl).
  unfold missing_raw. intuition discriminate.
Defined.

(** C1 as stated fails: the raw value 454 does not normalize to the binary64
    number written 0.454. *)
Lemma convert_percentage_value_454_not_0_454 :
  convert_percentage_value float_of_digits (VInt 454)
  <> Ret (Some 0.454%float).
Proof.
  intros H.
  assert (E : 0.45399999999999996%float = 0.454%float).
  { pose proof (f_equal (fun o => match o with
                                  | Ret (Some f) => f
                                  | _ => 0%float
                                  end) H) as E.
    exact E. }
  pose proof (f_equal (fun x => PrimFloat.eqb x 0.454%float) E) as E'.
  vm_compute in E'. discriminate.
Qed.

(** C2 at a team whose points value is the placeholder. *)
Lemma missing_value_is_none_and_excluded_witness :
  extract_stat_value float_of_digits int_of_digits slash_stats "12"
    (Some "PTS"%string) = None /\
  collect_values float_of_digits int_of_digits example_teams 1 "12" "PTS"
    (short_dict ++ [(3, slash_stats)])
  = collect_values float_of_digits int_of_digits example_teams 1 "12" "PTS"
      (short_dict ++ []).
Proof.
  pose proof (missing_value_is_none_and_excluded float_of_digits
                int_of_digits slash_stats "12" "PTS" example_teams 1 3
                short_dict []
                (or_intror (or_intror (or_intror eq_refl)))) as H.
  split; [exact (proj1 H) | exact (proj1 (proj2 H))].
Defined.

(** C6 at the turnover scenario, the dict read in reverse order. *)
Lemma beaten_count_bounded_order_independent_witness :
  row_ratio (compare_category float_of_digits int_of_digits 1
               (turnover_stats 5) example_teams turnover_dict
               turnover_category)
  = row_ratio (compare_category float_of_digits int_of_digits 1
                 (turnover_stats 5) example_teams (rev turnover_dict)
                 turnover_category).
Proof.
  exact (proj2 (proj2 (proj2 (proj2
    (beaten_count_bounded_order_independent float_of_digits int_of_digits 1
       (turnover_stats 5) example_teams turnover_dict (rev turnover_dict)
       turnover_category (Permutation_rev turnover_dict)))))).
Defined.

Lemma turnover_head_to_head :
  compare_head_to_head float_of_digits int_of_digits 1 (turnover_stats 5)
    example_teams turnover_dict [turnover_category]
  = Ret turnover_matchups.
Proof. vm_compute. reflexivity. Qed.

(** C7 at the turnover scenario, for the opponent with 7 turnovers. *)
Lemma head_to_head_tally_bound_witness :
  exists tid stats_list,
    In (tid, stats_list) turnover_dict /\ tid <> 1 /\
    team_lookup example_teams tid = Some (mkTeam 3 "Colts") /\
    (1 + 0 + 0 = 1)%nat /\
    (1 + 0 + 0 <= List.length [turnover_category])%nat /\
    ((1 + 0 + 0 = List.length [turnover_category])%nat <->
     forall c, In c [turnover_category] ->
       cat_id c <> EmptyString /\
       extract_stat_value float_of_digits int_of_digits (turnover_stats 5)
         (cat_id c) (Some (cat_name c)) <> None /\
       extract_stat_value float_of_digits int_of_digits stats_list
         (cat_id c) (Some (cat_name c)) <> None).
Proof.
  exact (head_to_head_tally_bound float_of_digits int_of_digits 1
           (turnover_stats 5) example_teams turnover_dict [turnover_category]
           turnover_matchups turnover_head_to_head
           (mkMatchupResult (mkTeam 3 "Colts") "1-0" 1 0 [("TO"%string, W)])
           (or_introl eq_refl)).
Defined.

(** C7 as stated fails: a category with an empty stat id is skipped although
    both sides have a normalized value, so the tally stays below the number
    of categories with no value missing. *)
Lemma empty_id_category_skipped_with_values :
  get_category_info_from_stats (blank_id_stats 10) = [mkCatInfo "" "PTS" 0] /\
  compare_head_to_head float_of_digits int_of_digits 1 (blank_id_stats 10)
    example_teams blank_id_dict [mkCatInfo "" "PTS" 0]
  = Ret [mkMatchupResult (mkTeam 2 "Bulls") "0-0" 0 0 []] /\
  ~ (forall r,
       In r [mkMatchupResult (mkTeam 2 "Bulls") "0-0" 0 0 []] ->
       ((wins r + losses r + ties r
         = List.length [mkCatInfo "" "PTS" 0])%nat <->
        forall c, In c [mkCatInfo "" "PTS" 0] ->
          extract_stat_value float_of_digits int_of_digits (blank_id_stats 10)
            (cat_id c) (Some (cat_name c)) <> None /\
          extract_stat_value float_of_digits int_of_digits (blank_id_stats 8)
            (cat_id c) (Some (cat_name c)) <> None)).
Proof.
  split; [reflexivity|]. split; [vm_compute; reflexivity|].
  intros H.
  specialize (H _ (or_introl eq_refl)). destruct H as [_ H].
  assert (E : (0 + 0 + 0 = 1)%nat); [|discriminate].
  apply H. intros c [<- | []]. split; vm_compute; discriminate.
Qed.

(** C8 at the turnover scenario. *)
Lemma head_to_head_results_sorted_witness :
  exists unsorted,
    matchup_results float_of_digits int_of_digits 1 (turnover_stats 5)
      example_teams [turnover_category] turnover_dict = Ret unsorted /\
    map team unsorted = opponents example_teams 1 turnover_dict /\
    Permutation (map team turnover_matchups)
      (opponents example_teams 1 turnover_dict) /\
    StronglySorted (fun a b => (wins b <= wins a)%nat) turnover_matchups /\
    forall w, filter (fun r => (wins r =? w)%nat) turnover_matchups
              = filter (fun r => (wins r =? w)%nat) unsorted.
Proof.
  destruct (head_to_head_results_sorted float_of_digits int_of_digits 1
              (turnover_stats 5) example_teams turnover_dict
              [turnover_category] turnover_matchups turnover_head_to_head)
    as (unsorted & H1 & H2 & H3 & _ & _ & H6 & H7).
  exists unsorted. repeat split; assumption.
Defined.

(** C8 as stated fails: a roster member without a stat record for the week
    gets no head-to-head result. *)
Lemma roster_member_without_record_has_no_result :
  compare_head_to_head float_of_digits int_of_digits 1 (points_stats 10)
    short_roster short_dict [points_category]
  = Ret [mkMatchupResult (mkTeam 2 "Bulls") "1-0" 1 0 [("PTS"%string, W)]] /\
  ~ (forall t, In t short_roster -> team_id t <> 1 ->
       exists r,
         In r [mkMatchupResult (mkTeam 2 "Bulls") "1-0" 1 0
                 [("PTS"%string, W)]] /\
         team r = t).
Proof.
  split; [vm_compute; reflexivity|].
  intros H.
  destruct (H (mkTeam 3 "Colts")) as [r [[<- | []] Hr]].
  - simpl. tauto.
  - simpl. discriminate.
  - simpl in Hr. discriminate.
Qed.

(** C9 at a week in which the two opponents have no points value. *)
Lemma zero_opponents_row_witness :
  exists row,
    compare_category float_of_digits int_of_digits 1 (points_stats 10)
      example_teams lonely_dict points_category = Ret row /\
    row = RowValues "PTS" (VFloat 10) "0/0" None
            ("Aces"%string, VFloat 10) ("Aces"%string, VFloat 10) /\
    vs_teams_colored row = "-"%string /\
    vs_teams_colored row <> "0/0"%string.
Proof.
  refine (proj1 (zero_opponents_row float_of_digits int_of_digits 1
                   (points_stats 10) example_teams lonely_dict
                   points_category (mkTeam 1 "Aces") (VFloat 10)
                   _ eq_refl eq_refl eq_refl eq_refl)).
  repeat constructor; simpl; intuition discriminate.
Defined.

(** C9 as stated fails: in a week in which the selected team has a points
    value and no opponent has one, the row is printed with a dash in the
    "vs Teams" column, not with "0/0". *)
Lemma zero_opponents_row_prints_dash :
  snd (collect_values float_of_digits int_of_digits example_teams 1
         (category_stat_id points_category) (cat_name points_category)
         lonely_dict) = [] /\
  exists row,
    compare_category float_of_digits int_of_digits 1 (points_stats 10)
      example_teams lonely_dict points_category = Ret row /\
    vs_teams_colored row = "-"%string /\
    vs_teams_colored row <> "0/0"%string.
Proof.
  split; [vm_compute; reflexivity|].
  eexists. split; [vm_compute; reflexivity|].
  split; [reflexivity | discriminate].
Qed.

(** C10 at the raw value ["-"] of a points stat that is reached by its
    index. *)
Lemma unparsed_value_passes_through_witness :
  extract_stat_value float_of_digits int_of_digits bare_dash_stats "0"
    (Some "PTS"%string) = Some (VStr "-").
Proof.
  refine (proj1 (unparsed_value_passes_through float_of_digits int_of_digits
                   bare_dash_stats "0" (Some "PTS"%string) (VStr "-")
                   eq_refl eq_refl _ _ (or_introl eq_refl))).
  - intros _ stat H. vm_compute in H. injection H as <-. now eexists.
  - unfold missing_raw. intuition discriminate.
Defined.

(** * Concrete runs of the further properties *)

(** X2 at the raw value ["-"]. *)
Lemma extract_stat_value_shape_witness :
  (exists f, VStr "-" = VFloat f) \/
  (located_value int_of_digits dash_stats "12" = Some (VStr "-") /\
   percentage_applied int_of_digits dash_stats "12" (Some "PTS"%string)
   = false /\
   truthy (VStr "-") = true /\ ~ missing_raw (Some (VStr "-")) /\
   (py_float float_of_digits (VStr "-") = Exc ValueError \/
    py_float float_of_digits (VStr "-") = Exc TypeError)).
Proof.
  exact (extract_stat_value_shape float_of_digits int_of_digits dash_stats
           "12" (Some "PTS"%string) (VStr "-") eq_refl).
Defined.

(** X3 at the int 2^1024. *)
Lemma overflow_is_swallowed_witness :
  convert_percentage_value float_of_digits (VInt (2 ^ 1024))
  = Exc OverflowError /\
  extract_stat_value float_of_digits int_of_digits overflow_stats "12"
    (Some "PTS"%string) = None.
Proof.
  exact (overflow_is_swallowed float_of_digits int_of_digits overflow_stats
           "12" (Some "PTS"%string) (2 ^ 1024) OverflowError
           eq_refl eq_refl).
Defined.

(** X6 at the turnover stat of the example stats. *)
Lemma category_lookup_round_trip_witness :
  cat_id (mkCatInfo "19" "TO" 3) = "19"%string /\
  located_value int_of_digits example_stats "19" = Some (VStr "14") /\
  extract_stat_value float_of_digits int_of_digits example_stats "19"
    (Some "TO"%string)
  = match normalize_value float_of_digits
            (is_percentage_stat "19" (Some "TO"%string)) (VStr "14") with
    | Ret r => r
    | Exc _ => None
    end.
Proof.
  refine (category_lookup_round_trip float_of_digits int_of_digits
            example_stats (mkCatInfo "19" "TO" 3)
            (mkStat (Some "19") (Some "TO") (Some (VStr "14")))%string
            "19" (VStr "14") _ _ eq_refl eq_refl eq_refl).
  - repeat constructor; simpl; intuition discriminate.
  - simpl. tauto.
Defined.

(** X7 at the second of two stats without ids. *)
Lemma category_index_round_trip_witness :
  cat_id (mkCatInfo "1" "REB" 1) = PyStr.of_nat 1 /\
  located_value int_of_digits bare_stats "1" = Some (VStr "40") /\
  extract_stat_value float_of_digits int_of_digits bare_stats "1"
    (Some "REB"%string)
  = match normalize_value float_of_digits (PyStr.contains "%" "REB")
            (VStr "40") with
    | Ret r => r
    | Exc _ => None
    end.
Proof.
  refine (category_index_round_trip float_of_digits int_of_digits
            bare_stats (mkCatInfo "1" "REB" 1)
            (mkStat None (Some "REB") (Some (VStr "40")))%string
            (VStr "40") _ eq_refl eq_refl eq_refl eq_refl eq_refl).
  simpl. tauto.
Defined.

(** X11 at a week in which one opponent's points are ["-"]. *)
Lemma mixed_values_raise_type_error_witness :
  compare_category float_of_digits int_of_digits 1 (points_stats 10)
    example_teams mixed_dict points_category
  = Exc TypeError.
Proof.
  refine (mixed_values_raise_type_error float_of_digits int_of_digits 1
            (points_stats 10) example_teams mixed_dict points_category
            (VFloat 10) 1 2 (points_stats 10) dash_stats
            (mkTeam 1 "Aces") (mkTeam 2 "Bulls") 10%float "-"
            eq_refl _ eq_refl eq_refl _ eq_refl eq_refl).
  - simpl. tauto.
  - simpl. tauto.
Defined.

(** X12 at 7 of 10. *)
Lemma colour_follows_exact_fractions_witness :
  get_color_for_performance 7 10 = Ret (color_by_tenths 7 10).
Proof.
  apply colour_follows_exact_fractions; lia.
Defined.

(** X13 at the teams with 5 and 7 turnovers. *)
Lemma tally_categories_swap_witness :
  tally_categories float_of_digits int_of_digits (turnover_stats 7)
    (turnover_stats 5) [turnover_category]
  = Ret (0%nat, 1%nat,
         map (fun entry => (fst entry, flip_code (snd entry)))
           [("TO"%string, W)]).
Proof.
  exact (tally_categories_swap float_of_digits int_of_digits
           (turnover_stats 5) (turnover_stats 7) [turnover_category]
           1%nat 0%nat [("TO"%string, W)] eq_refl).
Defined.

(** X14 at the answers "x", "9" and " 2 ". *)
Lemma select_team_returns_listed_team_witness :
  In (mkTeam 2 "Bulls") example_teams /\
  exists skipped s rest n,
    [Line "x"; Line "9"; Line " 2 "]%string = skipped ++ Line s :: rest /\
    Forall (refused_answer int_of_digits (List.length example_teams))
      skipped /\
    int_of_digits (strip s) = Some n /\
    1 <= n <= Z.of_nat (List.length example_teams) /\
    nth_error example_teams (Z.to_nat (n - 1)) = Some (mkTeam 2 "Bulls").
Proof.
  exact (select_team_returns_listed_team int_of_digits example_teams
           [Line "x"; Line "9"; Line " 2 "]%string (mkTeam 2 "Bulls")
           eq_refl).
Defined.

Lemma week_matchups_dict :
  get_all_team_stats_from_matchups week_matchups = turnover_dict.
Proof. reflexivity. Qed.

Lemma turnover_main_compare :
  main_compare float_of_digits int_of_digits example_teams example_teams
    [Line "1"%string] (get_all_team_stats_from_matchups week_matchups)
  = Chosen turnover_report.
Proof. vm_compute. reflexivity. Qed.

(** X16 at the turnover week, the first team chosen. *)
Lemma main_compares_a_listed_team_witness :
  exists selected_team t',
    select_team int_of_digits example_teams [Line "1"%string]
    = Chosen selected_team /\
    In selected_team example_teams /\
    compare_teams float_of_digits int_of_digits selected_team example_teams
      (get_all_team_stats_from_matchups week_matchups)
    = Ret turnover_report /\
    team_lookup example_teams (team_id selected_team) = Some t' /\
    team_id t' = team_id selected_team.
Proof.
  exact (main_compares_a_listed_team float_of_digits int_of_digits
           example_teams example_teams [Line "1"%string]
           (get_all_team_stats_from_matchups week_matchups) turnover_report
           turnover_main_compare
           (fun t Hin => in_map team_id example_teams t Hin)).
Defined.

Lemma turnover_row :
  compare_category float_of_digits int_of_digits 1 (turnover_stats 5)
    example_teams turnover_dict turnover_category
  = Ret (RowValues "TO" (VFloat 5) "1/3" (Some YELLOW)
           ("Bulls"%string, VFloat 3) ("Colts"%string, VFloat 7)).
Proof. vm_compute. reflexivity. Qed.

Lemma turnover_values_are_numbers :
  Forall (fun nv => is_number (snd nv))
    (fst (collect_values float_of_digits int_of_digits example_teams 1
            (category_stat_id turnover_category)
            (cat_name turnover_category) turnover_dict)).
Proof.
  repeat constructor; eexists; (split; [reflexivity | reflexivity]).
Qed.

(** C5 at the turnover scenario. *)
Lemma turnover_scenario_strict_count_witness :
  "1/3"%string
  = ratio_string
      (List.length
         (filter (fun nv => beats false (VFloat 5) (snd nv))
            [("Bulls"%string, VFloat 3); ("Colts"%string, VFloat 7);
             ("Ducks"%string, VFloat 5)]))
      3 /\
  (forall nv,
     In nv [("Bulls"%string, VFloat 3); ("Colts"%string, VFloat 7);
            ("Ducks"%string, VFloat 5)] ->
     same_number (VFloat 5) (snd nv) = true ->
     beats false (VFloat 5) (snd nv) = false) /\
  exists sorted,
    Permutation
      [("Aces"%string, VFloat 5); ("Bulls"%string, VFloat 3);
       ("Colts"%string, VFloat 7); ("Ducks"%string, VFloat 5)] sorted /\
    StronglySorted (fun a b => beats false (snd b) (snd a) = false) sorted /\
    (forall k,
       filter (fun nv => same_number k (snd nv)) sorted
       = filter (fun nv => same_number k (snd nv))
           [("Aces"%string, VFloat 5); ("Bulls"%string, VFloat 3);
            ("Colts"%string, VFloat 7); ("Ducks"%string, VFloat 5)]) /\
    hd_error sorted = Some ("Bulls"%string, VFloat 3) /\
    last sorted ("Bulls"%string, VFloat 3) = ("Colts"%string, VFloat 7).
Proof.
  exact (proj2 (proj2 (turnover_scenario_strict_count float_of_digits
                         int_of_digits))
           1 (turnover_stats 5) example_teams turnover_dict turnover_category
           "TO"%string (VFloat 5) "1/3"%string (Some YELLOW)
           ("Bulls"%string, VFloat 3) ("Colts"%string, VFloat 7)
           turnover_row turnover_values_are_numbers).
Defined.

(** X18 at the turnover scenario. *)
Lemma best_and_worst_are_extremes_witness :
  In ("Bulls"%string, VFloat 3)
    (fst (collect_values float_of_digits int_of_digits example_teams 1
            (category_stat_id turnover_category)
            (cat_name turnover_category) turnover_dict)) /\
  In ("Colts"%string, VFloat 7)
    (fst (collect_values float_of_digits int_of_digits example_teams 1
            (category_stat_id turnover_category)
            (cat_name turnover_category) turnover_dict)) /\
  forall nv,
    In nv
      (fst (collect_values float_of_digits int_of_digits example_teams 1
              (category_stat_id turnover_category)
              (cat_name turnover_category) turnover_dict)) ->
    ~ strictly_better
        (negb (is_lower_better_stat (cat_name turnover_category)
                 (Some (category_stat_id turnover_category))))
        (snd nv) (VFloat 3) /\
    ~ strictly_better
        (negb (is_lower_better_stat (cat_name turnover_category)
                 (Some (category_stat_id turnover_category))))
        (VFloat 7) (snd nv).
Proof.
  exact (best_and_worst_are_extremes float_of_digits int_of_digits 1
           (turnover_stats 5) example_teams turnover_dict turnover_category
           "TO" (VFloat 5) "1/3" (Some YELLOW)
           ("Bulls"%string, VFloat 3) ("Colts"%string, VFloat 7)
           turnover_row turnover_values_are_numbers).
Defined.

(** X20 at the turnover week. *)
Lemma compare_teams_completes_witness :
  exists report,
    compare_teams float_of_digits int_of_digits (mkTeam 1 "Aces")
      example_teams turnover_dict = Ret report.
Proof.
  apply compare_teams_completes.
  - simpl. lia.
  - intros sample c Hs Hc. inversion Hs; subst sample.
    destruct Hc as [<- | []]. discriminate.
  - intros sample tid stats_list Hs Hin. inversion Hs; subst sample.
    intros c v Hc Hv. destruct Hc as [<- | []].
    destruct Hin as [E | [E | [E | [E | []]]]]; inversion E; subst;
      vm_compute in Hv; inversion Hv; eexists; reflexivity.
Defined.

